(** * TurboMIDI: the Elektron TurboMIDI speed-negotiation engine

    A shallow embedding of [TurboMidi.hpp] (the protocol engine) and of the
    [MockPlatform] of [tests.cpp] (the transport the tests drive it with),
    followed by the properties of the engine.

    Conventions:
    - a [uint8_t] is a [Z] in [0, 256); a [uint32_t] is a [Z] in [0, 2^32),
      and its arithmetic is written with [u32] (reduction modulo 2^32);
    - [SpeedMultiplier] and [CommandID] are [enum class : uint8_t]; the
      engine builds them by [static_cast] from wire bytes, so any byte is a
      value of the type: they are modelled by the byte, and a [switch] by a
      chain of comparisons ending in the [default] branch;
    - a [std::vector<uint8_t>] is a [list Z], [v[i]] is [nth i v 0];
    - the engine object is a record, every method a function from the
      record to the new record (and a result, when it returns one);
    - the platform behind the [IPlatform*] is part of the engine state
      (field [platform_]), its virtual methods are a type class;
    - the [while] loops that wait on the clock take a fuel argument and
      return [None] when it runs out. *)

From Stdlib Require Import ZArith List Bool Lia.
Import ListNotations.
Open Scope Z_scope.

(** ** Constants *)

Definition SYSEX_START : Z := 0xF0.
Definition SYSEX_END : Z := 0xF7.
Definition ACTIVE_SENSING : Z := 0xFE.

Definition ELEKTRON_ID : list Z := [0x00; 0x20; 0x3C; 0x00; 0x00].

(** [enum class CommandID : uint8_t] *)
Definition CommandID := Z.
Definition SPEED_REQ : CommandID := 0x10.
Definition SPEED_ANSWER : CommandID := 0x11.
Definition SPEED_NEG : CommandID := 0x12.
Definition SPEED_ACK : CommandID := 0x13.
Definition SPEED_TEST : CommandID := 0x14.
Definition SPEED_RESULT : CommandID := 0x15.
Definition SPEED_TEST2 : CommandID := 0x16.
Definition SPEED_RESULT2 : CommandID := 0x17.
Definition SPEED_PUSH : CommandID := 0x20.

(** [enum class SpeedMultiplier : uint8_t] *)
Definition SpeedMultiplier := Z.
Definition SPEED_1X : SpeedMultiplier := 1.
Definition SPEED_2X : SpeedMultiplier := 2.
Definition SPEED_3_3X : SpeedMultiplier := 3.
Definition SPEED_4X : SpeedMultiplier := 4.
Definition SPEED_5X : SpeedMultiplier := 5.
Definition SPEED_6_6X : SpeedMultiplier := 6.
Definition SPEED_8X : SpeedMultiplier := 7.
Definition SPEED_10X : SpeedMultiplier := 8.
Definition SPEED_13_3X : SpeedMultiplier := 9.
Definition SPEED_16X : SpeedMultiplier := 10.
Definition SPEED_20X : SpeedMultiplier := 11.

Inductive DeviceRole := MASTER | SLAVE | ANY.

Definition DeviceRole_eqb (a b : DeviceRole) : bool :=
  match a, b with
  | MASTER, MASTER | SLAVE, SLAVE | ANY, ANY => true
  | _, _ => false
  end.

(** Fixed-width arithmetic. *)
Definition u8 (x : Z) : Z := x mod 256.
Definition u32 (x : Z) : Z := x mod 2 ^ 32.

(** ** SpeedConfig *)

Record SpeedConfig := mkSpeedConfig {
  mask1 : Z;
  mask2 : Z;
  cert1 : Z;
  cert2 : Z
}.

(** [m |= (1 << k)] on a [uint8_t]. *)
Definition or_bit (m k : Z) : Z := u8 (Z.lor m (Z.shiftl 1 k)).

(** [return m & (1 << k);] converted to [bool]. *)
Definition and_bit (m k : Z) : bool := negb (Z.land m (Z.shiftl 1 k) =? 0).

(** One [case] of [addSpeed] on the first pair of bytes. *)
Definition addSpeed1 (k : Z) (certified : bool) (c : SpeedConfig) : SpeedConfig :=
  {| mask1 := or_bit (mask1 c) k;
     mask2 := mask2 c;
     cert1 := if certified then or_bit (cert1 c) k else cert1 c;
     cert2 := cert2 c |}.

(** One [case] of [addSpeed] on the second pair of bytes. *)
Definition addSpeed2 (k : Z) (certified : bool) (c : SpeedConfig) : SpeedConfig :=
  {| mask1 := mask1 c;
     mask2 := or_bit (mask2 c) k;
     cert1 := cert1 c;
     cert2 := if certified then or_bit (cert2 c) k else cert2 c |}.

Definition addSpeed (speed : SpeedMultiplier) (certified : bool)
    (c : SpeedConfig) : SpeedConfig :=
  if speed =? SPEED_2X then addSpeed1 0 certified c
  else if speed =? SPEED_3_3X then addSpeed1 1 certified c
  else if speed =? SPEED_4X then addSpeed1 2 certified c
  else if speed =? SPEED_5X then addSpeed1 3 certified c
  else if speed =? SPEED_6_6X then addSpeed1 4 certified c
  else if speed =? SPEED_8X then addSpeed1 5 certified c
  else if speed =? SPEED_10X then addSpeed1 6 certified c
  else if speed =? SPEED_13_3X then addSpeed2 0 certified c
  else if speed =? SPEED_16X then addSpeed2 1 certified c
  else if speed =? SPEED_20X then addSpeed2 2 certified c
  else c.

Definition hasSpeed (c : SpeedConfig) (speed : SpeedMultiplier) : bool :=
  if speed =? SPEED_2X then and_bit (mask1 c) 0
  else if speed =? SPEED_3_3X then and_bit (mask1 c) 1
  else if speed =? SPEED_4X then and_bit (mask1 c) 2
  else if speed =? SPEED_5X then and_bit (mask1 c) 3
  else if speed =? SPEED_6_6X then and_bit (mask1 c) 4
  else if speed =? SPEED_8X then and_bit (mask1 c) 5
  else if speed =? SPEED_10X then and_bit (mask1 c) 6
  else if speed =? SPEED_13_3X then and_bit (mask2 c) 0
  else if speed =? SPEED_16X then and_bit (mask2 c) 1
  else if speed =? SPEED_20X then and_bit (mask2 c) 2
  else false.

Definition isCertified (c : SpeedConfig) (speed : SpeedMultiplier) : bool :=
  if speed =? SPEED_2X then and_bit (cert1 c) 0
  else if speed =? SPEED_3_3X then and_bit (cert1 c) 1
  else if speed =? SPEED_4X then and_bit (cert1 c) 2
  else if speed =? SPEED_5X then and_bit (cert1 c) 3
  else if speed =? SPEED_6_6X then and_bit (cert1 c) 4
  else if speed =? SPEED_8X then and_bit (cert1 c) 5
  else if speed =? SPEED_10X then and_bit (cert1 c) 6
  else if speed =? SPEED_13_3X then and_bit (cert2 c) 0
  else if speed =? SPEED_16X then and_bit (cert2 c) 1
  else if speed =? SPEED_20X then and_bit (cert2 c) 2
  else false.

(** A default-constructed [SpeedConfig]. *)
Definition SpeedConfig_default : SpeedConfig := mkSpeedConfig 0 0 0 0.

(** ** CommandBuilder *)

Definition buildCommand (cmd : CommandID) (payload : list Z) : list Z :=
  [SYSEX_START] ++ ELEKTRON_ID ++ [cmd] ++ payload ++ [SYSEX_END].

Definition buildSpeedReq : list Z := buildCommand SPEED_REQ [].

Definition buildSpeedAnswer (config : SpeedConfig) : list Z :=
  buildCommand SPEED_ANSWER
    [mask1 config; mask2 config; cert1 config; cert2 config].

Definition buildSpeedNeg (testSpeed targetSpeed : SpeedMultiplier) : list Z :=
  buildCommand SPEED_NEG [testSpeed; targetSpeed].

Definition buildSpeedAck : list Z := buildCommand SPEED_ACK [].

Definition buildSpeedTest : list Z :=
  buildCommand SPEED_TEST [0x55; 0x55; 0x55; 0x55; 0x00; 0x00; 0x00; 0x00].

Definition buildSpeedResult : list Z :=
  buildCommand SPEED_RESULT [0x55; 0x55; 0x55; 0x55; 0x00; 0x00; 0x00; 0x00].

Definition buildSpeedTest2 : list Z := buildCommand SPEED_TEST2 [].

Definition buildSpeedResult2 : list Z := buildCommand SPEED_RESULT2 [].

Definition buildSpeedPush (speed : SpeedMultiplier) : list Z :=
  buildCommand SPEED_PUSH [speed].

(** ** The platform abstraction layer

    [IPlatform] is a pure virtual class; the engine holds a pointer to it.
    A platform state is a value of [P], every method a function on it.
    [receiveMidiData n p] is the call with [maxLength = n]: the bytes read
    and the platform after the read. *)

Class IPlatform (P : Type) := {
  sendMidiData : list Z -> P -> P;
  receiveMidiData : nat -> P -> list Z * P;
  getMillis : P -> Z;
  setBaudRate : Z -> P -> P;
  delayMs : Z -> P -> P
}.

(** ** The engine *)

Inductive TestState := IDLE | WAITING_FOR_TEST | WAITING_FOR_TEST2.

(** An invocation of one of the two [std::function] callbacks. *)
Inductive Callback :=
| SpeedChanged (speed : SpeedMultiplier)
| SpeedRequest.

Section Engine.

Context {P : Type} `{IPlatform P}.

(** The data members of [class TurboMIDI]. [onSpeedChanged] and
    [onSpeedRequest] tell whether the callback holds a target; [calls_] is
    the sequence of callback invocations made so far. *)
Record TurboMIDI := mkTurboMIDI {
  platform_ : P;
  role_ : DeviceRole;
  localConfig_ : SpeedConfig;
  currentSpeed_ : SpeedMultiplier;
  lastActiveSenseTime_ : Z;
  lastMessageTime_ : Z;
  incomingBuffer_ : list Z;
  testState_ : TestState;
  pendingTestSpeed_ : SpeedMultiplier;
  pendingTargetSpeed_ : SpeedMultiplier;
  onSpeedChanged : bool;
  onSpeedRequest : bool;
  calls_ : list Callback
}.

(** Assignments to one data member. *)
Definition set_platform (p : P) (t : TurboMIDI) : TurboMIDI :=
  mkTurboMIDI p (role_ t) (localConfig_ t) (currentSpeed_ t)
    (lastActiveSenseTime_ t) (lastMessageTime_ t) (incomingBuffer_ t)
    (testState_ t) (pendingTestSpeed_ t) (pendingTargetSpeed_ t)
    (onSpeedChanged t) (onSpeedRequest t) (calls_ t).

Definition set_localConfig (c : SpeedConfig) (t : TurboMIDI) : TurboMIDI :=
  mkTurboMIDI (platform_ t) (role_ t) c (currentSpeed_ t)
    (lastActiveSenseTime_ t) (lastMessageTime_ t) (incomingBuffer_ t)
    (testState_ t) (pendingTestSpeed_ t) (pendingTargetSpeed_ t)
    (onSpeedChanged t) (onSpeedRequest t) (calls_ t).

Definition set_currentSpeed (s : SpeedMultiplier) (t : TurboMIDI) : TurboMIDI :=
  mkTurboMIDI (platform_ t) (role_ t) (localConfig_ t) s
    (lastActiveSenseTime_ t) (lastMessageTime_ t) (incomingBuffer_ t)
    (testState_ t) (pendingTestSpeed_ t) (pendingTargetSpeed_ t)
    (onSpeedChanged t) (onSpeedRequest t) (calls_ t).

Definition set_lastActiveSenseTime (x : Z) (t : TurboMIDI) : TurboMIDI :=
  mkTurboMIDI (platform_ t) (role_ t) (localConfig_ t) (currentSpeed_ t)
    x (lastMessageTime_ t) (incomingBuffer_ t)
    (testState_ t) (pendingTestSpeed_ t) (pendingTargetSpeed_ t)
    (onSpeedChanged t) (onSpeedRequest t) (calls_ t).

Definition set_lastMessageTime (x : Z) (t : TurboMIDI) : TurboMIDI :=
  mkTurboMIDI (platform_ t) (role_ t) (localConfig_ t) (currentSpeed_ t)
    (lastActiveSenseTime_ t) x (incomingBuffer_ t)
    (testState_ t) (pendingTestSpeed_ t) (pendingTargetSpeed_ t)
    (onSpeedChanged t) (onSpeedRequest t) (calls_ t).

Definition set_incomingBuffer (b : list Z) (t : TurboMIDI) : TurboMIDI :=
  mkTurboMIDI (platform_ t) (role_ t) (localConfig_ t) (currentSpeed_ t)
    (lastActiveSenseTime_ t) (lastMessageTime_ t) b
    (testState_ t) (pendingTestSpeed_ t) (pendingTargetSpeed_ t)
    (onSpeedChanged t) (onSpeedRequest t) (calls_ t).

Definition set_testState (s : TestState) (t : TurboMIDI) : TurboMIDI :=
  mkTurboMIDI (platform_ t) (role_ t) (localConfig_ t) (currentSpeed_ t)
    (lastActiveSenseTime_ t) (lastMessageTime_ t) (incomingBuffer_ t)
    s (pendingTestSpeed_ t) (pendingTargetSpeed_ t)
    (onSpeedChanged t) (onSpeedRequest t) (calls_ t).

Definition set_pendingTestSpeed (s : SpeedMultiplier) (t : TurboMIDI) : TurboMIDI :=
  mkTurboMIDI (platform_ t) (role_ t) (localConfig_ t) (currentSpeed_ t)
    (lastActiveSenseTime_ t) (lastMessageTime_ t) (incomingBuffer_ t)
    (testState_ t) s (pendingTargetSpeed_ t)
    (onSpeedChanged t) (onSpeedRequest t) (calls_ t).

Definition set_pendingTargetSpeed (s : SpeedMultiplier) (t : TurboMIDI) : TurboMIDI :=
  mkTurboMIDI (platform_ t) (role_ t) (localConfig_ t) (currentSpeed_ t)
    (lastActiveSenseTime_ t) (lastMessageTime_ t) (incomingBuffer_ t)
    (testState_ t) (pendingTestSpeed_ t) s
    (onSpeedChanged t) (onSpeedRequest t) (calls_ t).

Definition set_calls (l : list Callback) (t : TurboMIDI) : TurboMIDI :=
  mkTurboMIDI (platform_ t) (role_ t) (localConfig_ t) (currentSpeed_ t)
    (lastActiveSenseTime_ t) (lastMessageTime_ t) (incomingBuffer_ t)
    (testState_ t) (pendingTestSpeed_ t) (pendingTargetSpeed_ t)
    (onSpeedChanged t) (onSpeedRequest t) l.

(** The constructor. The callbacks start empty. *)
Definition TurboMIDI_new (platform : P) (role : DeviceRole) : TurboMIDI :=
  {| platform_ := platform;
     role_ := role;
     localConfig_ := addSpeed SPEED_1X true SpeedConfig_default;
     currentSpeed_ := SPEED_1X;
     lastActiveSenseTime_ := 0;
     lastMessageTime_ := 0;
     incomingBuffer_ := [];
     testState_ := IDLE;
     pendingTestSpeed_ := SPEED_1X;
     pendingTargetSpeed_ := SPEED_1X;
     onSpeedChanged := false;
     onSpeedRequest := false;
     calls_ := [] |}.

(** Binding the [onSpeedChanged] and [onSpeedRequest] members. *)
Definition bind_callbacks (changed request : bool) (t : TurboMIDI) : TurboMIDI :=
  mkTurboMIDI (platform_ t) (role_ t) (localConfig_ t) (currentSpeed_ t)
    (lastActiveSenseTime_ t) (lastMessageTime_ t) (incomingBuffer_ t)
    (testState_ t) (pendingTestSpeed_ t) (pendingTargetSpeed_ t)
    changed request (calls_ t).

Definition setSupportedSpeed (speed : SpeedMultiplier) (certified : bool)
    (t : TurboMIDI) : TurboMIDI :=
  set_localConfig (addSpeed speed certified (localConfig_ t)) t.

Definition getCurrentSpeed (t : TurboMIDI) : SpeedMultiplier := currentSpeed_ t.

Definition sendCommand (cmd : list Z) (t : TurboMIDI) : TurboMIDI :=
  set_platform (sendMidiData cmd (platform_ t)) t.

Definition getBaudRate (speed : SpeedMultiplier) : Z :=
  if speed =? SPEED_1X then 31250
  else if speed =? SPEED_2X then 62500
  else if speed =? SPEED_3_3X then 103125
  else if speed =? SPEED_4X then 125000
  else if speed =? SPEED_5X then 156250
  else if speed =? SPEED_6_6X then 206250
  else if speed =? SPEED_8X then 250000
  else if speed =? SPEED_10X then 312500
  else if speed =? SPEED_13_3X then 415625
  else if speed =? SPEED_16X then 500000
  else if speed =? SPEED_20X then 625000
  else 31250.

Definition setSpeed (speed : SpeedMultiplier) (t : TurboMIDI) : TurboMIDI :=
  let t := set_currentSpeed speed t in
  let baudRate := getBaudRate speed in
  let t := set_platform (setBaudRate baudRate (platform_ t)) t in
  if onSpeedChanged t then set_calls (calls_ t ++ [SpeedChanged speed]) t
  else t.

Definition sendActiveSense (t : TurboMIDI) : TurboMIDI :=
  if negb (currentSpeed_ t =? SPEED_1X) then
    let t := set_platform (sendMidiData [ACTIVE_SENSING] (platform_ t)) t in
    set_lastActiveSenseTime (getMillis (platform_ t)) t
  else t.

Definition checkTimeouts (t : TurboMIDI) : TurboMIDI :=
  let now := getMillis (platform_ t) in
  let t :=
    if negb (currentSpeed_ t =? SPEED_1X)
       && (u32 (now - lastMessageTime_ t) >? 300)
    then setSpeed SPEED_1X t else t in
  if negb (currentSpeed_ t =? SPEED_1X)
     && (u32 (now - lastActiveSenseTime_ t) >? 250)
  then sendActiveSense t else t.

Definition getNextHigherSpeed (speed : SpeedMultiplier) : SpeedMultiplier :=
  let current := speed in
  if current <? 11 then current + 1 else speed.

(** The manufacturer check of [processCompleteMessage]: the loop over
    [i = 0 .. ELEKTRON_ID.size() - 1]. *)
Definition validManufacturer (buf : list Z) : bool :=
  forallb (fun i : nat => nth (i + 1) buf 0 =? nth i ELEKTRON_ID 0)
          (seq 0 (length ELEKTRON_ID)).

(** The pattern check of the [SPEED_TEST] case ([testValid]) and of
    [parseSpeedResult]. *)
Definition testPattern (buf : list Z) : bool :=
  (nth 7 buf 0 =? 0x55) && (nth 8 buf 0 =? 0x55) &&
  (nth 9 buf 0 =? 0x55) && (nth 10 buf 0 =? 0x55) &&
  (nth 11 buf 0 =? 0x00) && (nth 12 buf 0 =? 0x00) &&
  (nth 13 buf 0 =? 0x00) && (nth 14 buf 0 =? 0x00).

Definition processCompleteMessage (t : TurboMIDI) : TurboMIDI :=
  let buf := incomingBuffer_ t in
  if (length buf <? 8)%nat then t
  else if negb (nth 0 buf 0 =? SYSEX_START)
          || negb (nth (length buf - 1) buf 0 =? SYSEX_END) then t
  else if negb (validManufacturer buf) then t
  else
    let cmd := nth 6 buf 0 in
    if cmd =? SPEED_REQ then
      if negb (DeviceRole_eqb (role_ t) MASTER) then
        let t := sendCommand (buildSpeedAnswer (localConfig_ t)) t in
        if onSpeedRequest t then set_calls (calls_ t ++ [SpeedRequest]) t
        else t
      else t
    else if cmd =? SPEED_NEG then
      if negb (DeviceRole_eqb (role_ t) MASTER) && (10 <=? length buf)%nat then
        let testSpeed := nth 7 buf 0 in
        let targetSpeed := nth 8 buf 0 in
        if hasSpeed (localConfig_ t) targetSpeed then
          let t := sendCommand buildSpeedAck t in
          if (targetSpeed =? SPEED_1X)
             || (isCertified (localConfig_ t) targetSpeed
                 && (testSpeed =? targetSpeed))
          then setSpeed targetSpeed t
          else
            let t := set_pendingTestSpeed testSpeed t in
            let t := set_pendingTargetSpeed targetSpeed t in
            set_testState WAITING_FOR_TEST t
        else t
      else t
    else if cmd =? SPEED_TEST then
      if negb (DeviceRole_eqb (role_ t) MASTER)
         && (match testState_ t with WAITING_FOR_TEST => true | _ => false end)
         && (16 <=? length buf)%nat then
        if testPattern buf then
          let t := setSpeed (pendingTestSpeed_ t) t in
          let t := sendCommand buildSpeedResult t in
          set_testState WAITING_FOR_TEST2 t
        else
          let t := setSpeed SPEED_1X t in
          set_testState IDLE t
      else t
    else if cmd =? SPEED_TEST2 then
      if negb (DeviceRole_eqb (role_ t) MASTER)
         && (match testState_ t with WAITING_FOR_TEST2 => true | _ => false end)
      then
        let t := sendCommand buildSpeedResult2 t in
        let t := setSpeed (pendingTargetSpeed_ t) t in
        set_testState IDLE t
      else t
    else if cmd =? SPEED_PUSH then
      if (9 <=? length buf)%nat then
        let speed := nth 7 buf 0 in
        if hasSpeed (localConfig_ t) speed then setSpeed speed t else t
      else t
    else t.

Definition processIncomingByte (byte : Z) (t : TurboMIDI) : TurboMIDI :=
  let t := set_lastMessageTime (getMillis (platform_ t)) t in
  let t := if byte =? SYSEX_START then set_incomingBuffer [] t else t in
  let t := set_incomingBuffer (incomingBuffer_ t ++ [byte]) t in
  let t := if byte =? SYSEX_END then processCompleteMessage t else t in
  if byte =? ACTIVE_SENSING
  then set_lastMessageTime (getMillis (platform_ t)) t
  else t.

(** The [for] loop of [handleIncomingData] over the bytes read. *)
Definition processIncomingBytes (bytes : list Z) (t : TurboMIDI) : TurboMIDI :=
  fold_left (fun t byte => processIncomingByte byte t) bytes t.

Definition handleIncomingData (t : TurboMIDI) : TurboMIDI :=
  let '(bytes, p) := receiveMidiData 256 (platform_ t) in
  let t := set_platform p t in
  let t := processIncomingBytes bytes t in
  checkTimeouts t.

(** The loop of [getParsedMessages] over the rest of [incomingBuffer_],
    with the local variables [currentMsg] and [messages]. *)
Fixpoint getParsedMessages_from (bytes currentMsg : list Z)
    (messages : list (list Z)) : list (list Z) :=
  match bytes with
  | [] => messages
  | byte :: rest =>
      let currentMsg := if byte =? SYSEX_START then [] else currentMsg in
      let currentMsg := currentMsg ++ [byte] in
      let messages :=
        if (byte =? SYSEX_END) && negb (length currentMsg =? 0)%nat
        then messages ++ [currentMsg] else messages in
      getParsedMessages_from rest currentMsg messages
  end.

Definition getParsedMessages (t : TurboMIDI) : list (list Z) :=
  getParsedMessages_from (incomingBuffer_ t) [] [].

(** [parseSpeedAnswer] returns [true] and writes [config] ([Some]), or
    returns [false] and leaves it alone ([None]). *)
Definition parseSpeedAnswer (t : TurboMIDI) : option SpeedConfig :=
  match find (fun msg => (12 <=? length msg)%nat && (nth 6 msg 0 =? SPEED_ANSWER))
             (getParsedMessages t) with
  | Some msg =>
      Some {| mask1 := nth 7 msg 0; mask2 := nth 8 msg 0;
              cert1 := nth 9 msg 0; cert2 := nth 10 msg 0 |}
  | None => None
  end.

Definition parseAck (t : TurboMIDI) : bool :=
  existsb (fun msg => (8 <=? length msg)%nat && (nth 6 msg 0 =? SPEED_ACK))
          (getParsedMessages t).

Definition parseSpeedResult (t : TurboMIDI) : bool :=
  existsb (fun msg => (16 <=? length msg)%nat && (nth 6 msg 0 =? SPEED_RESULT)
                      && testPattern msg)
          (getParsedMessages t).

Definition parseSpeedResult2 (t : TurboMIDI) : bool :=
  existsb (fun msg => (8 <=? length msg)%nat && (nth 6 msg 0 =? SPEED_RESULT2))
          (getParsedMessages t).

(** The [while] loop of [waitForSpeedAnswer]. One unit of fuel pays for one
    evaluation of the loop condition. The result is [None] when the fuel
    runs out, else the value returned, [Some config] for [true] with
    [config] written and [None] for [false], and the engine. *)
Fixpoint waitForSpeedAnswer_loop (fuel : nat) (startTime timeoutMs : Z)
    (t : TurboMIDI) : option (option SpeedConfig * TurboMIDI) :=
  match fuel with
  | O => None
  | S fuel =>
      if u32 (getMillis (platform_ t) - startTime) <? timeoutMs then
        let t := handleIncomingData t in
        match parseSpeedAnswer t with
        | Some config => Some (Some config, t)
        | None =>
            let t := set_platform (delayMs 1 (platform_ t)) t in
            waitForSpeedAnswer_loop fuel startTime timeoutMs t
        end
      else Some (None, t)
  end.

Definition waitForSpeedAnswer (fuel : nat) (timeoutMs : Z) (t : TurboMIDI)
    : option (option SpeedConfig * TurboMIDI) :=
  let startTime := getMillis (platform_ t) in
  waitForSpeedAnswer_loop fuel startTime timeoutMs t.

(** The [while] loop shared, word for word, by [waitForAck],
    [waitForSpeedResult] and [waitForSpeedResult2]; [parse] is the check
    made after [handleIncomingData]. *)
Fixpoint waitFor_loop (parse : TurboMIDI -> bool) (fuel : nat)
    (startTime timeoutMs : Z) (t : TurboMIDI) : option (bool * TurboMIDI) :=
  match fuel with
  | O => None
  | S fuel =>
      if u32 (getMillis (platform_ t) - startTime) <? timeoutMs then
        let t := handleIncomingData t in
        if parse t then Some (true, t)
        else
          let t := set_platform (delayMs 1 (platform_ t)) t in
          waitFor_loop parse fuel startTime timeoutMs t
      else Some (false, t)
  end.

Definition waitForAck (fuel : nat) (timeoutMs : Z) (t : TurboMIDI)
    : option (bool * TurboMIDI) :=
  let startTime := getMillis (platform_ t) in
  waitFor_loop parseAck fuel startTime timeoutMs t.

Definition waitForSpeedResult (fuel : nat) (timeoutMs : Z) (t : TurboMIDI)
    : option (bool * TurboMIDI) :=
  let startTime := getMillis (platform_ t) in
  waitFor_loop parseSpeedResult fuel startTime timeoutMs t.

Definition waitForSpeedResult2 (fuel : nat) (timeoutMs : Z) (t : TurboMIDI)
    : option (bool * TurboMIDI) :=
  let startTime := getMillis (platform_ t) in
  waitFor_loop parseSpeedResult2 fuel startTime timeoutMs t.

Definition performSpeedTest (fuel : nat) (testSpeed targetSpeed : SpeedMultiplier)
    (t : TurboMIDI) : option (bool * TurboMIDI) :=
  let nullBytes := repeat 0 16 in
  let t := set_platform (sendMidiData nullBytes (platform_ t)) t in
  let t := set_platform (delayMs 10 (platform_ t)) t in
  let t := setSpeed testSpeed t in
  let t := sendCommand buildSpeedTest t in
  match waitForSpeedResult fuel 30 t with
  | None => None
  | Some (false, t) => Some (false, setSpeed SPEED_1X t)
  | Some (true, t) =>
      let t := sendCommand buildSpeedTest2 t in
      match waitForSpeedResult2 fuel 30 t with
      | None => None
      | Some (false, t) => Some (false, setSpeed SPEED_1X t)
      | Some (true, t) => Some (true, setSpeed targetSpeed t)
      end
  end.

Definition negotiateSpeed (fuel : nat) (targetSpeed : SpeedMultiplier)
    (timeoutMs : Z) (t : TurboMIDI) : option (bool * TurboMIDI) :=
  if DeviceRole_eqb (role_ t) SLAVE then Some (false, t)
  else
    let t := sendCommand buildSpeedReq t in
    match waitForSpeedAnswer fuel timeoutMs t with
    | None => None
    | Some (None, t) => Some (false, t)
    | Some (Some remoteConfig, t) =>
        if negb (hasSpeed remoteConfig targetSpeed) then Some (false, t)
        else
          let needTest :=
            negb (isCertified remoteConfig targetSpeed)
            && negb (targetSpeed =? SPEED_1X) in
          let testSpeed :=
            if needTest then getNextHigherSpeed targetSpeed else targetSpeed in
          if needTest && (testSpeed =? targetSpeed) then Some (false, t)
          else
            let t := sendCommand (buildSpeedNeg testSpeed targetSpeed) t in
            match waitForAck fuel timeoutMs t with
            | None => None
            | Some (false, t) => Some (false, t)
            | Some (true, t) =>
                if negb (targetSpeed =? SPEED_1X)
                   && negb (testSpeed =? targetSpeed)
                then
                  match performSpeedTest fuel testSpeed targetSpeed t with
                  | None => None
                  | Some (false, t) => Some (false, t)
                  | Some (true, t) => Some (true, setSpeed targetSpeed t)
                  end
                else Some (true, setSpeed targetSpeed t)
            end
    end.

Definition pushSpeed (speed : SpeedMultiplier) (t : TurboMIDI) : TurboMIDI :=
  if DeviceRole_eqb (role_ t) SLAVE then t
  else
    let t := sendCommand (buildSpeedPush speed) t in
    setSpeed speed t.

End Engine.

Arguments TurboMIDI P : clear implicits.

(** ** The mock platform of the test suite *)

Record MockPlatform := mkMockPlatform {
  rxBuffer : list Z;
  txBuffer : list Z;
  currentTime : Z;
  currentBaudRate : Z
}.

(** A default-constructed [MockPlatform]. *)
Definition MockPlatform_new : MockPlatform :=
  {| rxBuffer := []; txBuffer := []; currentTime := 0; currentBaudRate := 31250 |}.

Definition Mock_sendMidiData (data : list Z) (p : MockPlatform) : MockPlatform :=
  {| rxBuffer := rxBuffer p; txBuffer := txBuffer p ++ data;
     currentTime := currentTime p; currentBaudRate := currentBaudRate p |}.

Definition Mock_receiveMidiData (maxLength : nat) (p : MockPlatform)
    : list Z * MockPlatform :=
  (firstn maxLength (rxBuffer p),
   {| rxBuffer := skipn maxLength (rxBuffer p); txBuffer := txBuffer p;
      currentTime := currentTime p; currentBaudRate := currentBaudRate p |}).

Definition Mock_getMillis (p : MockPlatform) : Z := currentTime p.

Definition Mock_setBaudRate (baudRate : Z) (p : MockPlatform) : MockPlatform :=
  {| rxBuffer := rxBuffer p; txBuffer := txBuffer p;
     currentTime := currentTime p; currentBaudRate := baudRate |}.

Definition Mock_delayMs (ms : Z) (p : MockPlatform) : MockPlatform :=
  {| rxBuffer := rxBuffer p; txBuffer := txBuffer p;
     currentTime := u32 (currentTime p + ms);
     currentBaudRate := currentBaudRate p |}.

#[export] Instance MockPlatform_IPlatform : IPlatform MockPlatform := {
  sendMidiData := Mock_sendMidiData;
  receiveMidiData := Mock_receiveMidiData;
  getMillis := Mock_getMillis;
  setBaudRate := Mock_setBaudRate;
  delayMs := Mock_delayMs
}.

(** The helpers the tests use on the mock. *)
Definition clearBuffers (p : MockPlatform) : MockPlatform :=
  {| rxBuffer := []; txBuffer := [];
     currentTime := currentTime p; currentBaudRate := currentBaudRate p |}.

Definition injectMessage (message : list Z) (p : MockPlatform) : MockPlatform :=
  {| rxBuffer := rxBuffer p ++ message; txBuffer := txBuffer p;
     currentTime := currentTime p; currentBaudRate := currentBaudRate p |}.

(** [platform.currentTime += ms] in a test. *)
Definition advanceTime (ms : Z) (p : MockPlatform) : MockPlatform :=
  {| rxBuffer := rxBuffer p; txBuffer := txBuffer p;
     currentTime := u32 (currentTime p + ms);
     currentBaudRate := currentBaudRate p |}.

(** ** Auxiliary definitions used by the statements *)

(** A byte that is none of the three status bytes [processIncomingByte]
    looks at. *)
Definition dataByte (b : Z) : bool :=
  negb (b =? SYSEX_START) && negb (b =? SYSEX_END) && negb (b =? ACTIVE_SENSING).

(** The table of section 4.3 of the specification: the total length of the
    frame of each command (8 bytes of framing plus the payload). *)
Definition spec_expectedLength (cmd : CommandID) : option nat :=
  if cmd =? SPEED_REQ then Some 8%nat
  else if cmd =? SPEED_ANSWER then Some 12%nat
  else if cmd =? SPEED_NEG then Some 10%nat
  else if cmd =? SPEED_ACK then Some 8%nat
  else if cmd =? SPEED_TEST then Some 16%nat
  else if cmd =? SPEED_RESULT then Some 16%nat
  else if cmd =? SPEED_TEST2 then Some 8%nat
  else if cmd =? SPEED_RESULT2 then Some 8%nat
  else if cmd =? SPEED_PUSH then Some 9%nat
  else None.

(** Conditions (a) and (b) of the decoding rule of section 4.3. *)
Definition spec_framed (buf : list Z) : Prop :=
  nth 0 buf 0 = SYSEX_START /\
  nth (length buf - 1) buf 0 = SYSEX_END /\
  firstn 5 (skipn 1 buf) = ELEKTRON_ID.

(** The decoding rule as the specification words it: the command id is
    recognized and the length is the expected one exactly. *)
Definition spec_valid_exact (buf : list Z) : Prop :=
  spec_framed buf /\
  spec_expectedLength (nth 6 buf 0) = Some (length buf).

(** The decoding rule with a lower bound for the length. *)
Definition spec_valid_atleast (buf : list Z) : Prop :=
  spec_framed buf /\
  exists n, spec_expectedLength (nth 6 buf 0) = Some n /\ (n <= length buf)%nat.

(** The engines of the test suite: a fresh engine on a fresh mock, and the
    slave of [testSlaveSpeedTest] (4x supported, 8x certified, the
    speed-changed callback bound). *)
Definition fresh (role : DeviceRole) : TurboMIDI MockPlatform :=
  TurboMIDI_new MockPlatform_new role.

Definition testSlave : TurboMIDI MockPlatform :=
  bind_callbacks true false
    (setSupportedSpeed SPEED_8X true
       (setSupportedSpeed SPEED_4X false (fresh SLAVE))).

(** [platform.clearBuffers(); platform.injectMessage(m);] on the engine's
    platform. *)
Definition inject (message : list Z) (t : TurboMIDI MockPlatform)
    : TurboMIDI MockPlatform :=
  set_platform (injectMessage message (clearBuffers (platform_ t))) t.

(** [platform.currentTime += ms;] on the engine's platform. *)
Definition advance (ms : Z) (t : TurboMIDI MockPlatform) : TurboMIDI MockPlatform :=
  set_platform (advanceTime ms (platform_ t)) t.

(** A slave that supports 4x, pushed to 4x at time 0 by a SpeedPush frame:
    [testSlave] after the first tick of [testTimeouts]. (The slave that
    [testTimeouts] itself builds has no speed configured.) *)
Definition slaveAt4X : TurboMIDI MockPlatform :=
  handleIncomingData (inject (buildSpeedPush SPEED_4X) testSlave).

(** On the mock, everything sent stays in [txBuffer]: the second engine
    has sent what the first had, and possibly more. *)
Definition tx_extends (t t' : TurboMIDI MockPlatform) : Prop :=
  exists sent, txBuffer (platform_ t') = txBuffer (platform_ t) ++ sent.

(** The two engines are at the same time of the mock clock. *)
Definition same_clock (t t' : TurboMIDI MockPlatform) : Prop :=
  currentTime (platform_ t') = currentTime (platform_ t).

(** A master against a remote that advertises 4x only, uncertified. The
    mock hands over at most 256 bytes per read, so each reply of the remote
    is the end of a block of 256 bytes, after zero bytes: the master reads
    one reply per tick, SpeedAnswer, SpeedAck, SpeedResult, SpeedResult2. *)
Definition remote4X : SpeedConfig := mkSpeedConfig 0x04 0x00 0x00 0x00.

Definition padded (frame : list Z) : list Z :=
  repeat 0 (256 - length frame) ++ frame.

Definition scriptedMaster : TurboMIDI MockPlatform :=
  set_platform
    (injectMessage
       (padded (buildSpeedAnswer remote4X) ++ padded buildSpeedAck
        ++ padded buildSpeedResult ++ padded buildSpeedResult2)
       (platform_ (fresh MASTER)))
    (fresh MASTER).

(** That master once [waitForSpeedAnswer] has returned in [negotiateSpeed]. *)
Definition scriptedMaster_answered : TurboMIDI MockPlatform :=
  match waitForSpeedAnswer 40 30 (sendCommand buildSpeedReq scriptedMaster) with
  | Some (_, t) => t
  | None => scriptedMaster
  end.

(** The calls [addSpeed(speed, certified)] made in order on a capability
    set, as a sequence of [setSupportedSpeed] calls makes them. *)
Definition configure (calls : list (SpeedMultiplier * bool)) (c : SpeedConfig)
    : SpeedConfig :=
  fold_left (fun c call => addSpeed (fst call) (snd call) c) calls c.

(** Every certified speed of the set is a supported speed of the set. *)
Definition cert_implies_support (c : SpeedConfig) : Prop :=
  forall s : SpeedMultiplier, isCertified c s = true -> hasSpeed c s = true.

(** The four bytes use only the bits that stand for a speed: seven in the
    first pair, three in the second. *)
Definition speed_bits_only (c : SpeedConfig) : Prop :=
  0 <= mask1 c < 128 /\ 0 <= mask2 c < 8 /\
  0 <= cert1 c < 128 /\ 0 <= cert2 c < 8.

(** On the mock, the baud rate of the platform is the one of the current
    speed. *)
Definition baud_synced (t : TurboMIDI MockPlatform) : Prop :=
  currentBaudRate (platform_ t) = getBaudRate (currentSpeed_ t).

(** [getActualMultiplier]: the ratio of a speed as an integer (3.3, 6.6 and
    13.3 are rounded, unknown ids count as 1). *)
Definition getActualMultiplier (speed : SpeedMultiplier) : Z :=
  if speed =? SPEED_1X then 1
  else if speed =? SPEED_2X then 2
  else if speed =? SPEED_3_3X then 3
  else if speed =? SPEED_4X then 4
  else if speed =? SPEED_5X then 5
  else if speed =? SPEED_6_6X then 7
  else if speed =? SPEED_8X then 8
  else if speed =? SPEED_10X then 10
  else if speed =? SPEED_13_3X then 13
  else if speed =? SPEED_16X then 16
  else if speed =? SPEED_20X then 20
  else 1.

(** ** Properties of the capability set *)

(** C1. What the code answers about 1x: for every capability set, whatever
    calls of [addSpeed] built it, [hasSpeed] and [isCertified] return false
    at 1x (the [default] branch: 1x has no [case]); the call
    [addSpeed(SPEED_1X, true)] of the constructor changes nothing, and a
    freshly constructed engine does not have 1x in its local capabilities. *)
Theorem hasSpeed_1X_false :
  (forall c : SpeedConfig,
      hasSpeed c SPEED_1X = false /\ isCertified c SPEED_1X = false) /\
  (forall (c : SpeedConfig) (certified : bool),
      addSpeed SPEED_1X certified c = c) /\
  (forall role : DeviceRole,
      hasSpeed (localConfig_ (fresh role)) SPEED_1X = false /\
      isCertified (localConfig_ (fresh role)) SPEED_1X = false).
Proof.
  repeat split.
Qed.

(** The bytes of scenario 2 of the specification. *)
Example capability_encoding :
  addSpeed SPEED_16X true
    (addSpeed SPEED_4X false (addSpeed SPEED_2X true SpeedConfig_default))
  = mkSpeedConfig 0x05 0x02 0x01 0x02.
Proof. reflexivity. Qed.

Lemma or_bit_and_bit (m k : Z) :
  0 <= k < 8 -> and_bit (or_bit m k) k = true.
Proof.
  intros Hk. unfold and_bit, or_bit, u8.
  apply negb_true_iff, Z.eqb_neq. intros E.
  assert (T : Z.testbit (Z.land (Z.lor m (Z.shiftl 1 k) mod 256) (Z.shiftl 1 k)) k = false)
    by (rewrite E; apply Z.bits_0).
  rewrite Z.land_spec in T.
  change 256 with (2 ^ 8) in T.
  rewrite Z.mod_pow2_bits_low, Z.lor_spec in T by lia.
  rewrite Z.shiftl_spec, Z.sub_diag in T by lia.
  change (Z.testbit 1 0) with true in T.
  rewrite orb_true_r in T. discriminate.
Qed.

(** A speed that has a [case] is in the set once added. *)
Lemma addSpeed_hasSpeed (c : SpeedConfig) (speed : SpeedMultiplier) (certified : bool) :
  2 <= speed <= 11 -> hasSpeed (addSpeed speed certified c) speed = true.
Proof.
  intros Hs.
  assert (D : speed = 2 \/ speed = 3 \/ speed = 4 \/ speed = 5 \/ speed = 6 \/
              speed = 7 \/ speed = 8 \/ speed = 9 \/ speed = 10 \/ speed = 11) by lia.
  repeat (destruct D as [D | D]); subst speed;
    unfold addSpeed, hasSpeed; simpl; apply or_bit_and_bit; lia.
Qed.

(** ** The reassembler *)

Section Reassembler.

Context {P : Type} `{IPlatform P}.

Implicit Types t : TurboMIDI P.

Lemma processIncomingBytes_cons (b : Z) (bs : list Z) t :
  processIncomingBytes (b :: bs) t =
  processIncomingBytes bs (processIncomingByte b t).
Proof. reflexivity. Qed.

Lemma processIncomingBytes_app (bs bs' : list Z) t :
  processIncomingBytes (bs ++ bs') t =
  processIncomingBytes bs' (processIncomingBytes bs t).
Proof. apply fold_left_app. Qed.

(** A byte that is no status byte is appended and stamps the time. *)
Lemma processIncomingByte_data (b : Z) t :
  dataByte b = true ->
  processIncomingByte b t =
  set_incomingBuffer (incomingBuffer_ t ++ [b])
    (set_lastMessageTime (getMillis (platform_ t)) t).
Proof.
  unfold dataByte, processIncomingByte. intros Hb.
  apply andb_prop in Hb as [Hb H3]. apply andb_prop in Hb as [H1 H2].
  apply negb_true_iff in H1, H2, H3. rewrite H1, H2, H3. reflexivity.
Qed.

Lemma processIncomingBytes_data (bs : list Z) t :
  forallb dataByte bs = true -> bs <> [] ->
  processIncomingBytes bs t =
  set_incomingBuffer (incomingBuffer_ t ++ bs)
    (set_lastMessageTime (getMillis (platform_ t)) t).
Proof.
  revert t. induction bs as [|b bs IH]; intros t Hbs Hne; [congruence|].
  simpl in Hbs. apply andb_prop in Hbs as [Hb Hbs].
  rewrite processIncomingBytes_cons, processIncomingByte_data by assumption.
  destruct bs as [|b' bs'].
  - reflexivity.
  - rewrite IH by (assumption || discriminate).
    destruct t; simpl. rewrite <- app_assoc. reflexivity.
Qed.

(** A frame whose body holds no status byte reaches
    [processCompleteMessage] whole, whatever the buffer held before. *)
Lemma processIncomingBytes_frame (body : list Z) t :
  forallb dataByte body = true ->
  processIncomingBytes (SYSEX_START :: body ++ [SYSEX_END]) t =
  processCompleteMessage
    (set_incomingBuffer (SYSEX_START :: body ++ [SYSEX_END])
       (set_lastMessageTime (getMillis (platform_ t)) t)).
Proof.
  intros Hb.
  rewrite processIncomingBytes_cons, processIncomingBytes_app.
  destruct body as [|b body].
  - destruct t; reflexivity.
  - rewrite (processIncomingBytes_data (b :: body))
      by (assumption || discriminate).
    destruct t; reflexivity.
Qed.

(** Neither [sendCommand] nor [setSpeed] touches the buffer, hence neither
    does [processCompleteMessage]. *)
Lemma setSpeed_incomingBuffer (s : SpeedMultiplier) t :
  incomingBuffer_ (setSpeed s t) = incomingBuffer_ t.
Proof. unfold setSpeed. simpl. destruct (onSpeedChanged t); reflexivity. Qed.

Lemma processCompleteMessage_incomingBuffer t :
  incomingBuffer_ (processCompleteMessage t) = incomingBuffer_ t.
Proof.
  unfold processCompleteMessage.
  repeat match goal with
         | |- context [if ?c then _ else _] => destruct c
         | |- context [match testState_ t with _ => _ end] => destruct (testState_ t)
         end;
    simpl; rewrite ?setSpeed_incomingBuffer; reflexivity.
Qed.

(** The buffer after one byte: [F0] restarts it, any other byte extends it. *)
Lemma processIncomingByte_incomingBuffer (b : Z) t :
  incomingBuffer_ (processIncomingByte b t) =
  (if b =? SYSEX_START then [] else incomingBuffer_ t) ++ [b].
Proof.
  unfold processIncomingByte.
  destruct (b =? ACTIVE_SENSING), (b =? SYSEX_END), (b =? SYSEX_START);
    simpl; rewrite ?processCompleteMessage_incomingBuffer; reflexivity.
Qed.

Lemma processIncomingBytes_incomingBuffer (bs : list Z) t :
  forallb (fun b => negb (b =? SYSEX_START)) bs = true ->
  incomingBuffer_ (processIncomingBytes bs t) = incomingBuffer_ t ++ bs.
Proof.
  revert t. induction bs as [|b bs IH]; intros t Hbs.
  - simpl. now rewrite app_nil_r.
  - simpl in Hbs. apply andb_prop in Hbs as [Hb Hbs].
    rewrite processIncomingBytes_cons, IH, processIncomingByte_incomingBuffer
      by assumption.
    apply negb_true_iff in Hb. rewrite Hb, <- app_assoc. reflexivity.
Qed.

End Reassembler.

Arguments hasSpeed : simpl never.
Arguments isCertified : simpl never.

(** ** Master entry points on a slave *)

(** C10. On an engine whose role is SLAVE, [negotiateSpeed] returns false
    and [pushSpeed] returns, both at once (whatever the fuel, the target and
    the timeout) and leaving the whole engine, platform included, as it was:
    nothing is transmitted and no field changes. *)
Theorem slave_master_calls_noop
    {P : Type} `{IPlatform P} (t : TurboMIDI P)
    (fuel : nat) (targetSpeed speed : SpeedMultiplier) (timeoutMs : Z) :
  role_ t = SLAVE ->
  negotiateSpeed fuel targetSpeed timeoutMs t = Some (false, t) /\
  pushSpeed speed t = t.
Proof.
  intros Hrole. unfold negotiateSpeed, pushSpeed. rewrite Hrole. split; reflexivity.
Qed.

Lemma slave_master_calls_noop_witness :
  role_ (fresh SLAVE) = SLAVE /\
  negotiateSpeed 0 SPEED_4X 30 (fresh SLAVE) = Some (false, fresh SLAVE) /\
  pushSpeed SPEED_8X (fresh SLAVE) = fresh SLAVE.
Proof.
  split; [reflexivity|].
  apply (slave_master_calls_noop (fresh SLAVE) 0 SPEED_4X SPEED_8X 30).
  reflexivity.
Defined.

(** Scenario 4 of the specification: a master pushes 8x. *)
Example master_push_8X :
  let t := pushSpeed SPEED_8X (fresh MASTER) in
  txBuffer (platform_ t) = [0xF0; 0x00; 0x20; 0x3C; 0x00; 0x00; 0x20; 0x07; 0xF7] /\
  currentSpeed_ t = SPEED_8X /\
  currentBaudRate (platform_ t) = 250000.
Proof. repeat split. Qed.

(** Scenarios 1 and 3 of the specification: the bytes of SpeedRequest, and
    the answer of a slave with 2x and 4x certified. *)
Example build_speed_req :
  buildSpeedReq = [0xF0; 0x00; 0x20; 0x3C; 0x00; 0x00; 0x10; 0xF7].
Proof. reflexivity. Qed.

Example slave_answers_request :
  let slave :=
    setSupportedSpeed SPEED_4X true
      (setSupportedSpeed SPEED_2X true (fresh SLAVE)) in
  txBuffer (platform_ (handleIncomingData (inject buildSpeedReq slave)))
  = [0xF0; 0x00; 0x20; 0x3C; 0x00; 0x00; 0x11; 0x05; 0x00; 0x05; 0x00; 0xF7].
Proof. reflexivity. Qed.

(** Scenario 7 of the specification: a wrong manufacturer byte. *)
Example malformed_rejected :
  let frame := [0xF0; 0x00; 0x20; 0x3D; 0x00; 0x00; 0x20; 0x02; 0xF7] in
  let slave := setSupportedSpeed SPEED_2X true testSlave in
  let t := handleIncomingData (inject frame slave) in
  currentSpeed_ t = SPEED_1X /\ testState_ t = IDLE /\ calls_ t = [] /\
  txBuffer (platform_ t) = [] /\ currentBaudRate (platform_ t) = 31250.
Proof. vm_compute. repeat split. Qed.

(** ** SpeedPush *)

(** C2. What the code does with SpeedPush(1x): on every engine, of any role
    and on any platform, receiving the well-formed frame
    [F0 00 20 3C 00 00 20 01 F7] only stores the frame and stamps the time;
    the speed, the platform (so the baud rate) and the callbacks are left as
    they were, because [hasSpeed] is false at 1x. In particular the slave of
    the test suite, once pushed to 4x, stays at 4x and 125000 baud. *)
Theorem speedPush_1X_ignored :
  (forall (P : Type) (I : IPlatform P) (t : TurboMIDI P),
      processIncomingBytes (buildSpeedPush SPEED_1X) t =
      set_incomingBuffer (buildSpeedPush SPEED_1X)
        (set_lastMessageTime (getMillis (platform_ t)) t)) /\
  (let t1 := handleIncomingData (inject (buildSpeedPush SPEED_1X) slaveAt4X) in
   currentSpeed_ slaveAt4X = SPEED_4X /\
   currentSpeed_ t1 = SPEED_4X /\
   currentBaudRate (platform_ t1) = 125000 /\
   calls_ t1 = [SpeedChanged SPEED_4X]).
Proof.
  split.
  - intros P I t.
    change (buildSpeedPush SPEED_1X)
      with (SYSEX_START :: [0; 0x20; 0x3C; 0; 0; SPEED_PUSH; SPEED_1X] ++ [SYSEX_END]).
    rewrite processIncomingBytes_frame by reflexivity.
    destruct t; reflexivity.
  - vm_compute. repeat split.
Qed.

(** ** The watchdog *)

Section Watchdog.

Context {P : Type} `{IPlatform P}.

Implicit Types t : TurboMIDI P.

Lemma checkTimeouts_lost t :
  currentSpeed_ t <> SPEED_1X ->
  u32 (getMillis (platform_ t) - lastMessageTime_ t) > 300 ->
  checkTimeouts t = setSpeed SPEED_1X t.
Proof.
  intros Hs Hgap. unfold checkTimeouts.
  apply Z.eqb_neq in Hs. rewrite Hs.
  apply Z.gtb_gt in Hgap. rewrite Hgap. simpl.
  unfold setSpeed. simpl. destruct (onSpeedChanged t); reflexivity.
Qed.

Lemma checkTimeouts_alive t :
  u32 (getMillis (platform_ t) - lastMessageTime_ t) <= 300 ->
  currentSpeed_ (checkTimeouts t) = currentSpeed_ t.
Proof.
  intros Hgap. unfold checkTimeouts.
  assert (E : (u32 (getMillis (platform_ t) - lastMessageTime_ t) >? 300) = false)
    by (rewrite Z.gtb_ltb; apply Z.ltb_ge; exact Hgap).
  rewrite E, andb_false_r.
  unfold sendActiveSense.
  destruct (negb (currentSpeed_ t =? SPEED_1X)); simpl; [|reflexivity].
  destruct (_ >? 250); reflexivity.
Qed.

Lemma checkTimeouts_1X t :
  currentSpeed_ t = SPEED_1X -> checkTimeouts t = t.
Proof.
  intros Hs. unfold checkTimeouts. rewrite Hs.
  change (SPEED_1X =? SPEED_1X) with true. simpl. rewrite Hs. reflexivity.
Qed.

(** A tick that finds nothing to read runs the watchdog only. *)
Lemma handleIncomingData_idle t :
  receiveMidiData 256 (platform_ t) = ([], platform_ t) ->
  handleIncomingData t = checkTimeouts t.
Proof.
  intros Hrx. unfold handleIncomingData. rewrite Hrx.
  destruct t; reflexivity.
Qed.

End Watchdog.

(** C7, as the code has it, on the mock platform. A tick first processes
    the bytes it reads, each of which stamps the time of the last reception
    and which may change the speed, and then runs the watchdog on the engine
    as those bytes left it. In that watchdog step, for an engine that is
    not at 1x: when the wrap-safe difference between now and the time of
    the last received byte exceeds 300 ms, the engine commits to 1x (the
    speed is 1x, the baud rate 31250, and the speed-changed callback, when
    bound, is called with 1x); when the difference is at most 300 ms the
    speed is unchanged. For an engine at 1x the step changes nothing at
    all: the speed stays and no byte is sent. A tick that finds no byte to
    read is exactly this step. *)
Theorem watchdog_tick (t : TurboMIDI MockPlatform) :
  let gap := u32 (currentTime (platform_ t) - lastMessageTime_ t) in
  (currentSpeed_ t <> SPEED_1X -> gap > 300 ->
     currentSpeed_ (checkTimeouts t) = SPEED_1X /\
     currentBaudRate (platform_ (checkTimeouts t)) = 31250 /\
     (onSpeedChanged t = true ->
        calls_ (checkTimeouts t) = calls_ t ++ [SpeedChanged SPEED_1X])) /\
  (currentSpeed_ t <> SPEED_1X -> gap <= 300 ->
     currentSpeed_ (checkTimeouts t) = currentSpeed_ t) /\
  (currentSpeed_ t = SPEED_1X ->
     checkTimeouts t = t /\
     currentSpeed_ (checkTimeouts t) = SPEED_1X /\
     txBuffer (platform_ (checkTimeouts t)) = txBuffer (platform_ t)) /\
  (rxBuffer (platform_ t) = [] -> handleIncomingData t = checkTimeouts t) /\
  handleIncomingData t =
    checkTimeouts
      (processIncomingBytes (firstn 256 (rxBuffer (platform_ t)))
         (set_platform (snd (Mock_receiveMidiData 256 (platform_ t))) t)).
Proof.
  intros gap. split; [|split; [|split; [|split]]].
  - intros Hs Hgap. rewrite checkTimeouts_lost by assumption.
    unfold setSpeed; simpl. split; [|split].
    + destruct (onSpeedChanged t); reflexivity.
    + destruct (onSpeedChanged t); reflexivity.
    + intros Hb. rewrite Hb. reflexivity.
  - intros _ Hgap. apply checkTimeouts_alive. exact Hgap.
  - intros Hs. rewrite checkTimeouts_1X by assumption.
    split; [reflexivity|]. split; [assumption | reflexivity].
  - intros Hrx. apply handleIncomingData_idle.
    simpl. unfold Mock_receiveMidiData. rewrite Hrx.
    destruct t as [[rx tx time baud] ? ? ? ? ? ? ? ? ? ? ? ?]; simpl in *.
    subst rx. reflexivity.
  - reflexivity.
Qed.

Lemma watchdog_tick_witness :
  currentSpeed_ (advance 350 slaveAt4X) <> SPEED_1X /\
  u32 (currentTime (platform_ (advance 350 slaveAt4X))
       - lastMessageTime_ (advance 350 slaveAt4X)) > 300 /\
  currentSpeed_ (checkTimeouts (advance 350 slaveAt4X)) = SPEED_1X /\
  currentBaudRate (platform_ (checkTimeouts (advance 350 slaveAt4X))) = 31250.
Proof.
  assert (Hs : currentSpeed_ (advance 350 slaveAt4X) <> SPEED_1X)
    by (vm_compute; discriminate).
  assert (Hg : u32 (currentTime (platform_ (advance 350 slaveAt4X))
                    - lastMessageTime_ (advance 350 slaveAt4X)) > 300)
    by (vm_compute; reflexivity).
  split; [exact Hs|]. split; [exact Hg|].
  destruct (proj1 (watchdog_tick (advance 350 slaveAt4X)) Hs Hg) as [A [B _]].
  split; assumption.
Defined.

(** C7, as the claim words it of a tick, fails when the tick has bytes to
    read. A slave at 1x, at time 1000, with the frame SpeedPush(4x) pending
    ends the tick at 4x and has sent 0xFE; and a slave at 4x whose last
    byte came 400 ms ago, with a single byte pending, is not reverted by
    the tick: it is still at 4x. *)
Lemma tick_with_pending_bytes :
  (let t := inject (buildSpeedPush SPEED_4X) (advance 1000 testSlave) in
   currentSpeed_ t = SPEED_1X /\
   currentSpeed_ (handleIncomingData t) = SPEED_4X /\
   txBuffer (platform_ (handleIncomingData t)) = [ACTIVE_SENSING]) /\
  (let t := inject [0x00] (advance 400 slaveAt4X) in
   currentSpeed_ t = SPEED_4X /\
   u32 (currentTime (platform_ t) - lastMessageTime_ t) = 400 /\
   currentSpeed_ (handleIncomingData t) = SPEED_4X /\
   currentBaudRate (platform_ (handleIncomingData t)) = 125000).
Proof. vm_compute. repeat split. Qed.

(** Scenario 5 of the specification, on a slave that supports 4x: pushed to
    4x at time 0, it is still at 4x after the tick at 250 ms and back at
    1x, at 31250 baud, after the tick at 350 ms. *)
Example watchdog_revert :
  let t250 := handleIncomingData (advance 250 slaveAt4X) in
  let t350 := handleIncomingData (advance 100 t250) in
  currentBaudRate (platform_ slaveAt4X) = 125000 /\
  currentSpeed_ t250 = SPEED_4X /\
  currentSpeed_ t350 = SPEED_1X /\
  currentBaudRate (platform_ t350) = 31250 /\
  calls_ t350 = [SpeedChanged SPEED_4X; SpeedChanged SPEED_1X].
Proof. vm_compute. repeat split. Qed.

(** ** The slave side of the speed test *)



(** Scenario 6 of the specification ([testSlaveSpeedTest]), tick by tick. *)
Example slave_test_sequence_ticks :
  let t1 := handleIncomingData (inject (buildSpeedNeg SPEED_8X SPEED_4X) testSlave) in
  let t2 := handleIncomingData (inject buildSpeedTest t1) in
  let t3 := handleIncomingData (inject buildSpeedTest2 t2) in
  (txBuffer (platform_ t1) = buildSpeedAck /\ testState_ t1 = WAITING_FOR_TEST) /\
  (currentBaudRate (platform_ t2) = 250000 /\
   txBuffer (platform_ t2) = buildSpeedResult /\
   testState_ t2 = WAITING_FOR_TEST2) /\
  (txBuffer (platform_ t3) = buildSpeedResult2 /\
   currentBaudRate (platform_ t3) = 125000 /\
   calls_ t3 = [SpeedChanged SPEED_8X; SpeedChanged SPEED_4X] /\
   testState_ t3 = IDLE).
Proof. vm_compute. repeat split. Qed.

(** ** Validation of a candidate frame *)

Lemma nth_last_app (l : list Z) (x : Z) :
  nth (length (l ++ [x]) - 1) (l ++ [x]) 0 = x.
Proof.
  rewrite length_app. cbn [length]. rewrite Nat.add_sub.
  rewrite app_nth2, Nat.sub_diag by lia. reflexivity.
Qed.

Lemma nth_longer (k : nat) (body extra : list Z) :
  (k < length body)%nat ->
  nth k (body ++ extra ++ [SYSEX_END]) 0 = nth k (body ++ [SYSEX_END]) 0.
Proof. intros Hk. now rewrite !app_nth1 by assumption. Qed.

Lemma spec_expectedLength_min (cmd : CommandID) (n : nat) :
  spec_expectedLength cmd = Some n -> (8 <= n)%nat.
Proof.
  unfold spec_expectedLength.
  repeat match goal with
         | |- (if ?c then _ else _) = _ -> _ => destruct c
         end; intros Hx; try discriminate Hx; injection Hx as <-; lia.
Qed.

Lemma spec_valid_exact_length (E : list Z) :
  spec_valid_exact E ->
  (8 <= length E)%nat /\
  (nth 6 E 0 = SPEED_NEG -> length E = 10%nat) /\
  (nth 6 E 0 = SPEED_TEST -> length E = 16%nat) /\
  (nth 6 E 0 = SPEED_PUSH -> length E = 9%nat).
Proof.
  intros [_ Hx]. repeat split.
  - now apply spec_expectedLength_min in Hx.
  - intros C. rewrite C in Hx. now injection Hx.
  - intros C. rewrite C in Hx. now injection Hx.
  - intros C. rewrite C in Hx. now injection Hx.
Qed.

(** A buffer that is valid with the length as a lower bound is a frame of
    the expected length with bytes added before its F7. *)
Lemma spec_valid_atleast_decompose (buf : list Z) :
  spec_valid_atleast buf ->
  exists body extra,
    buf = body ++ extra ++ [SYSEX_END] /\
    spec_valid_exact (body ++ [SYSEX_END]).
Proof.
  intros [(H0 & Hl & Hp) (n & Hx & Hn)].
  pose proof (spec_expectedLength_min _ _ Hx) as Hmin.
  assert (Hne : buf <> []) by (destruct buf; [simpl in Hn; lia | discriminate]).
  destruct (exists_last Hne) as (pre & x & ->).
  rewrite nth_last_app in Hl. subst x.
  rewrite length_app in Hn. cbn [length] in Hn.
  destruct pre as [|b0 [|b1 [|b2 [|b3 [|b4 [|b5 [|b6 pre]]]]]]];
    try (simpl in Hn; lia).
  cbn [app nth skipn firstn] in H0, Hp, Hx.
  exists (firstn (7 + (n - 8)) (b0 :: b1 :: b2 :: b3 :: b4 :: b5 :: b6 :: pre)),
         (skipn (7 + (n - 8)) (b0 :: b1 :: b2 :: b3 :: b4 :: b5 :: b6 :: pre)).
  split.
  - now rewrite app_assoc, firstn_skipn.
  - cbn [Nat.add firstn].
    set (front := b0 :: b1 :: b2 :: b3 :: b4 :: b5 :: b6 :: firstn (n - 8) pre).
    assert (L : length front = (n - 1)%nat).
    { subst front. cbn [length]. rewrite firstn_length_le; cbn [length] in Hn; lia. }
    assert (LE : length (front ++ [SYSEX_END]) = n)
      by (rewrite length_app, L; cbn [length]; lia).
    unfold spec_valid_exact, spec_framed.
    rewrite nth_last_app, LE. subst front. cbn [app nth skipn firstn].
    repeat split; assumption.
Qed.

Section Validation.

Context {P : Type} `{IPlatform P}.

Implicit Types t : TurboMIDI P.

(** A buffer that does not start with [F0] is rejected without effect. *)
Lemma processCompleteMessage_unframed t :
  nth 0 (incomingBuffer_ t) 0 <> SYSEX_START ->
  processCompleteMessage t = t.
Proof.
  intros Hhd. unfold processCompleteMessage.
  destruct (length (incomingBuffer_ t) <? 8)%nat; [reflexivity|].
  apply Z.eqb_neq in Hhd. rewrite Hhd. reflexivity.
Qed.

Lemma validManufacturer_prefix (buf : list Z) :
  (8 <= length buf)%nat ->
  validManufacturer buf = true ->
  firstn 5 (skipn 1 buf) = ELEKTRON_ID.
Proof.
  intros Hlen Hm.
  do 8 (destruct buf as [|? buf]; [simpl in Hlen; lia|]).
  unfold validManufacturer in Hm. simpl in Hm.
  repeat match type of Hm with
         | (_ && _) = true => apply andb_prop in Hm as [?E Hm]
         end.
  repeat match goal with
         | E : (_ =? _) = true |- _ => apply Z.eqb_eq in E
         end.
  subst. reflexivity.
Qed.

(** Either the buffer is rejected and nothing changes, or it passed every
    check on the way to one of the five cases of the [switch]. *)
Lemma processCompleteMessage_dispatch t :
  let buf := incomingBuffer_ t in
  processCompleteMessage t = t \/
  ((8 <= length buf)%nat /\
   nth 0 buf 0 = SYSEX_START /\
   nth (length buf - 1) buf 0 = SYSEX_END /\
   validManufacturer buf = true /\
   (nth 6 buf 0 = SPEED_REQ \/
    (nth 6 buf 0 = SPEED_NEG /\ (10 <= length buf)%nat) \/
    (nth 6 buf 0 = SPEED_TEST /\ (16 <= length buf)%nat) \/
    nth 6 buf 0 = SPEED_TEST2 \/
    (nth 6 buf 0 = SPEED_PUSH /\ (9 <= length buf)%nat))).
Proof.
  intros buf. unfold processCompleteMessage. fold buf.
  destruct (length buf <? 8)%nat eqn:Hlen; [now left|].
  destruct (negb (nth 0 buf 0 =? SYSEX_START)
            || negb (nth (length buf - 1) buf 0 =? SYSEX_END)) eqn:Hfr;
    [now left|].
  destruct (negb (validManufacturer buf)) eqn:Hm; [now left|].
  apply Nat.ltb_ge in Hlen.
  apply orb_false_elim in Hfr as [H0 Hl].
  apply negb_false_iff, Z.eqb_eq in H0, Hl.
  apply negb_false_iff in Hm.
  destruct (nth 6 buf 0 =? SPEED_REQ) eqn:E1.
  { right. repeat (split; [assumption|]). left. now apply Z.eqb_eq. }
  destruct (nth 6 buf 0 =? SPEED_NEG) eqn:E2.
  { destruct (10 <=? length buf)%nat eqn:L;
      [|rewrite andb_false_r; now left].
    right. repeat (split; [assumption|]). right; left.
    split; [now apply Z.eqb_eq | now apply Nat.leb_le]. }
  destruct (nth 6 buf 0 =? SPEED_TEST) eqn:E3.
  { destruct (16 <=? length buf)%nat eqn:L;
      [|rewrite andb_false_r; now left].
    right. repeat (split; [assumption|]). right; right; left.
    split; [now apply Z.eqb_eq | now apply Nat.leb_le]. }
  destruct (nth 6 buf 0 =? SPEED_TEST2) eqn:E4.
  { right. repeat (split; [assumption|]). right; right; right; left.
    now apply Z.eqb_eq. }
  destruct (nth 6 buf 0 =? SPEED_PUSH) eqn:E5; [|now left].
  destruct (9 <=? length buf)%nat eqn:L; [|now left].
  right. repeat (split; [assumption|]). right; right; right; right.
  split; [now apply Z.eqb_eq | now apply Nat.leb_le].
Qed.

(** The checks passed are those of the decoding rule, with the length as
    a lower bound. *)
Lemma processCompleteMessage_dispatch_valid t :
  processCompleteMessage t = t \/
  (spec_valid_atleast (incomingBuffer_ t) /\
   In (nth 6 (incomingBuffer_ t) 0)
      [SPEED_REQ; SPEED_NEG; SPEED_TEST; SPEED_TEST2; SPEED_PUSH]).
Proof.
  destruct (processCompleteMessage_dispatch t)
    as [E | (Hlen & H0 & Hl & Hm & Hc)]; [now left|].
  right. unfold spec_valid_atleast, spec_framed.
  repeat split; try assumption.
  - now apply validManufacturer_prefix.
  - destruct Hc as [E | [[E L] | [[E L] | [E | [E L]]]]]; rewrite E.
    + exists 8%nat. split; [reflexivity | assumption].
    + exists 10%nat. split; [reflexivity | assumption].
    + exists 16%nat. split; [reflexivity | assumption].
    + exists 8%nat. split; [reflexivity | assumption].
    + exists 9%nat. split; [reflexivity | assumption].
  - destruct Hc as [E | [[E L] | [[E L] | [E | [E L]]]]]; rewrite E; simpl; tauto.
Qed.

(** What [processCompleteMessage] does depends on the buffer only through
    the values it reads from it: two buffers that agree on them have the
    same effect. *)
Lemma processCompleteMessage_same_view t (L E : list Z) :
  (length L <? 8)%nat = (length E <? 8)%nat ->
  nth 0 L 0 = nth 0 E 0 ->
  nth (length L - 1) L 0 = nth (length E - 1) E 0 ->
  validManufacturer L = validManufacturer E ->
  nth 6 L 0 = nth 6 E 0 ->
  (nth 6 E 0 = SPEED_NEG ->
     (10 <=? length L)%nat = (10 <=? length E)%nat /\
     nth 7 L 0 = nth 7 E 0 /\ nth 8 L 0 = nth 8 E 0) ->
  (nth 6 E 0 = SPEED_TEST ->
     (16 <=? length L)%nat = (16 <=? length E)%nat /\
     testPattern L = testPattern E) ->
  (nth 6 E 0 = SPEED_PUSH ->
     (9 <=? length L)%nat = (9 <=? length E)%nat /\ nth 7 L 0 = nth 7 E 0) ->
  processCompleteMessage (set_incomingBuffer L t) =
  set_incomingBuffer L (processCompleteMessage (set_incomingBuffer E t)).
Proof.
  intros Hlen H0 Hl Hm H6 Hneg Htest Hpush.
  unfold processCompleteMessage, setSpeed.
  destruct t as [p role cfg cur las lms buf ts pt pg ch rq calls].
  cbn [set_incomingBuffer set_platform set_currentSpeed set_calls set_testState
       set_pendingTestSpeed set_pendingTargetSpeed sendCommand
       incomingBuffer_ role_ localConfig_ testState_
       platform_ currentSpeed_ lastActiveSenseTime_ lastMessageTime_
       pendingTestSpeed_ pendingTargetSpeed_ onSpeedChanged onSpeedRequest calls_].
  rewrite Hlen, H0, Hl, Hm, H6.
  destruct (length E <? 8)%nat; [reflexivity|].
  destruct (negb (nth 0 E 0 =? SYSEX_START)
            || negb (nth (length E - 1) E 0 =? SYSEX_END)); [reflexivity|].
  destruct (negb (validManufacturer E)); [reflexivity|].
  destruct (Z.eqb_spec (nth 6 E 0) SPEED_REQ) as [_|_].
  { repeat match goal with
           | |- context [if ?c then _ else _] => destruct c
           end; reflexivity. }
  destruct (Z.eqb_spec (nth 6 E 0) SPEED_NEG) as [C|_].
  { destruct (Hneg C) as (G & E7 & E8). rewrite G, E7, E8.
    repeat match goal with
           | |- context [if ?c then _ else _] => destruct c
           end; reflexivity. }
  destruct (Z.eqb_spec (nth 6 E 0) SPEED_TEST) as [C|_].
  { destruct (Htest C) as (G & Ep). rewrite G, Ep.
    repeat match goal with
           | |- context [if ?c then _ else _] => destruct c
           end; reflexivity. }
  destruct (Z.eqb_spec (nth 6 E 0) SPEED_TEST2) as [_|_].
  { repeat match goal with
           | |- context [if ?c then _ else _] => destruct c
           end; reflexivity. }
  destruct (Z.eqb_spec (nth 6 E 0) SPEED_PUSH) as [C|_]; [|reflexivity].
  destruct (Hpush C) as (G & E7). rewrite G, E7.
  repeat match goal with
         | |- context [if ?c then _ else _] => destruct c
         end; reflexivity.
Qed.

(** Bytes put between the body of a frame of the expected length and its
    F7 change nothing to what the frame does: the longer frame passes the
    same checks and runs the same case of the [switch] on the same payload
    bytes, and only the stored buffer differs. *)
Lemma longer_frame_like_exact t (body extra : list Z) :
  spec_valid_exact (body ++ [SYSEX_END]) ->
  processCompleteMessage (set_incomingBuffer (body ++ extra ++ [SYSEX_END]) t) =
  set_incomingBuffer (body ++ extra ++ [SYSEX_END])
    (processCompleteMessage (set_incomingBuffer (body ++ [SYSEX_END]) t)).
Proof.
  intros Hv.
  destruct (spec_valid_exact_length _ Hv) as (L8 & Lneg & Ltest & Lpush).
  rewrite length_app in L8, Lneg, Ltest, Lpush. cbn [length] in L8, Lneg, Ltest, Lpush.
  assert (LL : length (body ++ extra ++ [SYSEX_END])
               = (length body + length extra + 1)%nat)
    by (rewrite !length_app; cbn [length]; lia).
  assert (LE : length (body ++ [SYSEX_END]) = (length body + 1)%nat)
    by (rewrite length_app; reflexivity).
  apply processCompleteMessage_same_view.
  - rewrite LL, LE.
    destruct (Nat.ltb_spec (length body + length extra + 1) 8),
             (Nat.ltb_spec (length body + 1) 8); (reflexivity || lia).
  - apply nth_longer. lia.
  - rewrite nth_last_app. rewrite app_assoc. apply nth_last_app.
  - unfold validManufacturer. cbn [ELEKTRON_ID length seq forallb Nat.add].
    rewrite !nth_longer by lia. reflexivity.
  - apply nth_longer. lia.
  - intros C. specialize (Lneg C). rewrite LL, LE.
    rewrite !nth_longer by lia. repeat split.
    destruct (Nat.leb_spec 10 (length body + length extra + 1)),
             (Nat.leb_spec 10 (length body + 1)); (reflexivity || lia).
  - intros C. specialize (Ltest C). rewrite LL, LE. split.
    + destruct (Nat.leb_spec 16 (length body + length extra + 1)),
               (Nat.leb_spec 16 (length body + 1)); (reflexivity || lia).
    + unfold testPattern. rewrite !nth_longer by lia. reflexivity.
  - intros C. specialize (Lpush C). rewrite LL, LE.
    rewrite !nth_longer by lia. split; [|reflexivity].
    destruct (Nat.leb_spec 9 (length body + length extra + 1)),
             (Nat.leb_spec 9 (length body + 1)); (reflexivity || lia).
Qed.

(** C3, as the code has it. [processCompleteMessage] has an effect (a
    reply, a speed change, a callback, a change of test state) only if the
    buffer starts with F0, ends with F7, carries the manufacturer prefix
    00 20 3C 00 00 in bytes 1..5, has in byte 6 one of the five command ids
    the engine handles (SpeedRequest, SpeedNegotiate, SpeedTest, SpeedTest2,
    SpeedPush) and is at least as long as the frame of that command (8, 10,
    16, 8 and 9 bytes); any buffer that fails one of these is rejected and
    the engine is unchanged. A frame longer than the expected length is not
    rejected: every buffer that is valid with the length as a lower bound
    is a frame of the expected length with bytes added before its F7, and
    for every such frame and every added bytes the longer frame does
    exactly what the frame of the expected length does, only the stored
    buffer being the longer one. *)
Theorem processCompleteMessage_accepts t :
  let valid :=
    spec_valid_atleast (incomingBuffer_ t) /\
    In (nth 6 (incomingBuffer_ t) 0)
       [SPEED_REQ; SPEED_NEG; SPEED_TEST; SPEED_TEST2; SPEED_PUSH] in
  (processCompleteMessage t <> t -> valid) /\
  (~ valid -> processCompleteMessage t = t) /\
  (spec_valid_atleast (incomingBuffer_ t) ->
     exists body extra,
       incomingBuffer_ t = body ++ extra ++ [SYSEX_END] /\
       spec_valid_exact (body ++ [SYSEX_END]) /\
       processCompleteMessage t =
       set_incomingBuffer (incomingBuffer_ t)
         (processCompleteMessage (set_incomingBuffer (body ++ [SYSEX_END]) t))) /\
  (forall body extra : list Z,
     spec_valid_exact (body ++ [SYSEX_END]) ->
     processCompleteMessage
       (set_incomingBuffer (body ++ extra ++ [SYSEX_END]) t) =
     set_incomingBuffer (body ++ extra ++ [SYSEX_END])
       (processCompleteMessage (set_incomingBuffer (body ++ [SYSEX_END]) t))).
Proof.
  intros valid. split; [|split; [|split]].
  - intros Hne.
    destruct (processCompleteMessage_dispatch_valid t) as [E | V];
      [contradiction | exact V].
  - intros Hn.
    destruct (processCompleteMessage_dispatch_valid t) as [E | V];
      [exact E | contradiction].
  - intros Hv.
    destruct (spec_valid_atleast_decompose _ Hv) as (body & extra & Hb & He).
    exists body, extra. split; [exact Hb|]. split; [exact He|].
    rewrite Hb.
    rewrite <- (longer_frame_like_exact t body extra He).
    rewrite <- Hb. destruct t; reflexivity.
  - intros body extra He. now apply longer_frame_like_exact.
Qed.

End Validation.

Lemma processCompleteMessage_accepts_witness :
  let body := [0xF0; 0x00; 0x20; 0x3C; 0x00; 0x00; 0x12; 0x07; 0x04] in
  let longer := body ++ [0x00; 0x00] ++ [SYSEX_END] in
  let t := set_incomingBuffer longer testSlave in
  processCompleteMessage t <> t /\
  spec_valid_atleast (incomingBuffer_ t) /\
  In (nth 6 (incomingBuffer_ t) 0)
     [SPEED_REQ; SPEED_NEG; SPEED_TEST; SPEED_TEST2; SPEED_PUSH] /\
  spec_valid_exact (body ++ [SYSEX_END]) /\
  processCompleteMessage t =
    set_incomingBuffer longer
      (processCompleteMessage (set_incomingBuffer (body ++ [SYSEX_END]) t)) /\
  testState_ (processCompleteMessage t) = WAITING_FOR_TEST /\
  txBuffer (platform_ (processCompleteMessage t)) = buildSpeedAck.
Proof.
  intros body longer t.
  assert (Hne : processCompleteMessage t <> t) by (vm_compute; discriminate).
  assert (He : spec_valid_exact (body ++ [SYSEX_END])) by (repeat split).
  destruct (proj1 (processCompleteMessage_accepts t) Hne) as [V I].
  pose proof (proj2 (proj2 (proj2 (processCompleteMessage_accepts t)))
                body [0x00; 0x00] He) as Eq.
  split; [exact Hne|]. split; [exact V|]. split; [exact I|].
  split; [exact He|]. split; [exact Eq|].
  split; reflexivity.
Defined.

(** C3, as the claim words it, fails: the ten-byte frame
    [F0 00 20 3C 00 00 20 04 00 F7] (SpeedPush with one byte too many) is
    not of the expected length, yet the slave of the test suite commits to
    4x on it, whether the buffer holds it or the bytes come through the
    reassembler; so it is false that only frames of exactly the expected
    length have an effect. *)
Lemma longer_frame_accepted :
  let buf := [0xF0; 0x00; 0x20; 0x3C; 0x00; 0x00; 0x20; 0x04; 0x00; 0xF7] in
  let t := set_incomingBuffer buf testSlave in
  ~ spec_valid_exact buf /\
  processCompleteMessage t <> t /\
  currentSpeed_ (processCompleteMessage t) = SPEED_4X /\
  currentBaudRate (platform_ (processIncomingBytes buf testSlave)) = 125000 /\
  ~ (forall t' : TurboMIDI MockPlatform,
        processCompleteMessage t' <> t' -> spec_valid_exact (incomingBuffer_ t')).
Proof.
  intros buf t.
  assert (Hbad : ~ spec_valid_exact buf).
  { intros [_ E]. vm_compute in E. discriminate. }
  assert (Hne : processCompleteMessage t <> t) by (vm_compute; discriminate).
  repeat split; try assumption; try reflexivity.
  intros Hall. exact (Hbad (Hall t Hne)).
Qed.

(** ** Growth of the receive buffer *)

(** C4, as the code has it. [incomingBuffer_] has no cap: every byte other
    than F0 is appended to it, so after any stream of bytes without F0 the
    buffer is the old buffer followed by the whole stream, and its length
    has grown by the length of the stream, however long; only an F0 byte
    empties it, leaving the single byte F0. *)
Theorem incomingBuffer_grows
    {P : Type} `{IPlatform P} (t : TurboMIDI P) (bytes : list Z) :
  forallb (fun b => negb (b =? SYSEX_START)) bytes = true ->
  incomingBuffer_ (processIncomingBytes bytes t) = incomingBuffer_ t ++ bytes /\
  length (incomingBuffer_ (processIncomingBytes bytes t))
    = (length (incomingBuffer_ t) + length bytes)%nat /\
  incomingBuffer_ (processIncomingByte SYSEX_START (processIncomingBytes bytes t))
    = [SYSEX_START].
Proof.
  intros Hb. split; [|split].
  - now apply processIncomingBytes_incomingBuffer.
  - rewrite processIncomingBytes_incomingBuffer by assumption.
    apply length_app.
  - apply processIncomingByte_incomingBuffer.
Qed.

Lemma incomingBuffer_grows_witness :
  length (incomingBuffer_ (processIncomingBytes (repeat 0 300) (fresh SLAVE)))
  = 300%nat.
Proof.
  apply (proj1 (proj2 (incomingBuffer_grows (fresh SLAVE) (repeat 0 300)
                         eq_refl))).
Defined.

(** C4, as the claim words it, fails: 257 zero bytes fed to a fresh engine
    leave 257 bytes in the buffer, and no bound at all holds for the length
    of the buffer over all byte streams. *)
Lemma incomingBuffer_exceeds_cap :
  length (incomingBuffer_ (processIncomingBytes (repeat 0 257) (fresh SLAVE)))
  = 257%nat /\
  ~ (exists cap : nat, forall bytes : list Z,
        (length (incomingBuffer_ (processIncomingBytes bytes (fresh SLAVE)))
         <= cap)%nat).
Proof.
  split; [reflexivity|].
  intros [cap Hcap].
  specialize (Hcap (repeat 0 (S cap))).
  rewrite processIncomingBytes_incomingBuffer in Hcap.
  - rewrite length_app, repeat_length in Hcap. simpl in Hcap. lia.
  - clear Hcap. induction cap as [|n IH]; [reflexivity|].
    change (repeat 0 (S (S n))) with (0 :: repeat 0 (S n)).
    simpl forallb. exact IH.
Qed.

(** ** Bytes outside a frame *)

Section OutsideFrame.

Context {P : Type} `{IPlatform P}.

Implicit Types t : TurboMIDI P.

Lemma nth_0_app_single (l : list Z) (b : Z) :
  nth 0 l 0 <> SYSEX_START -> b <> SYSEX_START ->
  nth 0 (l ++ [b]) 0 <> SYSEX_START.
Proof. destruct l; simpl; auto. Qed.

(** One byte while the buffer does not start with [F0]. *)
Lemma processIncomingByte_unframed (b : Z) t :
  nth 0 (incomingBuffer_ t) 0 <> SYSEX_START ->
  b <> SYSEX_START ->
  processIncomingByte b t =
  set_incomingBuffer (incomingBuffer_ t ++ [b])
    (set_lastMessageTime (getMillis (platform_ t)) t).
Proof.
  intros Hhd Hb. unfold processIncomingByte.
  apply Z.eqb_neq in Hb as Hb'. rewrite Hb'.
  assert (E : processCompleteMessage
                (set_incomingBuffer
                   (incomingBuffer_ (set_lastMessageTime (getMillis (platform_ t)) t)
                    ++ [b])
                   (set_lastMessageTime (getMillis (platform_ t)) t))
              = set_incomingBuffer (incomingBuffer_ t ++ [b])
                  (set_lastMessageTime (getMillis (platform_ t)) t)).
  { apply processCompleteMessage_unframed. simpl.
    now apply nth_0_app_single. }
  destruct (b =? SYSEX_END).
  - rewrite E. destruct (b =? ACTIVE_SENSING); destruct t; reflexivity.
  - destruct (b =? ACTIVE_SENSING); destruct t; reflexivity.
Qed.

End OutsideFrame.

(** C5, as the code has it. While no F0 has been received (the buffer
    does not start with F0), every byte of a stream without F0 is appended
    to the buffer and stamps [lastMessageTime_], as every received byte
    does, but none of them, F7 included, dispatches a command: the rest of
    the engine and the platform are unchanged. *)
Theorem bytes_before_first_frame
    {P : Type} `{IPlatform P} (t : TurboMIDI P) (bytes : list Z) :
  nth 0 (incomingBuffer_ t) 0 <> SYSEX_START ->
  forallb (fun b => negb (b =? SYSEX_START)) bytes = true ->
  bytes <> [] ->
  processIncomingBytes bytes t =
  set_incomingBuffer (incomingBuffer_ t ++ bytes)
    (set_lastMessageTime (getMillis (platform_ t)) t).
Proof.
  revert t. induction bytes as [|b bs IH]; intros t Hhd Hbs Hne; [congruence|].
  simpl in Hbs. apply andb_prop in Hbs as [Hb Hbs].
  apply negb_true_iff, Z.eqb_neq in Hb.
  rewrite processIncomingBytes_cons, processIncomingByte_unframed by assumption.
  destruct bs as [|b' bs'].
  - reflexivity.
  - rewrite IH.
    + destruct t; simpl. rewrite <- app_assoc. reflexivity.
    + simpl. now apply nth_0_app_single.
    + assumption.
    + discriminate.
Qed.

Lemma bytes_before_first_frame_witness :
  processIncomingBytes [0x00; 0xF7; 0xFE] (fresh SLAVE) =
  set_incomingBuffer (incomingBuffer_ (fresh SLAVE) ++ [0x00; 0xF7; 0xFE])
    (set_lastMessageTime (getMillis (platform_ (fresh SLAVE))) (fresh SLAVE)).
Proof.
  apply (bytes_before_first_frame (fresh SLAVE) [0x00; 0xF7; 0xFE]).
  - simpl. discriminate.
  - reflexivity.
  - discriminate.
Defined.

(** C5, as the claim words it, fails. A byte received by a fresh engine,
    before any F0, is appended to the buffer; a byte other than 0xFE
    refreshes the time of the last reception; and after the complete frame
    SpeedRequest, which the slave answers once, the two bytes 00 F7 make it
    validate the kept buffer again and answer a second time. *)
Lemma outside_frame_byte_counts :
  incomingBuffer_ (processIncomingByte 0x00 (fresh SLAVE)) = [0x00] /\
  lastMessageTime_ (advance 5 (fresh SLAVE)) = 0 /\
  lastMessageTime_ (processIncomingByte 0x00 (advance 5 (fresh SLAVE))) = 5 /\
  (let t := processIncomingBytes buildSpeedReq testSlave in
   let t' := processIncomingBytes [0x00; SYSEX_END] t in
   txBuffer (platform_ t) = buildSpeedAnswer (localConfig_ testSlave) /\
   txBuffer (platform_ t') =
     buildSpeedAnswer (localConfig_ testSlave)
     ++ buildSpeedAnswer (localConfig_ testSlave)).
Proof. vm_compute. repeat split. Qed.

(** ** SpeedAnswer round trip *)

Lemma getParsedMessages_from_start (rest cur : list Z) (msgs : list (list Z)) :
  getParsedMessages_from (SYSEX_START :: rest) cur msgs =
  getParsedMessages_from rest [SYSEX_START] msgs.
Proof. reflexivity. Qed.

Lemma getParsedMessages_from_end (rest cur : list Z) (msgs : list (list Z)) :
  getParsedMessages_from (SYSEX_END :: rest) cur msgs =
  getParsedMessages_from rest (cur ++ [SYSEX_END]) (msgs ++ [cur ++ [SYSEX_END]]).
Proof.
  simpl. rewrite length_app, Nat.add_comm. reflexivity.
Qed.

Lemma getParsedMessages_from_other (b : Z) (rest cur : list Z)
    (msgs : list (list Z)) :
  b <> SYSEX_START -> b <> SYSEX_END ->
  getParsedMessages_from (b :: rest) cur msgs =
  getParsedMessages_from rest (cur ++ [b]) msgs.
Proof.
  intros H0 H7. apply Z.eqb_neq in H0, H7. simpl. rewrite H0, H7. reflexivity.
Qed.

(** One step of [getParsedMessages_from] on a byte that is not [F0]. *)
Ltac parsed_step b :=
  destruct (Z.eq_dec b SYSEX_END) as [-> | ?];
  [ rewrite getParsedMessages_from_end
  | rewrite (getParsedMessages_from_other b) by assumption ].

Lemma parseSpeedAnswer_buildSpeedAnswer_buffer (c : SpeedConfig) :
  mask1 c <> 0xF0 -> mask2 c <> 0xF0 -> cert1 c <> 0xF0 -> cert2 c <> 0xF0 ->
  match find (fun msg => (12 <=? length msg)%nat && (nth 6 msg 0 =? SPEED_ANSWER))
             (getParsedMessages_from (buildSpeedAnswer c) [] []) with
  | Some msg =>
      Some {| mask1 := nth 7 msg 0; mask2 := nth 8 msg 0;
              cert1 := nth 9 msg 0; cert2 := nth 10 msg 0 |}
  | None => None
  end = Some c.
Proof.
  destruct c as [m1 m2 c1 c2]. cbn [mask1 mask2 cert1 cert2]. intros H1 H2 H3 H4.
  unfold buildSpeedAnswer, buildCommand, ELEKTRON_ID.
  cbn [app mask1 mask2 cert1 cert2].
  rewrite getParsedMessages_from_start.
  do 6 (rewrite getParsedMessages_from_other by discriminate).
  parsed_step m1; parsed_step m2; parsed_step c1; parsed_step c2;
    rewrite getParsedMessages_from_end; reflexivity.
Qed.

Section RoundTrip.

Context {P : Type} `{IPlatform P}.

Implicit Types t : TurboMIDI P.

(** [parseSpeedAnswer] reads the buffer only. *)
Lemma parseSpeedAnswer_buffer t t' :
  incomingBuffer_ t = incomingBuffer_ t' ->
  parseSpeedAnswer t = parseSpeedAnswer t'.
Proof.
  intros E. unfold parseSpeedAnswer, getParsedMessages. rewrite E. reflexivity.
Qed.

(** A stream that starts with [F0] and holds no other [F0] is the buffer
    once received. *)
Lemma processIncomingBytes_whole_frame (rest : list Z) t :
  forallb (fun b => negb (b =? SYSEX_START)) rest = true ->
  incomingBuffer_ (processIncomingBytes (SYSEX_START :: rest) t)
  = SYSEX_START :: rest.
Proof.
  intros Hrest.
  rewrite processIncomingBytes_cons, processIncomingBytes_incomingBuffer,
    processIncomingByte_incomingBuffer by assumption.
  reflexivity.
Qed.

(** C9, as the code has it. For every capability set none of whose four
    bytes is 0xF0 (so for every set made of MIDI data bytes, and for every
    set [addSpeed] can build), the frame [buildSpeedAnswer] makes of it is
    parsed back by [parseSpeedAnswer] into the same four bytes, both when
    the buffer holds the frame and when the frame is received byte by byte
    by an engine in any state. *)
Theorem speedAnswer_roundtrip (c : SpeedConfig) t :
  mask1 c <> 0xF0 -> mask2 c <> 0xF0 -> cert1 c <> 0xF0 -> cert2 c <> 0xF0 ->
  parseSpeedAnswer (set_incomingBuffer (buildSpeedAnswer c) t) = Some c /\
  parseSpeedAnswer (processIncomingBytes (buildSpeedAnswer c) t) = Some c.
Proof.
  intros H1 H2 H3 H4.
  assert (E : parseSpeedAnswer (set_incomingBuffer (buildSpeedAnswer c) t) = Some c)
    by (apply parseSpeedAnswer_buildSpeedAnswer_buffer; assumption).
  split; [exact E|].
  rewrite <- E. apply parseSpeedAnswer_buffer.
  change (buildSpeedAnswer c)
    with (SYSEX_START ::
            [0; 0x20; 0x3C; 0; 0; SPEED_ANSWER;
             mask1 c; mask2 c; cert1 c; cert2 c; SYSEX_END]).
  rewrite processIncomingBytes_whole_frame; [reflexivity|].
  apply Z.eqb_neq in H1, H2, H3, H4.
  cbn [forallb]. unfold SYSEX_START. rewrite H1, H2, H3, H4. reflexivity.
Qed.

End RoundTrip.

Lemma speedAnswer_roundtrip_witness :
  parseSpeedAnswer
    (processIncomingBytes (buildSpeedAnswer (mkSpeedConfig 0x55 0x07 0x15 0x02))
       (fresh MASTER))
  = Some (mkSpeedConfig 0x55 0x07 0x15 0x02).
Proof.
  apply (proj2 (speedAnswer_roundtrip (mkSpeedConfig 0x55 0x07 0x15 0x02)
                  (fresh MASTER)
                  ltac:(simpl; discriminate) ltac:(simpl; discriminate)
                  ltac:(simpl; discriminate) ltac:(simpl; discriminate))).
Defined.

(** C9, as the claim words it, fails at the four bytes F0 00 00 00: the
    byte F0 in the payload restarts the frame, for [getParsedMessages] and
    for the reassembler alike, and [parseSpeedAnswer] finds no SpeedAnswer. *)
Lemma speedAnswer_roundtrip_F0 :
  let c := mkSpeedConfig 0xF0 0x00 0x00 0x00 in
  parseSpeedAnswer (set_incomingBuffer (buildSpeedAnswer c) (fresh MASTER)) = None /\
  parseSpeedAnswer (processIncomingBytes (buildSpeedAnswer c) (fresh MASTER)) = None /\
  incomingBuffer_ (processIncomingBytes (buildSpeedAnswer c) (fresh MASTER))
  = [0xF0; 0x00; 0x00; 0x00; 0xF7].
Proof. vm_compute. repeat split. Qed.

(** ** Negotiation on the mock platform *)

Lemma tx_extends_refl t : tx_extends t t.
Proof. exists []. now rewrite app_nil_r. Qed.

Lemma tx_extends_trans t1 t2 t3 :
  tx_extends t1 t2 -> tx_extends t2 t3 -> tx_extends t1 t3.
Proof.
  intros [l1 E1] [l2 E2]. exists (l1 ++ l2).
  now rewrite E2, E1, app_assoc.
Qed.

Lemma same_clock_trans t1 t2 t3 :
  same_clock t1 t2 -> same_clock t2 t3 -> same_clock t1 t3.
Proof. unfold same_clock. congruence. Qed.

(** Closes [same_clock t t' /\ tx_extends t t'] once both engines are
    explicit records. *)
Ltac quiet :=
  split;
  [ reflexivity
  | first [ exists []; simpl; rewrite app_nil_r; reflexivity
          | eexists; simpl; rewrite <- ?app_assoc; reflexivity ] ].

Lemma setSpeed_quiet (s : SpeedMultiplier) (t : TurboMIDI MockPlatform) :
  same_clock t (setSpeed s t) /\ tx_extends t (setSpeed s t).
Proof.
  unfold setSpeed. destruct t as [[] ? ? ? ? ? ? ? ? ? [] ? ?]; quiet.
Qed.

Lemma sendCommand_quiet (cmd : list Z) (t : TurboMIDI MockPlatform) :
  same_clock t (sendCommand cmd t) /\ tx_extends t (sendCommand cmd t).
Proof. destruct t as [[] ? ? ? ? ? ? ? ? ? ? ? ?]; quiet. Qed.

Lemma sendCommand_tx (cmd : list Z) (t : TurboMIDI MockPlatform) :
  txBuffer (platform_ (sendCommand cmd t)) = txBuffer (platform_ t) ++ cmd.
Proof. reflexivity. Qed.

Lemma processCompleteMessage_quiet (t : TurboMIDI MockPlatform) :
  same_clock t (processCompleteMessage t) /\
  tx_extends t (processCompleteMessage t).
Proof.
  unfold processCompleteMessage, setSpeed.
  destruct t as [[] ? ? ? ? ? ? ts ? ? ch rq ?].
  cbn [incomingBuffer_ role_ localConfig_ testState_ onSpeedChanged
       onSpeedRequest sendCommand set_platform set_currentSpeed set_calls
       set_testState set_pendingTestSpeed set_pendingTargetSpeed
       platform_ calls_ pendingTestSpeed_ pendingTargetSpeed_].
  repeat match goal with
         | |- context [if ?c then _ else _] => destruct c
         | |- context [match ts with _ => _ end] => destruct ts
         end; quiet.
Qed.

Lemma checkTimeouts_quiet (t : TurboMIDI MockPlatform) :
  same_clock t (checkTimeouts t) /\ tx_extends t (checkTimeouts t).
Proof.
  unfold checkTimeouts, sendActiveSense, setSpeed.
  destruct t as [[] ? ? ? ? ? ? ? ? ? ch ? ?].
  cbn [currentSpeed_ platform_ lastMessageTime_ onSpeedChanged
       set_currentSpeed set_platform set_calls calls_].
  repeat match goal with
         | |- context [if ?c then _ else _] => destruct c
         end; quiet.
Qed.

Lemma processIncomingByte_quiet (b : Z) (t : TurboMIDI MockPlatform) :
  same_clock t (processIncomingByte b t) /\
  tx_extends t (processIncomingByte b t).
Proof.
  unfold processIncomingByte.
  set (t1 := set_incomingBuffer _ _).
  assert (Q1 : same_clock t t1 /\ tx_extends t t1).
  { subst t1. destruct t as [[] ? ? ? ? ? ? ? ? ? ? ? ?].
    destruct (b =? SYSEX_START); quiet. }
  clearbody t1.
  assert (Q2 : same_clock t (if b =? SYSEX_END then processCompleteMessage t1 else t1)
               /\ tx_extends t (if b =? SYSEX_END then processCompleteMessage t1 else t1)).
  { destruct (b =? SYSEX_END); [|exact Q1].
    destruct Q1 as [C1 X1], (processCompleteMessage_quiet t1) as [C2 X2].
    split; [eapply same_clock_trans | eapply tx_extends_trans]; eassumption. }
  set (t2 := if b =? SYSEX_END then _ else _) in *. clearbody t2.
  destruct (b =? ACTIVE_SENSING); [|exact Q2].
  destruct Q2 as [C2 X2]. unfold same_clock, tx_extends in *.
  destruct t2 as [[] ? ? ? ? ? ? ? ? ? ? ? ?]; simpl in *. split; assumption.
Qed.

Lemma processIncomingBytes_quiet (bs : list Z) (t : TurboMIDI MockPlatform) :
  same_clock t (processIncomingBytes bs t) /\
  tx_extends t (processIncomingBytes bs t).
Proof.
  revert t. induction bs as [|b bs IH]; intros t.
  - split; [reflexivity | apply tx_extends_refl].
  - rewrite processIncomingBytes_cons.
    destruct (processIncomingByte_quiet b t) as [C1 X1].
    destruct (IH (processIncomingByte b t)) as [C2 X2].
    split; [eapply same_clock_trans | eapply tx_extends_trans]; eassumption.
Qed.

Lemma handleIncomingData_quiet (t : TurboMIDI MockPlatform) :
  same_clock t (handleIncomingData t) /\ tx_extends t (handleIncomingData t).
Proof.
  unfold handleIncomingData. simpl receiveMidiData. unfold Mock_receiveMidiData.
  set (t0 := set_platform _ t).
  assert (Q0 : same_clock t t0 /\ tx_extends t t0)
    by (subst t0; destruct t as [[] ? ? ? ? ? ? ? ? ? ? ? ?]; quiet).
  clearbody t0. destruct Q0 as [C0 X0].
  destruct (processIncomingBytes_quiet (firstn 256 (rxBuffer (platform_ t))) t0)
    as [C1 X1].
  destruct (checkTimeouts_quiet
              (processIncomingBytes (firstn 256 (rxBuffer (platform_ t))) t0))
    as [C2 X2].
  split; [eapply same_clock_trans | eapply tx_extends_trans];
    try eassumption;
    [eapply same_clock_trans | eapply tx_extends_trans]; eassumption.
Qed.

(** One millisecond of [delayMs] moves the wrap-safe elapsed time by one,
    as long as the elapsed time is below a 32-bit timeout. *)
Lemma elapsed_after_delay (time start timeoutMs : Z) :
  timeoutMs < 2 ^ 32 ->
  u32 (time - start) < timeoutMs ->
  u32 (u32 (time + 1) - start) = u32 (time - start) + 1.
Proof.
  unfold u32. intros Ht Hd.
  rewrite Zminus_mod_idemp_l.
  replace (time + 1 - start) with ((time - start) + 1) by lia.
  rewrite <- Zplus_mod_idemp_l.
  apply Z.mod_small.
  pose proof (Z.mod_pos_bound (time - start) (2 ^ 32) ltac:(lia)). lia.
Qed.

(** On the mock every wait loop ends: each round costs one millisecond of
    the clock, which nothing else moves. Fuel above the time left is
    enough, and the loop only adds to what was sent. *)
Lemma waitFor_loop_terminates (parse : TurboMIDI MockPlatform -> bool)
    (start timeoutMs : Z) (fuel : nat) :
  forall t : TurboMIDI MockPlatform,
    timeoutMs < 2 ^ 32 ->
    (Z.to_nat (timeoutMs - u32 (currentTime (platform_ t) - start)) < fuel)%nat ->
    exists r t',
      waitFor_loop parse fuel start timeoutMs t = Some (r, t') /\
      tx_extends t t'.
Proof.
  induction fuel as [|fuel IH]; intros t Ht Hfuel; [lia|].
  cbn [waitFor_loop]. change (getMillis (platform_ t)) with (currentTime (platform_ t)).
  destruct (u32 (currentTime (platform_ t) - start) <? timeoutMs) eqn:Hd.
  - apply Z.ltb_lt in Hd.
    destruct (handleIncomingData_quiet t) as [C X].
    set (t1 := handleIncomingData t) in *. clearbody t1.
    destruct (parse t1).
    + exists true, t1. split; [reflexivity | exact X].
    + set (t2 := set_platform (delayMs 1 (platform_ t1)) t1).
      assert (X2 : tx_extends t1 t2)
        by (subst t2; destruct t1 as [[] ? ? ? ? ? ? ? ? ? ? ? ?];
            exists []; simpl; now rewrite app_nil_r).
      assert (T2 : currentTime (platform_ t2) = u32 (currentTime (platform_ t) + 1))
        by (subst t2; unfold same_clock in C; rewrite <- C;
            destruct t1 as [[] ? ? ? ? ? ? ? ? ? ? ? ?]; reflexivity).
      destruct (IH t2 Ht) as (r & t' & E & X').
      * rewrite T2, (elapsed_after_delay _ _ timeoutMs) by assumption. lia.
      * exists r, t'. split; [exact E|].
        exact (tx_extends_trans _ _ _ X (tx_extends_trans _ _ _ X2 X')).
  - exists false, t. split; [reflexivity | apply tx_extends_refl].
Qed.

Lemma waitFor_terminates (parse : TurboMIDI MockPlatform -> bool)
    (timeoutMs : Z) (fuel : nat) (t : TurboMIDI MockPlatform) :
  timeoutMs < 2 ^ 32 ->
  (Z.to_nat timeoutMs < fuel)%nat ->
  exists r t',
    waitFor_loop parse fuel (getMillis (platform_ t)) timeoutMs t = Some (r, t') /\
    tx_extends t t'.
Proof.
  intros Ht Hfuel. apply waitFor_loop_terminates; [assumption|].
  change (getMillis (platform_ t)) with (currentTime (platform_ t)).
  rewrite Z.sub_diag. change (u32 0) with 0. rewrite Z.sub_0_r. exact Hfuel.
Qed.

Lemma performSpeedTest_terminates (fuel : nat) (testSpeed targetSpeed : SpeedMultiplier)
    (t : TurboMIDI MockPlatform) :
  (30 < fuel)%nat ->
  exists r t',
    performSpeedTest fuel testSpeed targetSpeed t = Some (r, t') /\
    tx_extends t t'.
Proof.
  intros Hfuel. unfold performSpeedTest.
  set (t1 := sendCommand buildSpeedTest _).
  assert (X1 : tx_extends t t1).
  { subst t1. unfold setSpeed.
    destruct t as [[] ? ? ? ? ? ? ? ? ? [] ? ?];
      eexists; simpl; rewrite <- ?app_assoc; reflexivity. }
  clearbody t1. unfold waitForSpeedResult, waitForSpeedResult2.
  destruct (waitFor_terminates parseSpeedResult 30 fuel t1) as (r1 & t2 & E1 & X2);
    [reflexivity | simpl; lia |].
  rewrite E1. destruct r1.
  - set (t3 := sendCommand buildSpeedTest2 t2).
    assert (X3 : tx_extends t2 t3) by apply sendCommand_quiet.
    clearbody t3.
    destruct (waitFor_terminates parseSpeedResult2 30 fuel t3) as (r2 & t4 & E2 & X4);
      [reflexivity | simpl; lia |].
    rewrite E2.
    assert (X : tx_extends t t4)
      by (repeat (eapply tx_extends_trans; [eassumption|]); apply tx_extends_refl).
    destruct r2; eexists _, _; (split; [reflexivity|]);
      (eapply tx_extends_trans; [exact X | apply setSpeed_quiet]).
  - eexists _, _. split; [reflexivity|].
    eapply tx_extends_trans; [exact X1|].
    eapply tx_extends_trans; [exact X2 | apply setSpeed_quiet].
Qed.

(** The speeds that a capability set can hold are those with a bit. *)
Lemma hasSpeed_range (c : SpeedConfig) (s : SpeedMultiplier) :
  hasSpeed c s = true -> 2 <= s <= 11.
Proof.
  unfold hasSpeed.
  repeat match goal with
         | |- context [if ?x =? ?k then _ else _] =>
             destruct (Z.eqb_spec x k); [subst; intros _; cbv; split; discriminate|]
         end.
  discriminate.
Qed.

(** C6, as the code has it, on the mock platform. Let the master (role
    not SLAVE) have received a SpeedAnswer in which the remote supports the
    target without certifying it, the target not being 1x. The test speed
    is then the successor of the target in the enumeration, whether or not
    the remote supports that speed: if the target is 20x, [negotiateSpeed]
    returns false on the spot, without sending anything more; for every
    other target it does not fail there but sends
    SpeedNegotiate(target + 1, target) next, and returns (fuel above the
    timeouts is enough for all its waits). *)
Theorem negotiate_test_speed
    (t t2 : TurboMIDI MockPlatform) (fuel : nat)
    (targetSpeed : SpeedMultiplier) (timeoutMs : Z) (remoteConfig : SpeedConfig) :
  role_ t <> SLAVE ->
  timeoutMs < 2 ^ 32 ->
  (Z.to_nat timeoutMs < fuel)%nat ->
  (30 < fuel)%nat ->
  waitForSpeedAnswer fuel timeoutMs (sendCommand buildSpeedReq t)
    = Some (Some remoteConfig, t2) ->
  hasSpeed remoteConfig targetSpeed = true ->
  isCertified remoteConfig targetSpeed = false ->
  targetSpeed <> SPEED_1X ->
  (targetSpeed = SPEED_20X ->
     negotiateSpeed fuel targetSpeed timeoutMs t = Some (false, t2)) /\
  (targetSpeed <> SPEED_20X ->
     exists result t' sent,
       negotiateSpeed fuel targetSpeed timeoutMs t = Some (result, t') /\
       txBuffer (platform_ t') =
         txBuffer (platform_ t2)
         ++ buildSpeedNeg (targetSpeed + 1) targetSpeed ++ sent).
Proof.
  intros Hrole Ht Hfuel Hfuel30 Hans Hhas Hcert H1x.
  pose proof (hasSpeed_range _ _ Hhas) as Hr.
  assert (Hrole' : DeviceRole_eqb (role_ t) SLAVE = false)
    by (destruct (role_ t); congruence || reflexivity).
  apply Z.eqb_neq in H1x.
  unfold negotiateSpeed. rewrite Hrole', Hans, Hhas, Hcert, H1x.
  cbn [negb andb]. unfold getNextHigherSpeed. split.
  - intros ->. reflexivity.
  - intros H20. unfold SPEED_20X in H20.
    assert (L : (targetSpeed <? 11) = true) by (apply Z.ltb_lt; lia).
    assert (N : (targetSpeed + 1 =? targetSpeed) = false) by (apply Z.eqb_neq; lia).
    rewrite L, N. cbn [negb andb].
    set (t3 := sendCommand (buildSpeedNeg (targetSpeed + 1) targetSpeed) t2).
    assert (Sent : forall t', tx_extends t3 t' ->
              exists sent, txBuffer (platform_ t') =
                txBuffer (platform_ t2)
                ++ buildSpeedNeg (targetSpeed + 1) targetSpeed ++ sent).
    { intros t' [sent E]. exists sent. rewrite E. subst t3.
      rewrite sendCommand_tx, <- app_assoc. reflexivity. }
    clearbody t3. unfold waitForAck.
    destruct (waitFor_terminates parseAck timeoutMs fuel t3 Ht Hfuel)
      as (r & t4 & E & X).
    rewrite E. destruct r.
    + destruct (performSpeedTest_terminates fuel (targetSpeed + 1) targetSpeed
                  t4 Hfuel30) as (r' & t5 & E' & X').
      rewrite E'. destruct r'.
      * destruct (Sent (setSpeed targetSpeed t5)) as [sent Es].
        { eapply tx_extends_trans; [exact X|].
          eapply tx_extends_trans; [exact X' | apply setSpeed_quiet]. }
        exists true, (setSpeed targetSpeed t5), sent. split; [reflexivity | exact Es].
      * destruct (Sent t5) as [sent Es];
          [eapply tx_extends_trans; eassumption|].
        exists false, t5, sent. split; [reflexivity | exact Es].
    + destruct (Sent t4 X) as [sent Es].
      exists false, t4, sent. split; [reflexivity | exact Es].
Qed.

Lemma negotiate_test_speed_witness :
  waitForSpeedAnswer 40 30 (sendCommand buildSpeedReq scriptedMaster)
    = Some (Some remote4X, scriptedMaster_answered) /\
  exists result t' sent,
    negotiateSpeed 40 SPEED_4X 30 scriptedMaster = Some (result, t') /\
    txBuffer (platform_ t') =
      txBuffer (platform_ scriptedMaster_answered)
      ++ buildSpeedNeg (SPEED_4X + 1) SPEED_4X ++ sent.
Proof.
  assert (Hans : waitForSpeedAnswer 40 30 (sendCommand buildSpeedReq scriptedMaster)
                 = Some (Some remote4X, scriptedMaster_answered))
    by (vm_compute; reflexivity).
  split; [exact Hans|].
  apply (proj2 (negotiate_test_speed scriptedMaster scriptedMaster_answered
                  40 SPEED_4X 30 remote4X
                  ltac:(simpl; discriminate) eq_refl
                  ltac:(simpl; lia) ltac:(lia) Hans eq_refl eq_refl
                  ltac:(discriminate))).
  discriminate.
Defined.

(** C6, as the claim words it, fails. The remote advertises 4x only,
    uncertified, so that no higher speed is supported; the master asked for
    4x does not fail: it sends SpeedNegotiate(5x, 4x), runs the test at 5x
    and, the replies being those of a slave, returns true at 4x. *)
Lemma negotiate_without_higher_speed :
  hasSpeed remote4X SPEED_4X = true /\
  isCertified remote4X SPEED_4X = false /\
  (forall s : SpeedMultiplier, s <> SPEED_4X -> hasSpeed remote4X s = false) /\
  exists t' : TurboMIDI MockPlatform,
    negotiateSpeed 40 SPEED_4X 30 scriptedMaster = Some (true, t') /\
    currentSpeed_ t' = SPEED_4X /\
    txBuffer (platform_ t') =
      buildSpeedReq ++ buildSpeedNeg SPEED_5X SPEED_4X ++ repeat 0 16
      ++ buildSpeedTest ++ buildSpeedTest2.
Proof.
  split; [reflexivity|]. split; [reflexivity|]. split.
  - intros s Hs. destruct (hasSpeed remote4X s) eqn:E; [|reflexivity].
    pose proof (hasSpeed_range _ _ E) as Hr.
    assert (D : s = 2 \/ s = 3 \/ s = 4 \/ s = 5 \/ s = 6 \/
                s = 7 \/ s = 8 \/ s = 9 \/ s = 10 \/ s = 11) by lia.
    repeat (destruct D as [D | D]); subst s;
      solve [ vm_compute in E; discriminate | contradiction Hs; reflexivity ].
  - destruct (negotiateSpeed 40 SPEED_4X 30 scriptedMaster)
      as [[[|] t']|] eqn:E; try (vm_compute in E; discriminate).
    exists t'. split; [reflexivity|].
    vm_compute in E. injection E as <-. split; reflexivity.
Qed.

(** ** Bits of the capability bytes *)

Lemma testbit_one_shiftl (k j : Z) :
  0 <= k -> 0 <= j -> Z.testbit (Z.shiftl 1 k) j = (j =? k).
Proof.
  intros Hk Hj. rewrite Z.shiftl_spec by assumption.
  destruct (Z.eqb_spec j k) as [->|N].
  - now rewrite Z.sub_diag.
  - destruct (Z.lt_ge_cases j k).
    + apply Z.testbit_neg_r. lia.
    + replace (j - k) with (Z.succ (j - k - 1)) by lia.
      change 1 with (2 * 0 + 1) at 1.
      rewrite Z.testbit_odd_succ by lia. apply Z.bits_0.
Qed.

Lemma and_bit_testbit (m k : Z) : 0 <= k -> and_bit m k = Z.testbit m k.
Proof.
  intros Hk. unfold and_bit.
  destruct (Z.testbit m k) eqn:T.
  - apply negb_true_iff, Z.eqb_neq. intros E.
    assert (B : Z.testbit (Z.land m (Z.shiftl 1 k)) k = false)
      by (rewrite E; apply Z.bits_0).
    rewrite Z.land_spec, T, testbit_one_shiftl, Z.eqb_refl in B by lia.
    discriminate.
  - apply negb_false_iff, Z.eqb_eq, Z.bits_inj'. intros j Hj.
    rewrite Z.land_spec, testbit_one_shiftl, Z.bits_0 by lia.
    destruct (Z.eqb_spec j k) as [->|]; [now rewrite T | apply andb_false_r].
Qed.

Lemma testbit_or_bit (m k j : Z) :
  0 <= k -> 0 <= j ->
  Z.testbit (or_bit m k) j = (j <? 8) && (Z.testbit m j || (j =? k)).
Proof.
  intros Hk Hj. unfold or_bit, u8. change 256 with (2 ^ 8).
  destruct (Z.ltb_spec j 8).
  - rewrite Z.mod_pow2_bits_low, Z.lor_spec, testbit_one_shiftl by lia.
    reflexivity.
  - rewrite Z.mod_pow2_bits_high by lia. reflexivity.
Qed.

Lemma and_bit_or_bit (m k j : Z) :
  0 <= k -> 0 <= j < 8 ->
  and_bit (or_bit m k) j = and_bit m j || (j =? k).
Proof.
  intros Hk Hj. rewrite !and_bit_testbit, testbit_or_bit by lia.
  destruct (Z.ltb_spec j 8); [reflexivity | lia].
Qed.

Lemma or_bit_twice (m k : Z) : 0 <= k -> or_bit (or_bit m k) k = or_bit m k.
Proof.
  intros Hk. apply Z.bits_inj'. intros j Hj.
  rewrite !testbit_or_bit by lia.
  destruct (j <? 8), (Z.testbit m j), (j =? k); reflexivity.
Qed.

Lemma or_bit_comm (m k k' : Z) :
  0 <= k -> 0 <= k' -> or_bit (or_bit m k) k' = or_bit (or_bit m k') k.
Proof.
  intros Hk Hk'. apply Z.bits_inj'. intros j Hj.
  rewrite !testbit_or_bit by lia.
  destruct (j <? 8), (Z.testbit m j), (j =? k), (j =? k'); reflexivity.
Qed.

(** Setting one of the low [n] bits keeps a byte below [2 ^ n]. *)
Lemma or_bit_bound (m k n : Z) :
  0 <= k < n -> n <= 8 -> 0 <= m < 2 ^ n -> 0 <= or_bit m k < 2 ^ n.
Proof.
  intros Hk Hn Hm.
  assert (E : or_bit m k = or_bit m k mod 2 ^ n).
  { apply Z.bits_inj'. intros j Hj.
    destruct (Z.lt_ge_cases j n) as [L|G].
    - now rewrite Z.mod_pow2_bits_low by lia.
    - rewrite Z.mod_pow2_bits_high, testbit_or_bit by lia.
      assert (T : Z.testbit m j = false).
      { destruct (Z.eq_dec m 0) as [->|N]; [apply Z.bits_0|].
        apply Z.bits_above_log2; [lia|].
        apply Z.lt_le_trans with n; [|exact G].
        apply Z.log2_lt_pow2; lia. }
      rewrite T. destruct (Z.eqb_spec j k); [lia|].
      apply andb_false_r. }
  rewrite E. apply Z.mod_pos_bound. apply Z.pow_pos_nonneg; lia.
Qed.

(** The eleven cases of a [switch] on a speed: the ten speeds that have a
    bit, and every other value. *)
Ltac speed_cases s :=
  let D := fresh "D" in
  assert (D : s = 2 \/ s = 3 \/ s = 4 \/ s = 5 \/ s = 6 \/ s = 7 \/ s = 8 \/
              s = 9 \/ s = 10 \/ s = 11 \/ ~ (2 <= s <= 11)) by lia;
  repeat (destruct D as [D | D]); [subst s .. | ].

Lemma in_range_false (s : Z) :
  ~ (2 <= s <= 11) -> (2 <=? s) && (s <=? 11) = false.
Proof.
  intros Hs. destruct (Z.leb_spec 2 s), (Z.leb_spec s 11); try reflexivity. lia.
Qed.

Lemma addSpeed_other (s : SpeedMultiplier) (b : bool) (c : SpeedConfig) :
  ~ (2 <= s <= 11) -> addSpeed s b c = c.
Proof.
  intros Hs. unfold addSpeed.
  repeat match goal with
         | |- context [if s =? ?k then _ else _] =>
             destruct (Z.eqb_spec s k) as [E|_];
             [unfold SPEED_2X, SPEED_3_3X, SPEED_4X, SPEED_5X, SPEED_6_6X,
                SPEED_8X, SPEED_10X, SPEED_13_3X, SPEED_16X, SPEED_20X in E; lia|]
         end.
  reflexivity.
Qed.

Lemma hasSpeed_other (c : SpeedConfig) (s : SpeedMultiplier) :
  ~ (2 <= s <= 11) -> hasSpeed c s = false.
Proof.
  intros Hs. destruct (hasSpeed c s) eqn:E; [|reflexivity].
  apply hasSpeed_range in E. lia.
Qed.

Lemma isCertified_range (c : SpeedConfig) (s : SpeedMultiplier) :
  isCertified c s = true -> 2 <= s <= 11.
Proof.
  unfold isCertified.
  repeat match goal with
         | |- context [if ?x =? ?k then _ else _] =>
             destruct (Z.eqb_spec x k); [subst; intros _; cbv; split; discriminate|]
         end.
  discriminate.
Qed.

Lemma isCertified_other (c : SpeedConfig) (s : SpeedMultiplier) :
  ~ (2 <= s <= 11) -> isCertified c s = false.
Proof.
  intros Hs. destruct (isCertified c s) eqn:E; [|reflexivity].
  apply isCertified_range in E. lia.
Qed.

Lemma hasSpeed_addSpeed (c : SpeedConfig) (s' s : SpeedMultiplier) (b : bool) :
  hasSpeed (addSpeed s' b c) s =
  hasSpeed c s || ((s =? s') && ((2 <=? s') && (s' <=? 11))).
Proof.
  destruct (Z.le_gt_cases 2 s) as [L|L], (Z.le_gt_cases s 11) as [U|U].
  2,3,4: rewrite !hasSpeed_other by lia;
         destruct (Z.eqb_spec s s') as [<-|]; [rewrite in_range_false by lia|];
         reflexivity.
  destruct (Z.le_gt_cases 2 s') as [L'|L'], (Z.le_gt_cases s' 11) as [U'|U'].
  2,3,4: rewrite addSpeed_other, in_range_false by lia;
         now rewrite andb_false_r, orb_false_r.
  speed_cases s'; [..|lia]; (speed_cases s; [..|lia]);
    unfold hasSpeed, addSpeed; cbn -[and_bit or_bit];
    rewrite ?and_bit_or_bit by lia; cbn; rewrite ?orb_false_r; reflexivity.
Qed.

Lemma isCertified_addSpeed (c : SpeedConfig) (s' s : SpeedMultiplier) (b : bool) :
  isCertified (addSpeed s' b c) s =
  isCertified c s || (b && (s =? s') && ((2 <=? s') && (s' <=? 11))).
Proof.
  destruct (Z.le_gt_cases 2 s) as [L|L], (Z.le_gt_cases s 11) as [U|U].
  2,3,4: rewrite !isCertified_other by lia;
         destruct (Z.eqb_spec s s') as [<-|]; [rewrite in_range_false by lia|];
         now rewrite ?andb_false_r.
  destruct (Z.le_gt_cases 2 s') as [L'|L'], (Z.le_gt_cases s' 11) as [U'|U'].
  2,3,4: rewrite addSpeed_other, in_range_false by lia;
         now rewrite andb_false_r, orb_false_r.
  destruct b;
    (speed_cases s'; [..|lia]; (speed_cases s; [..|lia]);
     unfold isCertified, addSpeed; cbn -[and_bit or_bit];
     rewrite ?and_bit_or_bit by lia; cbn; rewrite ?orb_false_r; reflexivity).
Qed.

(** ** Configuration of the capability set *)

(** X1. Queries after [addSpeed]. After [addSpeed(added, certified)] a speed
    is in the set iff it was there before or it is the added speed and the
    added speed is one of the ten that have a bit (ids 2 to 11); it is
    certified iff it was before or it is that speed and [certified] is
    true. So [addSpeed] sets the bit of its speed, clears none, and is a
    no-op for 1x and for any unknown id. *)
Theorem addSpeed_queries (c : SpeedConfig) (added s : SpeedMultiplier)
    (certified : bool) :
  hasSpeed (addSpeed added certified c) s =
    hasSpeed c s || ((s =? added) && ((2 <=? added) && (added <=? 11))) /\
  isCertified (addSpeed added certified c) s =
    isCertified c s
    || (certified && (s =? added) && ((2 <=? added) && (added <=? 11))).
Proof.
  split; [apply hasSpeed_addSpeed | apply isCertified_addSpeed].
Qed.

Lemma addSpeed_cert_implies_support (c : SpeedConfig) (s : SpeedMultiplier)
    (b : bool) :
  cert_implies_support c -> cert_implies_support (addSpeed s b c).
Proof.
  intros Hc q. rewrite hasSpeed_addSpeed, isCertified_addSpeed.
  intros Hq. apply orb_true_iff in Hq as [Hq | Hq].
  - now rewrite (Hc q Hq).
  - apply andb_prop in Hq as [Hq Hr]. apply andb_prop in Hq as [_ Hq].
    rewrite Hq, Hr. apply orb_true_r.
Qed.

(** X2. A certification bit never stands without its support bit. The
    property is kept by every [addSpeed], so by any sequence of
    configuration calls, and the default set has it: in every set built
    by configuration, a certified speed is a supported speed. *)
Theorem configure_cert_implies_support
    (calls : list (SpeedMultiplier * bool)) (c : SpeedConfig) :
  cert_implies_support c -> cert_implies_support (configure calls c).
Proof.
  revert c. induction calls as [|[s b] calls IH]; intros c Hc; [exact Hc|].
  apply IH. now apply addSpeed_cert_implies_support.
Qed.

Lemma default_cert_implies_support : cert_implies_support SpeedConfig_default.
Proof.
  intros s Hs. exfalso. revert Hs. unfold isCertified.
  repeat match goal with
         | |- context [if ?x =? ?k then _ else _] => destruct (x =? k)
         end; discriminate.
Qed.

Lemma configure_cert_implies_support_witness :
  cert_implies_support
    (configure [(SPEED_4X, false); (SPEED_8X, true)] SpeedConfig_default).
Proof.
  apply (configure_cert_implies_support [(SPEED_4X, false); (SPEED_8X, true)]
           SpeedConfig_default default_cert_implies_support).
Defined.

Lemma addSpeed_twice (c : SpeedConfig) (s : SpeedMultiplier) (b b' : bool) :
  addSpeed s b (addSpeed s b' c) = addSpeed s (b || b') c.
Proof.
  speed_cases s; [..| now rewrite !addSpeed_other by assumption];
    destruct b, b'; unfold addSpeed, addSpeed1, addSpeed2; cbn -[or_bit];
    rewrite ?or_bit_twice by lia; reflexivity.
Qed.

Lemma addSpeed_comm (c : SpeedConfig) (s s' : SpeedMultiplier) (b b' : bool) :
  addSpeed s b (addSpeed s' b' c) = addSpeed s' b' (addSpeed s b c).
Proof.
  speed_cases s; [..| now rewrite !(addSpeed_other s) by assumption];
    (speed_cases s'; [..| now rewrite !(addSpeed_other s') by assumption]);
    destruct b, b'; unfold addSpeed, addSpeed1, addSpeed2; cbn -[or_bit];
    f_equal; solve [reflexivity | apply or_bit_comm; lia].
Qed.

(** X3. Configuration calls merge and commute. Adding a speed twice is
    adding it once, certified if either call certified it; and two
    [addSpeed] calls give the same four bytes in either order. So the
    capability set depends on which speeds were added and certified, not on
    the order or the number of the calls. *)
Theorem addSpeed_merge_commute (c : SpeedConfig) (s s' : SpeedMultiplier)
    (b b' : bool) :
  addSpeed s b (addSpeed s b' c) = addSpeed s (b || b') c /\
  addSpeed s b (addSpeed s' b' c) = addSpeed s' b' (addSpeed s b c).
Proof.
  split; [apply addSpeed_twice | apply addSpeed_comm].
Qed.

Lemma addSpeed_speed_bits_only (c : SpeedConfig) (s : SpeedMultiplier) (b : bool) :
  speed_bits_only c -> speed_bits_only (addSpeed s b c).
Proof.
  intros (M1 & M2 & C1 & C2).
  assert (B1 : forall m k, 0 <= k < 7 -> 0 <= m < 128 -> 0 <= or_bit m k < 128)
    by (intros m k Hk Hm; apply (or_bit_bound m k 7); lia).
  assert (B2 : forall m k, 0 <= k < 3 -> 0 <= m < 8 -> 0 <= or_bit m k < 8)
    by (intros m k Hk Hm; apply (or_bit_bound m k 3); lia).
  speed_cases s; [..| now rewrite addSpeed_other by assumption];
    unfold speed_bits_only, addSpeed, addSpeed1, addSpeed2; cbn -[or_bit];
    destruct b; (split; [|split; [|split]]);
    first [ assumption | apply B1; (lia || assumption)
          | apply B2; (lia || assumption) ].
Qed.

Lemma configure_keeps_speed_bits_only (calls : list (SpeedMultiplier * bool))
    (c : SpeedConfig) :
  speed_bits_only c -> speed_bits_only (configure calls c).
Proof.
  revert c. induction calls as [|[s b] calls IH]; intros c Hc; [exact Hc|].
  apply IH. now apply addSpeed_speed_bits_only.
Qed.

(** X4. The capability bytes use the speed bits only: whatever
    configuration calls are made on the default set, [mask1] and [cert1]
    stay below 0x80 and [mask2] and [cert2] below 0x08. They are MIDI data
    bytes, none of them a status byte such as F0 or F7. *)
Theorem configure_speed_bits_only (calls : list (SpeedMultiplier * bool))
    (c : SpeedConfig) :
  speed_bits_only c -> speed_bits_only (configure calls c).
Proof.
  apply configure_keeps_speed_bits_only.
Qed.

Lemma configure_speed_bits_only_witness :
  speed_bits_only
    (configure [(SPEED_10X, true); (SPEED_20X, false); (200, true)]
       SpeedConfig_default).
Proof.
  apply (configure_speed_bits_only
           [(SPEED_10X, true); (SPEED_20X, false); (200, true)]
           SpeedConfig_default).
  unfold speed_bits_only; simpl; lia.
Defined.

(** ** Frames built by [CommandBuilder] *)

Lemma buildCommand_cons (cmd : CommandID) (payload : list Z) :
  buildCommand cmd payload =
  SYSEX_START :: [0x00; 0x20; 0x3C; 0x00; 0x00; cmd] ++ payload ++ [SYSEX_END].
Proof. reflexivity. Qed.

(** X5. The frame of every command. For every command id and payload,
    [buildCommand] gives 8 bytes more than the payload: F0, the
    manufacturer prefix 00 20 3C 00 00, the command id in byte 6, the
    payload unchanged from byte 7 on, and F7 as the last byte. *)
Theorem buildCommand_layout (cmd : CommandID) (payload : list Z) :
  let frame := buildCommand cmd payload in
  length frame = (8 + length payload)%nat /\
  nth 0 frame 0 = SYSEX_START /\
  firstn 5 (skipn 1 frame) = ELEKTRON_ID /\
  nth 6 frame 0 = cmd /\
  firstn (length payload) (skipn 7 frame) = payload /\
  nth (length frame - 1) frame 0 = SYSEX_END.
Proof.
  intros frame. subst frame. rewrite buildCommand_cons.
  assert (L : length (SYSEX_START :: [0; 32; 60; 0; 0; cmd] ++ payload ++ [SYSEX_END])
              = (8 + length payload)%nat).
  { cbn [length app]. rewrite length_app. cbn [length]. lia. }
  repeat split; try reflexivity.
  - exact L.
  - cbn [app skipn]. rewrite firstn_app, Nat.sub_diag, firstn_all. cbn [firstn].
    apply app_nil_r.
  - rewrite L. replace (8 + length payload - 1)%nat with (7 + length payload)%nat by lia.
    cbn [app Nat.add nth]. rewrite app_nth2, Nat.sub_diag by lia. reflexivity.
Qed.

(** X6. Every frame a builder makes is valid by the table of command
    lengths: it is framed by F0, the prefix and F7, and its length is the
    one expected for its command id, whatever the capability bytes or
    speed ids put in the payload. *)
Theorem builders_valid_exact (config : SpeedConfig)
    (testSpeed targetSpeed speed : SpeedMultiplier) :
  Forall spec_valid_exact
    [buildSpeedReq; buildSpeedAnswer config;
     buildSpeedNeg testSpeed targetSpeed; buildSpeedAck; buildSpeedTest;
     buildSpeedResult; buildSpeedTest2; buildSpeedResult2;
     buildSpeedPush speed].
Proof.
  repeat constructor.
Qed.

(** ** Frames received by the slave side *)

Lemma dataByte_below (b : Z) : 0 <= b < 0xF0 -> dataByte b = true.
Proof.
  intros Hb. unfold dataByte, SYSEX_START, SYSEX_END, ACTIVE_SENSING.
  destruct (Z.eqb_spec b 240), (Z.eqb_spec b 247), (Z.eqb_spec b 254);
    (reflexivity || lia).
Qed.

Section Handlers.

Context {P : Type} `{IPlatform P}.

Implicit Types t : TurboMIDI P.

(** The engine once a frame is stored and the time stamped, before the
    frame is validated. *)
Lemma processIncomingBytes_buildCommand (cmd : CommandID) (payload : list Z) t :
  dataByte cmd = true -> forallb dataByte payload = true ->
  processIncomingBytes (buildCommand cmd payload) t =
  processCompleteMessage
    (set_incomingBuffer (buildCommand cmd payload)
       (set_lastMessageTime (getMillis (platform_ t)) t)).
Proof.
  intros Hc Hp. rewrite buildCommand_cons.
  rewrite app_assoc. apply processIncomingBytes_frame.
  rewrite forallb_app. cbn [forallb]. rewrite Hc, Hp. reflexivity.
Qed.

Lemma speedPush_received (s : SpeedMultiplier) t :
  dataByte s = true ->
  processIncomingBytes (buildSpeedPush s) t =
  let t' := set_incomingBuffer (buildSpeedPush s)
              (set_lastMessageTime (getMillis (platform_ t)) t) in
  if hasSpeed (localConfig_ t) s then setSpeed s t' else t'.
Proof.
  intros Hs. unfold buildSpeedPush.
  rewrite processIncomingBytes_buildCommand
    by (try reflexivity; cbn [forallb]; now rewrite Hs).
  destruct t. reflexivity.
Qed.

End Handlers.

(** X7. A pushed speed reaches the slave. When a master (role not SLAVE)
    pushes a speed that the receiver has in its capabilities, the bytes the
    master sends are the SpeedPush frame of that speed, and an engine of
    any role that receives them commits to the same speed: both ends are
    at the pushed speed and at the baud rate of that speed. *)
Theorem pushSpeed_end_to_end (master slave : TurboMIDI MockPlatform)
    (speed : SpeedMultiplier) :
  role_ master <> SLAVE ->
  hasSpeed (localConfig_ slave) speed = true ->
  let master' := pushSpeed speed master in
  let slave' := processIncomingBytes (buildSpeedPush speed) slave in
  txBuffer (platform_ master') = txBuffer (platform_ master) ++ buildSpeedPush speed /\
  currentSpeed_ master' = speed /\
  currentSpeed_ slave' = speed /\
  currentBaudRate (platform_ master') = getBaudRate speed /\
  currentBaudRate (platform_ slave') = getBaudRate speed.
Proof.
  intros Hrole Hhas master' slave'.
  assert (Hr : DeviceRole_eqb (role_ master) SLAVE = false)
    by (destruct (role_ master); congruence || reflexivity).
  assert (Hm : master' = setSpeed speed (sendCommand (buildSpeedPush speed) master))
    by (subst master'; unfold pushSpeed; now rewrite Hr).
  assert (Hs : slave' =
               setSpeed speed
                 (set_incomingBuffer (buildSpeedPush speed)
                    (set_lastMessageTime (getMillis (platform_ slave)) slave))).
  { subst slave'. rewrite speedPush_received.
    - cbv zeta. now rewrite Hhas.
    - apply dataByte_below. pose proof (hasSpeed_range _ _ Hhas). lia. }
  rewrite Hm, Hs. clear.
  destruct master as [[] ? ? ? ? ? ? ? ? ? [] ? ?],
           slave as [[] ? ? ? ? ? ? ? ? ? [] ? ?]; repeat split.
Qed.

Lemma pushSpeed_end_to_end_witness :
  currentSpeed_ (processIncomingBytes (buildSpeedPush SPEED_8X) testSlave)
  = SPEED_8X /\
  currentBaudRate
    (platform_ (processIncomingBytes (buildSpeedPush SPEED_8X) testSlave))
  = getBaudRate SPEED_8X.
Proof.
  destruct (pushSpeed_end_to_end (fresh MASTER) testSlave SPEED_8X
              ltac:(simpl; discriminate) eq_refl) as (_ & _ & A & _ & B).
  split; assumption.
Defined.

(** X8. A pushed speed the receiver does not support is ignored. For every
    speed id that is a data byte and is not in the local capabilities, the
    SpeedPush frame is stored and the time stamped, and nothing else
    changes: the speed, the platform (bytes sent, baud rate), the test
    state and the callbacks are as before. *)
Theorem speedPush_unsupported_ignored
    {P : Type} `{IPlatform P} (t : TurboMIDI P) (speed : SpeedMultiplier) :
  dataByte speed = true ->
  hasSpeed (localConfig_ t) speed = false ->
  processIncomingBytes (buildSpeedPush speed) t =
  set_incomingBuffer (buildSpeedPush speed)
    (set_lastMessageTime (getMillis (platform_ t)) t).
Proof.
  intros Hd Hhas. rewrite speedPush_received by assumption.
  cbv zeta. now rewrite Hhas.
Qed.

Lemma speedPush_unsupported_ignored_witness :
  processIncomingBytes (buildSpeedPush SPEED_20X) testSlave =
  set_incomingBuffer (buildSpeedPush SPEED_20X)
    (set_lastMessageTime (getMillis (platform_ testSlave)) testSlave).
Proof.
  apply (speedPush_unsupported_ignored testSlave SPEED_20X); reflexivity.
Defined.

(** X9. A master reacts to SpeedPush only. On an engine whose role is
    MASTER, a complete buffer whose command id is not SpeedPush, so any
    SpeedRequest, SpeedNegotiate, SpeedTest or SpeedTest2 frame, has no
    effect at all: no answer is sent and nothing changes. *)
Theorem master_ignores_slave_commands
    {P : Type} `{IPlatform P} (t : TurboMIDI P) :
  role_ t = MASTER ->
  nth 6 (incomingBuffer_ t) 0 <> SPEED_PUSH ->
  processCompleteMessage t = t.
Proof.
  intros Hrole Hcmd. unfold processCompleteMessage. rewrite Hrole.
  apply Z.eqb_neq in Hcmd. rewrite Hcmd. cbn [DeviceRole_eqb negb andb].
  repeat match goal with
         | |- context [if ?c then _ else _] => destruct c
         end; reflexivity.
Qed.

Lemma master_ignores_slave_commands_witness :
  processCompleteMessage (set_incomingBuffer buildSpeedReq (fresh MASTER))
  = set_incomingBuffer buildSpeedReq (fresh MASTER).
Proof.
  apply (master_ignores_slave_commands
           (set_incomingBuffer buildSpeedReq (fresh MASTER))).
  - reflexivity.
  - simpl. discriminate.
Defined.

(** X10. Test frames out of turn are ignored. A SpeedTest frame has an
    effect only in the state WAITING_FOR_TEST and a SpeedTest2 frame only
    in the state WAITING_FOR_TEST2: in any other test state the engine is
    unchanged, so a test cannot be replayed or started without a
    negotiation. *)
Theorem test_frames_out_of_turn
    {P : Type} `{IPlatform P} (t : TurboMIDI P) :
  (nth 6 (incomingBuffer_ t) 0 = SPEED_TEST /\ testState_ t <> WAITING_FOR_TEST) \/
  (nth 6 (incomingBuffer_ t) 0 = SPEED_TEST2 /\ testState_ t <> WAITING_FOR_TEST2) ->
  processCompleteMessage t = t.
Proof.
  intros [[Hcmd Hst] | [Hcmd Hst]]; unfold processCompleteMessage; rewrite Hcmd.
  - change (SPEED_TEST =? SPEED_REQ) with false.
    change (SPEED_TEST =? SPEED_NEG) with false.
    change (SPEED_TEST =? SPEED_TEST) with true.
    destruct (testState_ t); try congruence;
      cbn [andb negb]; rewrite ?andb_false_r; cbn [andb];
      repeat match goal with
             | |- context [if ?c then _ else _] => destruct c
             end; reflexivity.
  - change (SPEED_TEST2 =? SPEED_REQ) with false.
    change (SPEED_TEST2 =? SPEED_NEG) with false.
    change (SPEED_TEST2 =? SPEED_TEST) with false.
    change (SPEED_TEST2 =? SPEED_TEST2) with true.
    destruct (testState_ t); try congruence;
      cbn [andb negb]; rewrite ?andb_false_r; cbn [andb];
      repeat match goal with
             | |- context [if ?c then _ else _] => destruct c
             end; reflexivity.
Qed.

Lemma test_frames_out_of_turn_witness :
  processCompleteMessage (set_incomingBuffer buildSpeedTest testSlave)
  = set_incomingBuffer buildSpeedTest testSlave.
Proof.
  apply (test_frames_out_of_turn (set_incomingBuffer buildSpeedTest testSlave)).
  left. split; [reflexivity | simpl; discriminate].
Defined.

Lemma speedNeg_received {P : Type} `{IPlatform P}
    (testSpeed targetSpeed : SpeedMultiplier) (t : TurboMIDI P) :
  role_ t <> MASTER ->
  dataByte testSpeed = true -> dataByte targetSpeed = true ->
  processIncomingBytes (buildSpeedNeg testSpeed targetSpeed) t =
  let t' := set_incomingBuffer (buildSpeedNeg testSpeed targetSpeed)
              (set_lastMessageTime (getMillis (platform_ t)) t) in
  if hasSpeed (localConfig_ t) targetSpeed then
    let t'' := sendCommand buildSpeedAck t' in
    if (targetSpeed =? SPEED_1X)
       || (isCertified (localConfig_ t) targetSpeed && (testSpeed =? targetSpeed))
    then setSpeed targetSpeed t''
    else set_testState WAITING_FOR_TEST
           (set_pendingTargetSpeed targetSpeed
              (set_pendingTestSpeed testSpeed t''))
  else t'.
Proof.
  intros Hrole Ht Hg. unfold buildSpeedNeg.
  rewrite processIncomingBytes_buildCommand
    by (try reflexivity; cbn [forallb]; now rewrite Ht, Hg).
  assert (Hr : DeviceRole_eqb (role_ t) MASTER = false)
    by (destruct (role_ t); congruence || reflexivity).
  destruct t. simpl in Hr.
  unfold processCompleteMessage. simpl.
  rewrite Hr. reflexivity.
Qed.

(** X11. SpeedNegotiate on the slave side, for every pair of speed ids that
    are data bytes, on an engine whose role is not MASTER. If the target is
    not in the local capabilities the frame is ignored: nothing is sent,
    nothing changes but the stored frame and the time. If the target is
    certified locally and the test speed is the target, SpeedAck is sent
    and the engine commits to the target at once. In every other case of a
    supported target, SpeedAck is sent, the speed is unchanged, the two
    speeds are kept as pending and the engine waits for the test. *)
Theorem speedNeg_cases (t : TurboMIDI MockPlatform)
    (testSpeed targetSpeed : SpeedMultiplier) :
  role_ t <> MASTER ->
  dataByte testSpeed = true -> dataByte targetSpeed = true ->
  let t1 := processIncomingBytes (buildSpeedNeg testSpeed targetSpeed) t in
  (hasSpeed (localConfig_ t) targetSpeed = false ->
     t1 = set_incomingBuffer (buildSpeedNeg testSpeed targetSpeed)
            (set_lastMessageTime (currentTime (platform_ t)) t)) /\
  (hasSpeed (localConfig_ t) targetSpeed = true ->
     isCertified (localConfig_ t) targetSpeed = true -> testSpeed = targetSpeed ->
     txBuffer (platform_ t1) = txBuffer (platform_ t) ++ buildSpeedAck /\
     currentSpeed_ t1 = targetSpeed /\
     currentBaudRate (platform_ t1) = getBaudRate targetSpeed /\
     testState_ t1 = testState_ t) /\
  (hasSpeed (localConfig_ t) targetSpeed = true ->
     isCertified (localConfig_ t) targetSpeed = false \/ testSpeed <> targetSpeed ->
     txBuffer (platform_ t1) = txBuffer (platform_ t) ++ buildSpeedAck /\
     currentSpeed_ t1 = currentSpeed_ t /\
     currentBaudRate (platform_ t1) = currentBaudRate (platform_ t) /\
     testState_ t1 = WAITING_FOR_TEST /\
     pendingTestSpeed_ t1 = testSpeed /\
     pendingTargetSpeed_ t1 = targetSpeed).
Proof.
  intros Hrole Ht Hg t1. subst t1.
  rewrite speedNeg_received by assumption. cbv zeta.
  split; [|split].
  - intros Hhas. now rewrite Hhas.
  - intros Hhas Hcert ->. rewrite Hhas, Hcert, Z.eqb_refl, orb_true_r.
    destruct t as [[] ? ? ? ? ? ? ? ? ? [] ? ?]; repeat split.
  - intros Hhas Hno. rewrite Hhas.
    assert (N1 : (targetSpeed =? SPEED_1X) = false).
    { apply Z.eqb_neq. pose proof (hasSpeed_range _ _ Hhas).
      unfold SPEED_1X. lia. }
    assert (N2 : isCertified (localConfig_ t) targetSpeed
                 && (testSpeed =? targetSpeed) = false).
    { destruct Hno as [E | N]; [now rewrite E|].
      apply Z.eqb_neq in N. rewrite N. apply andb_false_r. }
    rewrite N1, N2.
    destruct t as [[] ? ? ? ? ? ? ? ? ? ? ? ?]; repeat split.
Qed.

Lemma speedNeg_cases_witness :
  let t1 := processIncomingBytes (buildSpeedNeg SPEED_8X SPEED_8X) testSlave in
  currentSpeed_ t1 = SPEED_8X /\ testState_ t1 = testState_ testSlave.
Proof.
  destruct (speedNeg_cases testSlave SPEED_8X SPEED_8X
              ltac:(simpl; discriminate) eq_refl eq_refl) as (_ & C & _).
  destruct (C eq_refl eq_refl eq_refl) as (_ & A & _ & B).
  split; assumption.
Defined.

Lemma testPattern_payload (p : list Z) :
  length p = 8%nat ->
  testPattern (buildCommand SPEED_TEST p) = true ->
  p = [0x55; 0x55; 0x55; 0x55; 0x00; 0x00; 0x00; 0x00].
Proof.
  intros Hlen Hp.
  do 8 (destruct p as [|? p]; [discriminate|]).
  destruct p; [|discriminate].
  unfold testPattern, buildCommand, ELEKTRON_ID in Hp. cbn [app nth] in Hp.
  repeat match type of Hp with
         | (_ && _) = true => apply andb_prop in Hp as [Hp ?E]
         end.
  repeat match goal with
         | E : (_ =? _) = true |- _ => apply Z.eqb_eq in E
         end.
  subst. reflexivity.
Qed.

(** X12. A SpeedTest frame with a wrong pattern ends the test. On an
    engine whose role is not MASTER and that waits for the test, a
    SpeedTest frame whose eight payload bytes (data bytes) are not
    55 55 55 55 00 00 00 00 makes the engine commit to 1x and return to
    idle; no SpeedResult is sent. *)
Theorem speedTest_bad_pattern {P : Type} `{IPlatform P} (t : TurboMIDI P)
    (payload : list Z) :
  role_ t <> MASTER ->
  testState_ t = WAITING_FOR_TEST ->
  length payload = 8%nat ->
  forallb dataByte payload = true ->
  payload <> [0x55; 0x55; 0x55; 0x55; 0x00; 0x00; 0x00; 0x00] ->
  processIncomingBytes (buildCommand SPEED_TEST payload) t =
  set_testState IDLE
    (setSpeed SPEED_1X
       (set_incomingBuffer (buildCommand SPEED_TEST payload)
          (set_lastMessageTime (getMillis (platform_ t)) t))).
Proof.
  intros Hrole Hst Hlen Hd Hbad.
  rewrite processIncomingBytes_buildCommand by (assumption || reflexivity).
  assert (Hr : DeviceRole_eqb (role_ t) MASTER = false)
    by (destruct (role_ t); congruence || reflexivity).
  assert (Hp : testPattern (buildCommand SPEED_TEST payload) = false).
  { destruct (testPattern (buildCommand SPEED_TEST payload)) eqn:E; [|reflexivity].
    contradiction Hbad. now apply testPattern_payload. }
  assert (Hl : length (buildCommand SPEED_TEST payload) = 16%nat)
    by (rewrite buildCommand_cons; cbn [length app]; rewrite length_app;
        cbn [length]; lia).
  assert (Hv : validManufacturer (buildCommand SPEED_TEST payload) = true)
    by reflexivity.
  assert (H0 : nth 0 (buildCommand SPEED_TEST payload) 0 = SYSEX_START)
    by reflexivity.
  assert (H6 : nth 6 (buildCommand SPEED_TEST payload) 0 = SPEED_TEST)
    by reflexivity.
  assert (H15 : nth 15 (buildCommand SPEED_TEST payload) 0 = SYSEX_END).
  { do 8 (destruct payload as [|? payload]; [discriminate|]).
    destruct payload; [reflexivity | discriminate]. }
  unfold processCompleteMessage.
  destruct t. simpl in Hr, Hst. subst.
  cbn -[buildCommand nth validManufacturer testPattern setSpeed Nat.sub].
  rewrite Hl, H0, H6, Hv, Hp, Hr. cbn [Nat.sub]. rewrite H15. reflexivity.
Qed.

Lemma speedTest_bad_pattern_witness :
  let t1 := processIncomingBytes (buildSpeedNeg SPEED_8X SPEED_4X) testSlave in
  let bad := [0x55; 0x55; 0x55; 0x55; 0x00; 0x00; 0x00; 0x01] in
  processIncomingBytes (buildCommand SPEED_TEST bad) t1 =
  set_testState IDLE
    (setSpeed SPEED_1X
       (set_incomingBuffer (buildCommand SPEED_TEST bad)
          (set_lastMessageTime (getMillis (platform_ t1)) t1))).
Proof.
  intros t1 bad.
  apply (speedTest_bad_pattern t1 bad).
  - vm_compute. discriminate.
  - reflexivity.
  - reflexivity.
  - reflexivity.
  - discriminate.
Defined.

(** ** Active sensing *)

(** X13. The keep-alive rule of the watchdog, on the mock platform, for an
    engine that is not at 1x. While the link is alive (at most 300 ms since
    the last byte received): if more than 250 ms have passed since the last
    active sensing was sent, the single byte 0xFE is sent and the time of
    sending recorded, the speed being unchanged; otherwise the watchdog does
    nothing. When the link is lost (more than 300 ms) the engine commits to
    1x and sends nothing, even if an active sensing was due. *)
Theorem keepalive_rule (t : TurboMIDI MockPlatform) :
  currentSpeed_ t <> SPEED_1X ->
  let now := currentTime (platform_ t) in
  let rx_gap := u32 (now - lastMessageTime_ t) in
  let tx_gap := u32 (now - lastActiveSenseTime_ t) in
  (rx_gap <= 300 -> tx_gap > 250 ->
     txBuffer (platform_ (checkTimeouts t)) = txBuffer (platform_ t) ++ [ACTIVE_SENSING] /\
     lastActiveSenseTime_ (checkTimeouts t) = now /\
     currentSpeed_ (checkTimeouts t) = currentSpeed_ t /\
     currentBaudRate (platform_ (checkTimeouts t)) = currentBaudRate (platform_ t)) /\
  (rx_gap <= 300 -> tx_gap <= 250 -> checkTimeouts t = t) /\
  (rx_gap > 300 ->
     txBuffer (platform_ (checkTimeouts t)) = txBuffer (platform_ t) /\
     lastActiveSenseTime_ (checkTimeouts t) = lastActiveSenseTime_ t).
Proof.
  intros Hs now rx_gap tx_gap.
  apply Z.eqb_neq in Hs.
  assert (Alive : rx_gap <= 300 -> (rx_gap >? 300) = false)
    by (intros L; rewrite Z.gtb_ltb; now apply Z.ltb_ge).
  split; [|split].
  - intros Hrx Htx. apply Alive in Hrx. apply Z.gtb_gt in Htx.
    unfold checkTimeouts, sendActiveSense.
    change (getMillis (platform_ t)) with now.
    fold rx_gap. rewrite Hs, Hrx. cbn [negb andb]. fold tx_gap. rewrite Hs, Htx.
    cbn [negb andb]. subst now rx_gap tx_gap.
    destruct t as [[] ? ? ? ? ? ? ? ? ? ? ? ?]. repeat split.
  - intros Hrx Htx. apply Alive in Hrx.
    assert (E : (tx_gap >? 250) = false)
      by (rewrite Z.gtb_ltb; now apply Z.ltb_ge).
    unfold checkTimeouts. change (getMillis (platform_ t)) with now.
    fold rx_gap. rewrite Hs, Hrx. cbn [negb andb]. fold tx_gap.
    rewrite Hs, E. reflexivity.
  - intros Hrx. apply Z.gtb_gt in Hrx.
    unfold checkTimeouts. change (getMillis (platform_ t)) with now.
    fold rx_gap. rewrite Hs, Hrx. cbn [negb andb].
    unfold setSpeed. destruct t as [[] ? ? ? ? ? ? ? ? ? [] ? ?]; split; reflexivity.
Qed.

Lemma keepalive_rule_witness :
  txBuffer (platform_ (checkTimeouts (advance 260 slaveAt4X)))
  = txBuffer (platform_ (advance 260 slaveAt4X)) ++ [ACTIVE_SENSING] /\
  lastActiveSenseTime_ (checkTimeouts (advance 260 slaveAt4X)) = 260.
Proof.
  destruct (keepalive_rule (advance 260 slaveAt4X)
              ltac:(vm_compute; discriminate)) as (K & _ & _).
  destruct K as (A & B & _).
  - vm_compute. discriminate.
  - vm_compute. reflexivity.
  - split; [exact A | exact B].
Defined.

(** ** More on the reassembler *)

Section Reassembly.

Context {P : Type} `{IPlatform P}.

Implicit Types t : TurboMIDI P.

(** X14. F0 resynchronises the reassembler. Whatever bytes came before,
    complete frames, garbage or a frame cut short, once a stream that
    starts with F0 and holds no further F0 has been received the buffer is
    exactly that stream. *)
Theorem start_byte_resynchronises (before rest : list Z) t :
  forallb (fun b => negb (b =? SYSEX_START)) rest = true ->
  incomingBuffer_ (processIncomingBytes (before ++ SYSEX_START :: rest) t)
  = SYSEX_START :: rest.
Proof.
  intros Hrest. rewrite processIncomingBytes_app.
  now apply processIncomingBytes_whole_frame.
Qed.

Lemma setSpeed_lastMessageTime (s : SpeedMultiplier) t :
  lastMessageTime_ (setSpeed s t) = lastMessageTime_ t.
Proof. unfold setSpeed. simpl. destruct (onSpeedChanged t); reflexivity. Qed.

Lemma processCompleteMessage_lastMessageTime t :
  lastMessageTime_ (processCompleteMessage t) = lastMessageTime_ t.
Proof.
  unfold processCompleteMessage.
  repeat match goal with
         | |- context [if ?c then _ else _] => destruct c
         | |- context [match testState_ t with _ => _ end] => destruct (testState_ t)
         end;
    simpl; rewrite ?setSpeed_lastMessageTime; reflexivity.
Qed.

End Reassembly.

Lemma start_byte_resynchronises_witness :
  incomingBuffer_
    (processIncomingBytes ([0xF0; 0x00; 0x20] ++ SYSEX_START :: [0x01; 0xF7])
       (fresh SLAVE))
  = SYSEX_START :: [0x01; 0xF7].
Proof.
  apply (start_byte_resynchronises [0xF0; 0x00; 0x20] [0x01; 0xF7] (fresh SLAVE)).
  reflexivity.
Defined.

Lemma processIncomingByte_stamps (b : Z) (t : TurboMIDI MockPlatform) :
  lastMessageTime_ (processIncomingByte b t) = currentTime (platform_ t).
Proof.
  unfold processIncomingByte.
  set (t1 := set_incomingBuffer _ _).
  assert (E1 : lastMessageTime_ t1 = currentTime (platform_ t))
    by (subst t1; destruct (b =? SYSEX_START); reflexivity).
  assert (C1 : currentTime (platform_ t1) = currentTime (platform_ t))
    by (subst t1; destruct (b =? SYSEX_START); reflexivity).
  clearbody t1.
  destruct (b =? ACTIVE_SENSING).
  - cbn [lastMessageTime_ set_lastMessageTime].
    change (getMillis ?p) with (currentTime p).
    destruct (b =? SYSEX_END); [|exact C1].
    rewrite (proj1 (processCompleteMessage_quiet t1)). exact C1.
  - destruct (b =? SYSEX_END); [|exact E1].
    now rewrite processCompleteMessage_lastMessageTime.
Qed.

Lemma processIncomingBytes_stamps (bs : list Z) (t : TurboMIDI MockPlatform) :
  bs <> [] ->
  lastMessageTime_ (processIncomingBytes bs t) = currentTime (platform_ t).
Proof.
  revert t. induction bs as [|b bs IH]; intros t Hne; [congruence|].
  rewrite processIncomingBytes_cons.
  destruct bs as [|b' bs'].
  - apply processIncomingByte_stamps.
  - rewrite IH by discriminate. apply (proj1 (processIncomingByte_quiet b t)).
Qed.

(** X15. Any traffic keeps the link alive. On the mock platform, a tick
    that reads at least one byte, of any kind, leaves the time of the last
    reception at the current time, and the watchdog of that tick does not
    revert: the speed after the tick is the speed the received bytes left,
    however long the link had been silent before. *)
Theorem traffic_keeps_link_alive (t : TurboMIDI MockPlatform) :
  rxBuffer (platform_ t) <> [] ->
  let received :=
    processIncomingBytes (firstn 256 (rxBuffer (platform_ t)))
      (set_platform (snd (Mock_receiveMidiData 256 (platform_ t))) t) in
  lastMessageTime_ (handleIncomingData t) = currentTime (platform_ t) /\
  currentSpeed_ (handleIncomingData t) = currentSpeed_ received.
Proof.
  intros Hrx received.
  assert (E : handleIncomingData t = checkTimeouts received) by reflexivity.
  assert (Hne : firstn 256 (rxBuffer (platform_ t)) <> [])
    by (destruct (rxBuffer (platform_ t)); [congruence | discriminate]).
  assert (S : lastMessageTime_ received = currentTime (platform_ t)).
  { subst received. rewrite processIncomingBytes_stamps by exact Hne.
    destruct t as [[] ? ? ? ? ? ? ? ? ? ? ? ?]; reflexivity. }
  assert (C : currentTime (platform_ received) = currentTime (platform_ t)).
  { subst received.
    rewrite (proj1 (processIncomingBytes_quiet _ _)).
    destruct t as [[] ? ? ? ? ? ? ? ? ? ? ? ?]; reflexivity. }
  rewrite E. split.
  - unfold checkTimeouts, sendActiveSense, setSpeed.
    repeat match goal with
           | |- context [if ?c then _ else _] => destruct c
           end; cbn; exact S.
  - apply checkTimeouts_alive.
    change (getMillis (platform_ received)) with (currentTime (platform_ received)).
    rewrite C, S, Z.sub_diag. vm_compute. discriminate.
Qed.

Lemma traffic_keeps_link_alive_witness :
  let t := set_platform (injectMessage [0x00] (platform_ (advance 1000 slaveAt4X)))
             (advance 1000 slaveAt4X) in
  lastMessageTime_ (handleIncomingData t) = 1000 /\
  currentSpeed_ (handleIncomingData t) = SPEED_4X.
Proof.
  intros t.
  destruct (traffic_keeps_link_alive t ltac:(vm_compute; discriminate)) as [A B].
  split; [exact A | exact B].
Defined.

(** ** The parsers of the master side *)

Lemma getParsedMessages_from_no_end (bytes cur : list Z) (msgs : list (list Z)) :
  forallb (fun b => negb (b =? SYSEX_END)) bytes = true ->
  getParsedMessages_from bytes cur msgs = msgs.
Proof.
  revert cur. induction bytes as [|b bytes IH]; intros cur Hb; [reflexivity|].
  cbn [forallb] in Hb. apply andb_prop in Hb as [Hb Hbs].
  apply negb_true_iff in Hb. cbn [getParsedMessages_from].
  rewrite Hb. cbn [andb]. now apply IH.
Qed.

Section Parsers.

Context {P : Type} `{IPlatform P}.

Implicit Types t : TurboMIDI P.

(** X16. A frame that is not complete is never taken for a reply. While the
    buffer holds no F7, [getParsedMessages] finds no message, and the four
    parsers of the master find nothing: no SpeedAnswer, no SpeedAck, no
    SpeedResult, no SpeedResult2, whatever the bytes received so far. *)
Theorem incomplete_frame_not_parsed t :
  forallb (fun b => negb (b =? SYSEX_END)) (incomingBuffer_ t) = true ->
  getParsedMessages t = [] /\
  parseSpeedAnswer t = None /\
  parseAck t = false /\
  parseSpeedResult t = false /\
  parseSpeedResult2 t = false.
Proof.
  intros Hb.
  assert (E : getParsedMessages t = [])
    by (unfold getParsedMessages; now apply getParsedMessages_from_no_end).
  unfold parseSpeedAnswer, parseAck, parseSpeedResult, parseSpeedResult2.
  rewrite E. repeat split.
Qed.

Lemma getParsedMessages_buffer t (buf : list Z) :
  incomingBuffer_ t = buf ->
  getParsedMessages t = getParsedMessages_from buf [] [].
Proof. intros <-. reflexivity. Qed.

(** X17. The replies of a slave are recognised by the master, each by its
    own parser only. Whatever the engine held before, once the frame
    SpeedAck, SpeedResult or SpeedResult2 that [CommandBuilder] makes has
    been received, [parseAck], [parseSpeedResult] or [parseSpeedResult2]
    returns true for it; and a SpeedAck is no SpeedResult2, a SpeedResult2
    no SpeedAck, and the master's own SpeedTest frame, though it carries the
    same pattern, is no SpeedResult. *)
Theorem replies_recognised t :
  parseAck (processIncomingBytes buildSpeedAck t) = true /\
  parseSpeedResult (processIncomingBytes buildSpeedResult t) = true /\
  parseSpeedResult2 (processIncomingBytes buildSpeedResult2 t) = true /\
  parseSpeedResult2 (processIncomingBytes buildSpeedAck t) = false /\
  parseAck (processIncomingBytes buildSpeedResult2 t) = false /\
  parseSpeedResult (processIncomingBytes buildSpeedTest t) = false.
Proof.
  assert (B : forall rest,
             forallb (fun b => negb (b =? SYSEX_START)) rest = true ->
             getParsedMessages (processIncomingBytes (SYSEX_START :: rest) t)
             = getParsedMessages_from (SYSEX_START :: rest) [] []).
  { intros rest Hr. apply getParsedMessages_buffer.
    now apply processIncomingBytes_whole_frame. }
  unfold parseAck, parseSpeedResult, parseSpeedResult2.
  change buildSpeedAck with (SYSEX_START :: [0; 32; 60; 0; 0; 19; 247]).
  change buildSpeedResult2 with (SYSEX_START :: [0; 32; 60; 0; 0; 23; 247]).
  change buildSpeedResult
    with (SYSEX_START :: [0; 32; 60; 0; 0; 21; 85; 85; 85; 85; 0; 0; 0; 0; 247]).
  change buildSpeedTest
    with (SYSEX_START :: [0; 32; 60; 0; 0; 20; 85; 85; 85; 85; 0; 0; 0; 0; 247]).
  rewrite !B by reflexivity.
  repeat split.
Qed.

End Parsers.

Lemma incomplete_frame_not_parsed_witness :
  parseAck (processIncomingBytes [0xF0; 0x00; 0x20; 0x3C; 0x00; 0x00; 0x13]
              (fresh MASTER)) = false.
Proof.
  apply (incomplete_frame_not_parsed
           (processIncomingBytes [0xF0; 0x00; 0x20; 0x3C; 0x00; 0x00; 0x13]
              (fresh MASTER))).
  reflexivity.
Defined.

(** ** The speed table *)

(** X18. The baud rate table. Every speed id, known or not, maps to a baud
    rate between 31250 and 625000; an id that is none of 1 to 11 maps to
    the floor 31250, as 1x does; and on the ids 1 to 11 the baud rate
    grows strictly with the id. *)
Theorem getBaudRate_table (s s' : SpeedMultiplier) :
  31250 <= getBaudRate s <= 625000 /\
  (~ (1 <= s <= 11) -> getBaudRate s = 31250) /\
  (1 <= s -> s < s' -> s' <= 11 -> getBaudRate s < getBaudRate s').
Proof.
  assert (T : forall x, x = 1 \/ x = 2 \/ x = 3 \/ x = 4 \/ x = 5 \/ x = 6 \/
                        x = 7 \/ x = 8 \/ x = 9 \/ x = 10 \/ x = 11 \/
                        (~ (1 <= x <= 11) /\ getBaudRate x = 31250)).
  { intros x.
    assert (D : x = 1 \/ x = 2 \/ x = 3 \/ x = 4 \/ x = 5 \/ x = 6 \/ x = 7 \/
                x = 8 \/ x = 9 \/ x = 10 \/ x = 11 \/ ~ (1 <= x <= 11)) by lia.
    repeat (destruct D as [D | D]; [tauto|]).
    do 11 right. split; [exact D|]. unfold getBaudRate.
    repeat match goal with
           | |- context [if x =? ?k then _ else _] =>
               destruct (Z.eqb_spec x k) as [E|_];
               [unfold SPEED_1X, SPEED_2X, SPEED_3_3X, SPEED_4X, SPEED_5X,
                  SPEED_6_6X, SPEED_8X, SPEED_10X, SPEED_13_3X, SPEED_16X,
                  SPEED_20X in E; lia|]
           end.
    reflexivity. }
  split; [|split].
  - destruct (T s) as [E|[E|[E|[E|[E|[E|[E|[E|[E|[E|[E|[_ E]]]]]]]]]]]];
      rewrite E; cbv; split; discriminate.
  - intros Hs.
    destruct (T s) as [E|[E|[E|[E|[E|[E|[E|[E|[E|[E|[E|[_ E]]]]]]]]]]]];
      (exact E || lia).
  - intros L1 L2 L3.
    destruct (T s) as [E|[E|[E|[E|[E|[E|[E|[E|[E|[E|[E|[N _]]]]]]]]]]]];
      [..|lia]; subst s;
      (destruct (T s') as [E|[E|[E|[E|[E|[E|[E|[E|[E|[E|[E|[N _]]]]]]]]]]]];
       [..|lia]; subst s'; try lia; reflexivity).
Qed.

Lemma getBaudRate_table_witness :
  getBaudRate SPEED_3_3X < getBaudRate SPEED_4X /\ getBaudRate 0 = 31250.
Proof.
  split.
  - apply (proj2 (proj2 (getBaudRate_table SPEED_3_3X SPEED_4X))); unfold SPEED_3_3X, SPEED_4X; lia.
  - apply (proj1 (proj2 (getBaudRate_table 0 0))). lia.
Defined.

(** X19. The baud rate against the integer ratio. The baud rate of a speed
    is 31250 times the ratio [getActualMultiplier] gives for it, for every
    id, known or not, except the three fractional speeds 3.3x, 6.6x and
    13.3x, whose baud rate is that of the exact ratio and not of the
    rounded one. *)
Theorem getBaudRate_getActualMultiplier (s : SpeedMultiplier) :
  getBaudRate s = 31250 * getActualMultiplier s <->
  s <> SPEED_3_3X /\ s <> SPEED_6_6X /\ s <> SPEED_13_3X.
Proof.
  unfold getBaudRate, getActualMultiplier.
  repeat match goal with
         | |- context [if s =? ?k then _ else _] =>
             destruct (Z.eqb_spec s k) as [->|?]
         end;
    split; intros Hs;
    solve [ reflexivity | discriminate Hs
          | repeat split; (assumption || discriminate)
          | destruct Hs as (A & B & C); congruence ].
Qed.

(** ** The baud rate follows the speed *)

(** Closes [baud_synced] of an explicit record, from [baud_synced] of the
    record it was made of. *)
Ltac synced :=
  unfold baud_synced in *; cbn in *; first [reflexivity | assumption].

Lemma setSpeed_synced (s : SpeedMultiplier) (t : TurboMIDI MockPlatform) :
  baud_synced (setSpeed s t).
Proof. unfold setSpeed. destruct t as [[] ? ? ? ? ? ? ? ? ? [] ? ?]; reflexivity. Qed.

Lemma setSpeed_speed (s : SpeedMultiplier) (t : TurboMIDI MockPlatform) :
  currentSpeed_ (setSpeed s t) = s /\
  currentBaudRate (platform_ (setSpeed s t)) = getBaudRate s.
Proof. unfold setSpeed. destruct t as [[] ? ? ? ? ? ? ? ? ? [] ? ?]; split; reflexivity. Qed.

Lemma sendCommand_synced (cmd : list Z) (t : TurboMIDI MockPlatform) :
  baud_synced t -> baud_synced (sendCommand cmd t).
Proof. destruct t as [[] ? ? ? ? ? ? ? ? ? ? ? ?]. intros; synced. Qed.

Lemma delayMs_synced (ms : Z) (t : TurboMIDI MockPlatform) :
  baud_synced t -> baud_synced (set_platform (delayMs ms (platform_ t)) t).
Proof. destruct t as [[] ? ? ? ? ? ? ? ? ? ? ? ?]. intros; synced. Qed.

Lemma processCompleteMessage_synced (t : TurboMIDI MockPlatform) :
  baud_synced t -> baud_synced (processCompleteMessage t).
Proof.
  intros Hs. unfold processCompleteMessage, setSpeed.
  destruct t as [[] ? ? ? ? ? ? ts ? ? ch rq ?].
  unfold sendCommand, set_platform, set_currentSpeed, set_calls, set_testState,
    set_pendingTestSpeed, set_pendingTargetSpeed; simpl.
  repeat match goal with
         | |- context [if ?c then _ else _] => destruct c
         | |- context [match ts with _ => _ end] => destruct ts
         end; synced.
Qed.

Lemma checkTimeouts_synced (t : TurboMIDI MockPlatform) :
  baud_synced t -> baud_synced (checkTimeouts t).
Proof.
  intros Hs. unfold checkTimeouts, sendActiveSense, setSpeed.
  destruct t as [[] ? ? ? ? ? ? ? ? ? ch ? ?].
  unfold set_platform, set_currentSpeed, set_calls; simpl.
  repeat match goal with
         | |- context [if ?c then _ else _] => destruct c
         end; synced.
Qed.

Lemma processIncomingByte_synced (b : Z) (t : TurboMIDI MockPlatform) :
  baud_synced t -> baud_synced (processIncomingByte b t).
Proof.
  intros Hs. unfold processIncomingByte.
  set (t1 := set_incomingBuffer _ _).
  assert (S1 : baud_synced t1)
    by (subst t1; destruct t as [[] ? ? ? ? ? ? ? ? ? ? ? ?];
        destruct (b =? SYSEX_START); synced).
  clearbody t1.
  assert (S2 : baud_synced (if b =? SYSEX_END then processCompleteMessage t1 else t1))
    by (destruct (b =? SYSEX_END);
        [now apply processCompleteMessage_synced | exact S1]).
  set (t2 := if b =? SYSEX_END then _ else _) in *. clearbody t2.
  destruct (b =? ACTIVE_SENSING); [|exact S2].
  destruct t2 as [[] ? ? ? ? ? ? ? ? ? ? ? ?]; synced.
Qed.

Lemma processIncomingBytes_synced (bs : list Z) (t : TurboMIDI MockPlatform) :
  baud_synced t -> baud_synced (processIncomingBytes bs t).
Proof.
  revert t. induction bs as [|b bs IH]; intros t Hs; [exact Hs|].
  rewrite processIncomingBytes_cons. apply IH.
  now apply processIncomingByte_synced.
Qed.

Lemma handleIncomingData_synced (t : TurboMIDI MockPlatform) :
  baud_synced t -> baud_synced (handleIncomingData t).
Proof.
  intros Hs.
  change (handleIncomingData t)
    with (checkTimeouts
            (processIncomingBytes (firstn 256 (rxBuffer (platform_ t)))
               (set_platform (snd (Mock_receiveMidiData 256 (platform_ t))) t))).
  apply checkTimeouts_synced, processIncomingBytes_synced.
  destruct t as [[] ? ? ? ? ? ? ? ? ? ? ? ?]; synced.
Qed.

(** X20. The baud rate of the platform is the baud rate of the current
    speed, at all times. On the mock platform this holds of a freshly
    constructed engine of any role and is kept by every entry point that
    does not wait: a tick, with whatever bytes are pending, [pushSpeed],
    [sendActiveSense] and [setSupportedSpeed]. *)
Theorem baud_synced_invariant (t : TurboMIDI MockPlatform)
    (speed : SpeedMultiplier) (certified : bool) (role : DeviceRole) :
  baud_synced (fresh role) /\
  (baud_synced t ->
     baud_synced (handleIncomingData t) /\
     baud_synced (pushSpeed speed t) /\
     baud_synced (sendActiveSense t) /\
     baud_synced (setSupportedSpeed speed certified t)).
Proof.
  split; [reflexivity|]. intros Hs. repeat split.
  - now apply handleIncomingData_synced.
  - unfold pushSpeed. destruct (DeviceRole_eqb (role_ t) SLAVE);
      [exact Hs | apply setSpeed_synced].
  - unfold sendActiveSense. destruct (negb (currentSpeed_ t =? SPEED_1X));
      [|exact Hs]. destruct t as [[] ? ? ? ? ? ? ? ? ? ? ? ?]; synced.
  - destruct t as [[] ? ? ? ? ? ? ? ? ? ? ? ?]; synced.
Qed.

Lemma baud_synced_invariant_witness :
  baud_synced (handleIncomingData (inject (buildSpeedPush SPEED_4X) testSlave)).
Proof.
  apply (proj1 (proj2 (baud_synced_invariant
                         (inject (buildSpeedPush SPEED_4X) testSlave)
                         SPEED_1X false SLAVE) eq_refl)).
Defined.

(** ** The waits of the master *)

(** What a tick and a millisecond of delay both keep, a wait loop keeps. *)
Lemma waitFor_loop_keeps (Inv : TurboMIDI MockPlatform -> Prop)
    (parse : TurboMIDI MockPlatform -> bool) (start timeoutMs : Z) :
  (forall t, Inv t -> Inv (handleIncomingData t)) ->
  (forall t, Inv t -> Inv (set_platform (delayMs 1 (platform_ t)) t)) ->
  forall (fuel : nat) (t t' : TurboMIDI MockPlatform) (r : bool),
    waitFor_loop parse fuel start timeoutMs t = Some (r, t') ->
    Inv t -> Inv t'.
Proof.
  intros Htick Hdelay. induction fuel as [|fuel IH]; intros t t' r E Ht;
    [discriminate|].
  cbn [waitFor_loop] in E.
  destruct (u32 (getMillis (platform_ t) - start) <? timeoutMs).
  - destruct (parse (handleIncomingData t)).
    + injection E as _ <-. now apply Htick.
    + eapply IH; [exact E|]. now apply Hdelay, Htick.
  - now injection E as _ <-.
Qed.

Lemma waitForSpeedAnswer_loop_keeps (Inv : TurboMIDI MockPlatform -> Prop)
    (start timeoutMs : Z) :
  (forall t, Inv t -> Inv (handleIncomingData t)) ->
  (forall t, Inv t -> Inv (set_platform (delayMs 1 (platform_ t)) t)) ->
  forall (fuel : nat) (t t' : TurboMIDI MockPlatform) (r : option SpeedConfig),
    waitForSpeedAnswer_loop fuel start timeoutMs t = Some (r, t') ->
    Inv t -> Inv t'.
Proof.
  intros Htick Hdelay. induction fuel as [|fuel IH]; intros t t' r E Ht;
    [discriminate|].
  cbn [waitForSpeedAnswer_loop] in E.
  destruct (u32 (getMillis (platform_ t) - start) <? timeoutMs).
  - destruct (parseSpeedAnswer (handleIncomingData t)).
    + injection E as _ <-. now apply Htick.
    + eapply IH; [exact E|]. now apply Hdelay, Htick.
  - now injection E as _ <-.
Qed.

Lemma delayMs_tx_extends (ms : Z) (t : TurboMIDI MockPlatform) :
  tx_extends t (set_platform (delayMs ms (platform_ t)) t).
Proof.
  destruct t as [[] ? ? ? ? ? ? ? ? ? ? ? ?]. exists []. simpl.
  now rewrite app_nil_r.
Qed.

Lemma waitForSpeedAnswer_loop_terminates (start timeoutMs : Z) (fuel : nat) :
  forall t : TurboMIDI MockPlatform,
    timeoutMs < 2 ^ 32 ->
    (Z.to_nat (timeoutMs - u32 (currentTime (platform_ t) - start)) < fuel)%nat ->
    exists r t',
      waitForSpeedAnswer_loop fuel start timeoutMs t = Some (r, t').
Proof.
  induction fuel as [|fuel IH]; intros t Ht Hfuel; [lia|].
  cbn [waitForSpeedAnswer_loop].
  change (getMillis (platform_ t)) with (currentTime (platform_ t)).
  destruct (u32 (currentTime (platform_ t) - start) <? timeoutMs) eqn:Hd.
  - apply Z.ltb_lt in Hd.
    destruct (handleIncomingData_quiet t) as [C _].
    set (t1 := handleIncomingData t) in *. clearbody t1.
    destruct (parseSpeedAnswer t1); [eexists _, _; reflexivity|].
    apply IH; [exact Ht|].
    assert (T2 : currentTime (platform_ (set_platform (delayMs 1 (platform_ t1)) t1))
                 = u32 (currentTime (platform_ t) + 1))
      by (unfold same_clock in C; rewrite <- C;
          destruct t1 as [[] ? ? ? ? ? ? ? ? ? ? ? ?]; reflexivity).
    rewrite T2, (elapsed_after_delay _ _ timeoutMs) by assumption. lia.
  - eexists _, _; reflexivity.
Qed.

(** A wait changes what the platform sent only by appending. *)
Lemma waitForSpeedAnswer_tx_extends (fuel : nat) (timeoutMs : Z)
    (t t' : TurboMIDI MockPlatform) (r : option SpeedConfig) :
  waitForSpeedAnswer fuel timeoutMs t = Some (r, t') -> tx_extends t t'.
Proof.
  intros E.
  apply (waitForSpeedAnswer_loop_keeps (tx_extends t) _ _) in E.
  - exact E.
  - intros x Hx. eapply tx_extends_trans; [exact Hx | apply handleIncomingData_quiet].
  - intros x Hx. eapply tx_extends_trans; [exact Hx | apply delayMs_tx_extends].
  - apply tx_extends_refl.
Qed.

Lemma waitFor_synced (parse : TurboMIDI MockPlatform -> bool) (fuel : nat)
    (start timeoutMs : Z) (t t' : TurboMIDI MockPlatform) (r : bool) :
  waitFor_loop parse fuel start timeoutMs t = Some (r, t') ->
  baud_synced t -> baud_synced t'.
Proof.
  apply waitFor_loop_keeps.
  - apply handleIncomingData_synced.
  - apply delayMs_synced.
Qed.

Lemma performSpeedTest_result (fuel : nat)
    (testSpeed targetSpeed : SpeedMultiplier) (t : TurboMIDI MockPlatform) :
  (30 < fuel)%nat ->
  exists r t',
    performSpeedTest fuel testSpeed targetSpeed t = Some (r, t') /\
    tx_extends t t' /\
    (r = false ->
       currentSpeed_ t' = SPEED_1X /\ currentBaudRate (platform_ t') = 31250) /\
    (r = true ->
       currentSpeed_ t' = targetSpeed /\
       currentBaudRate (platform_ t') = getBaudRate targetSpeed).
Proof.
  intros Hfuel.
  destruct (performSpeedTest_terminates fuel testSpeed targetSpeed t Hfuel)
    as (r & t' & E & X).
  exists r, t'. split; [exact E|]. split; [exact X|].
  unfold performSpeedTest in E.
  destruct (waitForSpeedResult fuel 30 _) as [[[|] t2]|]; [| |discriminate].
  - destruct (waitForSpeedResult2 fuel 30 _) as [[[|] t4]|]; [| |discriminate];
      injection E as <- <-; split; intros R; try discriminate R;
      apply setSpeed_speed.
  - injection E as <- <-. split; intros R; try discriminate R.
    apply setSpeed_speed.
Qed.

(** X21. The live test of the master ends, and ends at a known speed. On
    the mock platform, with fuel above its 30 ms timeouts,
    [performSpeedTest] returns; what it sent is appended to what had been
    sent; if it returns false the engine is back at 1x and 31250 baud
    (both failing paths revert), and if it returns true the engine is at
    the target speed and its baud rate. *)
Theorem performSpeedTest_outcome (fuel : nat)
    (testSpeed targetSpeed : SpeedMultiplier) (t : TurboMIDI MockPlatform) :
  (30 < fuel)%nat ->
  exists r t',
    performSpeedTest fuel testSpeed targetSpeed t = Some (r, t') /\
    tx_extends t t' /\
    (r = false ->
       currentSpeed_ t' = SPEED_1X /\ currentBaudRate (platform_ t') = 31250) /\
    (r = true ->
       currentSpeed_ t' = targetSpeed /\
       currentBaudRate (platform_ t') = getBaudRate targetSpeed).
Proof.
  apply performSpeedTest_result.
Qed.

Lemma performSpeedTest_outcome_witness :
  exists r t',
    performSpeedTest 31 SPEED_5X SPEED_4X (fresh MASTER) = Some (r, t') /\
    tx_extends (fresh MASTER) t' /\
    (r = false ->
       currentSpeed_ t' = SPEED_1X /\ currentBaudRate (platform_ t') = 31250) /\
    (r = true ->
       currentSpeed_ t' = SPEED_4X /\
       currentBaudRate (platform_ t') = getBaudRate SPEED_4X).
Proof.
  apply (performSpeedTest_outcome 31 SPEED_5X SPEED_4X (fresh MASTER)). lia.
Defined.

(** X22. [negotiateSpeed] returns and keeps the engine consistent. On the
    mock platform, for every engine, target and 32-bit timeout, with fuel
    above the timeout and above the 30 ms of the test waits,
    [negotiateSpeed] returns; the bytes it sent are appended to those sent
    before; if the result is true the engine is at the target speed and at
    the baud rate of the target; and if the baud rate matched the speed
    before the call, it matches after it, whatever the result. *)
Theorem negotiateSpeed_outcome (fuel : nat) (targetSpeed : SpeedMultiplier)
    (timeoutMs : Z) (t : TurboMIDI MockPlatform) :
  timeoutMs < 2 ^ 32 ->
  (Z.to_nat timeoutMs < fuel)%nat ->
  (30 < fuel)%nat ->
  exists r t',
    negotiateSpeed fuel targetSpeed timeoutMs t = Some (r, t') /\
    tx_extends t t' /\
    (r = true ->
       currentSpeed_ t' = targetSpeed /\
       currentBaudRate (platform_ t') = getBaudRate targetSpeed) /\
    (baud_synced t -> baud_synced t').
Proof.
  intros Ht Hfuel Hfuel30. unfold negotiateSpeed.
  destruct (DeviceRole_eqb (role_ t) SLAVE).
  { exists false, t. repeat split; try discriminate; auto using tx_extends_refl. }
  set (t1 := sendCommand buildSpeedReq t).
  assert (X1 : tx_extends t t1) by apply sendCommand_quiet.
  assert (S1 : baud_synced t -> baud_synced t1) by apply sendCommand_synced.
  clearbody t1.
  destruct (waitForSpeedAnswer_loop_terminates (getMillis (platform_ t1))
              timeoutMs fuel t1 Ht) as (ra & t2 & Ea).
  { change (getMillis (platform_ t1)) with (currentTime (platform_ t1)).
    rewrite Z.sub_diag. change (u32 0) with 0. now rewrite Z.sub_0_r. }
  fold (waitForSpeedAnswer fuel timeoutMs t1) in Ea. rewrite Ea.
  assert (X2 : tx_extends t t2)
    by (eapply tx_extends_trans; [exact X1|];
        eapply waitForSpeedAnswer_tx_extends; exact Ea).
  assert (S2 : baud_synced t -> baud_synced t2).
  { intros Hs. unfold waitForSpeedAnswer in Ea.
    eapply (waitForSpeedAnswer_loop_keeps baud_synced); try exact Ea;
      auto using handleIncomingData_synced, delayMs_synced. }
  clear Ea X1 S1.
  destruct ra as [remoteConfig|];
    [|exists false, t2; repeat split; try discriminate; assumption].
  destruct (negb (hasSpeed remoteConfig targetSpeed));
    [exists false, t2; repeat split; try discriminate; assumption|].
  set (needTest := negb (isCertified remoteConfig targetSpeed)
                   && negb (targetSpeed =? SPEED_1X)).
  set (testSpeed := if needTest then getNextHigherSpeed targetSpeed else targetSpeed).
  destruct (needTest && (testSpeed =? targetSpeed));
    [exists false, t2; repeat split; try discriminate; assumption|].
  set (t3 := sendCommand (buildSpeedNeg testSpeed targetSpeed) t2).
  assert (X3 : tx_extends t t3)
    by (eapply tx_extends_trans; [exact X2 | apply sendCommand_quiet]).
  assert (S3 : baud_synced t -> baud_synced t3)
    by (intros Hs; apply sendCommand_synced; auto).
  clearbody t3. unfold waitForAck.
  destruct (waitFor_terminates parseAck timeoutMs fuel t3 Ht Hfuel)
    as (rk & t4 & Ek & X4).
  rewrite Ek.
  assert (S4 : baud_synced t -> baud_synced t4)
    by (intros Hs; eapply waitFor_synced; [exact Ek | auto]).
  assert (X4' : tx_extends t t4) by (eapply tx_extends_trans; eassumption).
  destruct rk; [|exists false, t4; repeat split; try discriminate; assumption].
  assert (Done : forall t5, tx_extends t t5 ->
            exists r t', Some (true, setSpeed targetSpeed t5) = Some (r, t') /\
              tx_extends t t' /\
              (r = true ->
                 currentSpeed_ t' = targetSpeed /\
                 currentBaudRate (platform_ t') = getBaudRate targetSpeed) /\
              (baud_synced t -> baud_synced t')).
  { intros t5 X5. exists true, (setSpeed targetSpeed t5).
    split; [reflexivity|]. split; [|split].
    - eapply tx_extends_trans; [exact X5 | apply setSpeed_quiet].
    - intros _. apply setSpeed_speed.
    - intros _. apply setSpeed_synced. }
  destruct (negb (targetSpeed =? SPEED_1X) && negb (testSpeed =? targetSpeed));
    [|now apply Done].
  destruct (performSpeedTest_result fuel testSpeed targetSpeed t4 Hfuel30)
    as (rt & t5 & Et & X5 & Ff & _).
  rewrite Et.
  assert (X5' : tx_extends t t5) by (eapply tx_extends_trans; eassumption).
  destruct rt; [now apply Done|].
  exists false, t5. split; [reflexivity|]. split; [exact X5'|].
  split; [discriminate|].
  intros _. destruct (Ff eq_refl) as [A B]. unfold baud_synced. now rewrite A, B.
Qed.

Lemma negotiateSpeed_outcome_witness :
  exists r t',
    negotiateSpeed 40 SPEED_4X 30 scriptedMaster = Some (r, t') /\
    tx_extends scriptedMaster t' /\
    (r = true ->
       currentSpeed_ t' = SPEED_4X /\
       currentBaudRate (platform_ t') = getBaudRate SPEED_4X) /\
    (baud_synced scriptedMaster -> baud_synced t').
Proof.
  apply (negotiateSpeed_outcome 40 SPEED_4X 30 scriptedMaster);
    [reflexivity | simpl; lia | lia].
Defined.

(** ** A remote that stays silent *)

(** A tick of an engine at 1x with nothing to read changes nothing. *)
Lemma handleIncomingData_silent (t : TurboMIDI MockPlatform) :
  rxBuffer (platform_ t) = [] -> currentSpeed_ t = SPEED_1X ->
  handleIncomingData t = t.
Proof.
  intros Hrx Hs. rewrite handleIncomingData_idle.
  - now apply checkTimeouts_1X.
  - simpl. unfold Mock_receiveMidiData. rewrite Hrx.
    destruct t as [[rx tx time baud] ? ? ? ? ? ? ? ? ? ? ? ?]; simpl in *.
    subst rx. reflexivity.
Qed.

Lemma delayMs_add (k : Z) (p : MockPlatform) :
  Mock_delayMs 1 (Mock_delayMs k p) = Mock_delayMs (k + 1) p.
Proof.
  unfold Mock_delayMs, u32. simpl. f_equal.
  rewrite Zplus_mod_idemp_l. f_equal. lia.
Qed.

Lemma delayMs_zero (p : MockPlatform) :
  0 <= currentTime p < 2 ^ 32 -> Mock_delayMs 0 p = p.
Proof.
  destruct p as [rx tx time baud]. unfold Mock_delayMs, u32.
  cbn [rxBuffer txBuffer currentTime currentBaudRate]. intros Ht.
  now rewrite Z.add_0_r, Z.mod_small.
Qed.

Lemma waitForSpeedAnswer_loop_silent (start timeoutMs : Z) (n : nat) :
  forall (fuel : nat) (k : Z) (t : TurboMIDI MockPlatform),
    (n < fuel)%nat ->
    timeoutMs < 2 ^ 32 ->
    rxBuffer (platform_ t) = [] ->
    currentSpeed_ t = SPEED_1X ->
    parseSpeedAnswer t = None ->
    timeoutMs - u32 (currentTime (Mock_delayMs k (platform_ t)) - start)
      = Z.of_nat n ->
    waitForSpeedAnswer_loop fuel start timeoutMs
      (set_platform (Mock_delayMs k (platform_ t)) t)
    = Some (None,
            set_platform (Mock_delayMs (k + Z.of_nat n) (platform_ t)) t).
Proof.
  induction n as [|n IH]; intros fuel k t Hfuel Ht Hrx Hs Hp Hrem;
    (destruct fuel as [|fuel]; [lia|]); cbn [waitForSpeedAnswer_loop];
    set (tk := set_platform (Mock_delayMs k (platform_ t)) t);
    change (getMillis (platform_ tk))
      with (currentTime (Mock_delayMs k (platform_ t))).
  - assert (E : (u32 (currentTime (Mock_delayMs k (platform_ t)) - start)
                 <? timeoutMs) = false) by (apply Z.ltb_ge; lia).
    rewrite E, Z.add_0_r. reflexivity.
  - assert (L : u32 (currentTime (Mock_delayMs k (platform_ t)) - start)
                < timeoutMs) by lia.
    assert (E := proj2 (Z.ltb_lt _ _) L). rewrite E.
    assert (Hk : handleIncomingData tk = tk)
      by (apply handleIncomingData_silent; subst tk;
          destruct t as [[] ? ? ? ? ? ? ? ? ? ? ? ?]; assumption).
    rewrite Hk.
    assert (Pk : parseSpeedAnswer tk = None)
      by (rewrite <- Hp; apply parseSpeedAnswer_buffer; subst tk;
          destruct t; reflexivity).
    rewrite Pk.
    assert (D : set_platform (delayMs 1 (platform_ tk)) tk
                = set_platform (Mock_delayMs (k + 1) (platform_ t)) t)
      by (subst tk; destruct t; simpl; now rewrite delayMs_add).
    rewrite D, (IH fuel (k + 1) t); try assumption; try lia.
    + replace (k + Z.of_nat (S n)) with (k + 1 + Z.of_nat n) by lia. reflexivity.
    + rewrite <- delayMs_add.
      change (currentTime (Mock_delayMs 1 ?p)) with (u32 (currentTime p + 1)).
      rewrite (elapsed_after_delay _ _ timeoutMs) by assumption. lia.
Qed.

(** X23. A silent remote. On the mock platform, a master at 1x with nothing
    to read and no SpeedAnswer in its buffer, asked to negotiate, sends
    SpeedRequest, waits as many milliseconds as the timeout, and returns
    false: SpeedRequest is all it sent, the clock stands [timeoutMs] later,
    and nothing else in the engine has changed. *)
Theorem negotiateSpeed_silent_remote (fuel : nat) (targetSpeed : SpeedMultiplier)
    (timeoutMs : Z) (t : TurboMIDI MockPlatform) :
  role_ t <> SLAVE ->
  currentSpeed_ t = SPEED_1X ->
  rxBuffer (platform_ t) = [] ->
  parseSpeedAnswer t = None ->
  0 <= currentTime (platform_ t) < 2 ^ 32 ->
  0 <= timeoutMs < 2 ^ 32 ->
  (Z.to_nat timeoutMs < fuel)%nat ->
  negotiateSpeed fuel targetSpeed timeoutMs t =
  Some (false,
        set_platform
          (Mock_delayMs timeoutMs (Mock_sendMidiData buildSpeedReq (platform_ t)))
          t).
Proof.
  intros Hrole Hs Hrx Hp Htime Ht Hfuel.
  assert (Hr : DeviceRole_eqb (role_ t) SLAVE = false)
    by (destruct (role_ t); congruence || reflexivity).
  unfold negotiateSpeed. rewrite Hr. unfold waitForSpeedAnswer.
  set (t1 := sendCommand buildSpeedReq t).
  assert (Z0 : Mock_delayMs 0 (platform_ t1) = platform_ t1).
  { apply delayMs_zero. subst t1.
    destruct t as [[] ? ? ? ? ? ? ? ? ? ? ? ?]; exact Htime. }
  assert (E1 : t1 = set_platform (Mock_delayMs 0 (platform_ t1)) t1)
    by (rewrite Z0; destruct t1; reflexivity).
  rewrite E1 at 2.
  rewrite (waitForSpeedAnswer_loop_silent _ timeoutMs (Z.to_nat timeoutMs)).
  - rewrite Z2Nat.id by lia. subst t1.
    destruct t as [[] ? ? ? ? ? ? ? ? ? ? ? ?]; reflexivity.
  - exact Hfuel.
  - lia.
  - subst t1. destruct t as [[] ? ? ? ? ? ? ? ? ? ? ? ?]; exact Hrx.
  - subst t1. destruct t as [[] ? ? ? ? ? ? ? ? ? ? ? ?]; exact Hs.
  - rewrite <- Hp. apply parseSpeedAnswer_buffer. subst t1.
    destruct t; reflexivity.
  - rewrite Z0. change (getMillis (platform_ t1)) with (currentTime (platform_ t1)).
    rewrite Z.sub_diag. change (u32 0) with 0. rewrite Z2Nat.id by lia. lia.
Qed.

Lemma negotiateSpeed_silent_remote_witness :
  negotiateSpeed 31 SPEED_4X 30 (fresh MASTER) =
  Some (false,
        set_platform
          (Mock_delayMs 30
             (Mock_sendMidiData buildSpeedReq (platform_ (fresh MASTER))))
          (fresh MASTER)).
Proof.
  apply (negotiateSpeed_silent_remote 31 SPEED_4X 30 (fresh MASTER)).
  - simpl. discriminate.
  - reflexivity.
  - reflexivity.
  - reflexivity.
  - simpl. lia.
  - lia.
  - simpl. lia.
Defined.

(** X24. The wait for the answer reads the buffer as it stands. On the
    mock platform, if the buffer of an engine at 1x already holds a
    complete SpeedAnswer, left there by an earlier exchange, then with
    nothing at all to read [waitForSpeedAnswer] returns that answer on its
    first round, for any positive timeout, without the clock moving: the
    frame is not consumed by being parsed. *)
Theorem waitForSpeedAnswer_buffered (fuel : nat) (timeoutMs : Z)
    (t : TurboMIDI MockPlatform) (config : SpeedConfig) :
  rxBuffer (platform_ t) = [] ->
  currentSpeed_ t = SPEED_1X ->
  parseSpeedAnswer t = Some config ->
  0 < timeoutMs ->
  waitForSpeedAnswer (S fuel) timeoutMs t = Some (Some config, t).
Proof.
  intros Hrx Hs Hp Ht. unfold waitForSpeedAnswer. cbn [waitForSpeedAnswer_loop].
  rewrite Z.sub_diag. change (u32 0) with 0.
  assert (E := proj2 (Z.ltb_lt 0 timeoutMs) Ht). rewrite E.
  rewrite handleIncomingData_silent by assumption. now rewrite Hp.
Qed.

Lemma waitForSpeedAnswer_buffered_witness :
  let t := set_incomingBuffer (buildSpeedAnswer remote4X) (fresh MASTER) in
  waitForSpeedAnswer 1 30 t = Some (Some remote4X, t).
Proof.
  intros t.
  apply (waitForSpeedAnswer_buffered 0 30 t remote4X); try reflexivity.
Defined.

(** ** Exchanges between a master and a slave *)

(** X25. The slave side of a negotiation with a live test, for all speeds.
    An engine whose role is not MASTER has the target in its capabilities,
    and either does not certify it or is asked to test at another speed
    (speed ids being data bytes). Then the frames SpeedNegotiate(test,
    target), SpeedTest and SpeedTest2, received in this order, make it
    send SpeedAck, SpeedResult and SpeedResult2 and nothing else; between
    the two tests it runs at the test speed, which the capabilities are
    not asked about; and it ends idle, at the target speed and its baud
    rate. *)
Theorem slave_negotiation_with_test (t : TurboMIDI MockPlatform)
    (testSpeed targetSpeed : SpeedMultiplier) :
  role_ t <> MASTER ->
  dataByte testSpeed = true ->
  hasSpeed (localConfig_ t) targetSpeed = true ->
  isCertified (localConfig_ t) targetSpeed = false \/ testSpeed <> targetSpeed ->
  let t1 := processIncomingBytes (buildSpeedNeg testSpeed targetSpeed) t in
  let t2 := processIncomingBytes buildSpeedTest t1 in
  let t3 := processIncomingBytes buildSpeedTest2 t2 in
  currentSpeed_ t2 = testSpeed /\
  currentBaudRate (platform_ t2) = getBaudRate testSpeed /\
  txBuffer (platform_ t3) =
    txBuffer (platform_ t) ++ buildSpeedAck ++ buildSpeedResult ++ buildSpeedResult2 /\
  currentSpeed_ t3 = targetSpeed /\
  currentBaudRate (platform_ t3) = getBaudRate targetSpeed /\
  testState_ t3 = IDLE.
Proof.
  intros Hrole Ht Hhas Hno t1 t2 t3.
  pose proof (hasSpeed_range _ _ Hhas) as Hr.
  assert (Hg : dataByte targetSpeed = true) by (apply dataByte_below; lia).
  assert (E1 : t1 =
    set_testState WAITING_FOR_TEST
      (set_pendingTargetSpeed targetSpeed
         (set_pendingTestSpeed testSpeed
            (sendCommand buildSpeedAck
               (set_incomingBuffer (buildSpeedNeg testSpeed targetSpeed)
                  (set_lastMessageTime (getMillis (platform_ t)) t)))))).
  { subst t1. rewrite speedNeg_received by assumption. cbv zeta.
    rewrite Hhas.
    assert (N1 : (targetSpeed =? SPEED_1X) = false)
      by (apply Z.eqb_neq; unfold SPEED_1X; lia).
    assert (N2 : isCertified (localConfig_ t) targetSpeed
                 && (testSpeed =? targetSpeed) = false).
    { destruct Hno as [E | N]; [now rewrite E|].
      apply Z.eqb_neq in N. rewrite N. apply andb_false_r. }
    now rewrite N1, N2. }
  assert (E2 : t2 =
    set_testState WAITING_FOR_TEST2
      (sendCommand buildSpeedResult
         (setSpeed testSpeed
            (set_incomingBuffer buildSpeedTest
               (set_lastMessageTime (getMillis (platform_ t1)) t1))))).
  { subst t2.
    change buildSpeedTest
      with (SYSEX_START ::
              [0; 0x20; 0x3C; 0; 0; SPEED_TEST; 0x55; 0x55; 0x55; 0x55; 0; 0; 0; 0]
              ++ [SYSEX_END]).
    rewrite processIncomingBytes_frame by reflexivity.
    rewrite E1. destruct t as [? [] ? ? ? ? ? ? ? ? ? ? ?];
      [contradiction Hrole; reflexivity | |]; vm_compute; reflexivity. }
  assert (E3 : t3 =
    set_testState IDLE
      (setSpeed targetSpeed
         (sendCommand buildSpeedResult2
            (set_incomingBuffer buildSpeedTest2
               (set_lastMessageTime (getMillis (platform_ t2)) t2))))).
  { subst t3.
    change buildSpeedTest2
      with (SYSEX_START :: [0; 0x20; 0x3C; 0; 0; SPEED_TEST2] ++ [SYSEX_END]).
    rewrite processIncomingBytes_frame by reflexivity.
    rewrite E2, E1. destruct t as [? [] ? ? ? ? ? ? ? ? [] ? ?];
      try (contradiction Hrole; reflexivity); vm_compute; reflexivity. }
  clearbody t1 t2 t3. subst t3 t2 t1.
  destruct t as [[rx tx time baud] ? ? ? ? ? ? ? ? ? [] ? ?];
    unfold setSpeed; cbn; rewrite <- ?app_assoc; repeat split.
Qed.

Lemma slave_negotiation_with_test_witness :
  let t1 := processIncomingBytes (buildSpeedNeg SPEED_5X SPEED_4X) testSlave in
  let t2 := processIncomingBytes buildSpeedTest t1 in
  let t3 := processIncomingBytes buildSpeedTest2 t2 in
  hasSpeed (localConfig_ testSlave) SPEED_5X = false /\
  currentSpeed_ t2 = SPEED_5X /\
  currentSpeed_ t3 = SPEED_4X /\
  testState_ t3 = IDLE.
Proof.
  destruct (slave_negotiation_with_test testSlave SPEED_5X SPEED_4X
              ltac:(simpl; discriminate) eq_refl eq_refl
              ltac:(left; reflexivity)) as (A & _ & _ & B & _ & C).
  split; [reflexivity|]. split; [exact A|]. split; [exact B | exact C].
Defined.

Lemma speed_bits_only_not_start (c : SpeedConfig) :
  speed_bits_only c ->
  mask1 c <> 0xF0 /\ mask2 c <> 0xF0 /\ cert1 c <> 0xF0 /\ cert2 c <> 0xF0.
Proof. unfold speed_bits_only. lia. Qed.

(** X26. The capability exchange is faithful. A slave (role not MASTER)
    whose capabilities were built by configuration calls on the default
    set answers a SpeedRequest with one frame, SpeedAnswer of its
    capabilities; and a master, in any state, that receives this frame
    parses out of it exactly the capabilities of the slave. *)
Theorem capability_exchange (slave master : TurboMIDI MockPlatform)
    (calls : list (SpeedMultiplier * bool)) :
  role_ slave <> MASTER ->
  localConfig_ slave = configure calls SpeedConfig_default ->
  let reply := buildSpeedAnswer (localConfig_ slave) in
  txBuffer (platform_ (processIncomingBytes buildSpeedReq slave))
    = txBuffer (platform_ slave) ++ reply /\
  parseSpeedAnswer (processIncomingBytes reply master)
    = Some (localConfig_ slave).
Proof.
  intros Hrole Hcfg reply. split.
  - change buildSpeedReq
      with (SYSEX_START :: [0; 0x20; 0x3C; 0; 0; SPEED_REQ] ++ [SYSEX_END]).
    rewrite processIncomingBytes_frame by reflexivity.
    destruct slave as [[] [] ? ? ? ? ? ? ? ? ? [] ?];
      try (contradiction Hrole; reflexivity); reflexivity.
  - assert (B : speed_bits_only (localConfig_ slave)).
    { rewrite Hcfg. apply configure_keeps_speed_bits_only.
      unfold speed_bits_only; simpl; lia. }
    apply speed_bits_only_not_start in B as (B1 & B2 & B3 & B4).
    rewrite <- (parseSpeedAnswer_buildSpeedAnswer_buffer (localConfig_ slave))
      by assumption.
    subst reply. unfold parseSpeedAnswer.
    rewrite (getParsedMessages_buffer _ (buildSpeedAnswer (localConfig_ slave)));
      [reflexivity|].
    change (buildSpeedAnswer (localConfig_ slave))
      with (SYSEX_START ::
              [0; 0x20; 0x3C; 0; 0; SPEED_ANSWER;
               mask1 (localConfig_ slave); mask2 (localConfig_ slave);
               cert1 (localConfig_ slave); cert2 (localConfig_ slave);
               SYSEX_END]).
    apply processIncomingBytes_whole_frame.
    apply Z.eqb_neq in B1, B2, B3, B4.
    cbn [forallb]. unfold SYSEX_START. rewrite B1, B2, B3, B4. reflexivity.
Qed.

Lemma capability_exchange_witness :
  parseSpeedAnswer
    (processIncomingBytes (buildSpeedAnswer (localConfig_ testSlave))
       (fresh MASTER))
  = Some (localConfig_ testSlave).
Proof.
  apply (proj2 (capability_exchange testSlave (fresh MASTER)
                  [(SPEED_4X, false); (SPEED_8X, true)]
                  ltac:(simpl; discriminate) eq_refl)).
Defined.
